(** * SSBtoolkit: binding curves, dose-response analysis and model calibration

    A shallow embedding of [src/lib/ssbtoolkit.py]: the classes [binding],
    [simulation.activation], [simulation.inhibition] and
    [simulation.fitModel].

    Conventions of the embedding.
    - A Python call either returns or raises: [pyres A] is [Ok a] or
      [Raise e], threaded with [x <- e ;; k].
    - A [dict] is an association list in insertion order ([d[k] = v]
      replaces in place or appends), as Python keeps it.
    - An instance attribute is a [slot]: [Absent] (never assigned: reading it
      raises AttributeError), [PyNone] (holds [None]) or [Val v].
    - Floating-point numbers are idealised: real numbers [R] in the binding
      and analysis code (no NaN, no infinity; the rounding routine [round]
      and [np.log10] are called, not modelled), an abstract type [num] with
      the operations the code applies to it in the sweep and calibration
      code.
    - Output ([print], the progress bar) is left out; an exception ends the
      call and the attributes assigned before it are not tracked.
    - numpy, scipy, scikit-learn, PySB and the pathway modules are outside
      the file: each routine the code calls is a Section variable. *)

From Stdlib Require Import List String ZArith Bool Lia Reals Lra.
Import ListNotations.

Set Implicit Arguments.

(* ================================================================= *)
(** ** Python results, attributes and dictionaries *)

Module Py.

Inductive exn : Type :=
| TypeError (msg : string)
| AttributeError (attr : string)
| KeyError (key : string)
| IndexError (msg : string)
| ValueError (msg : string)
| NameError (name : string)
| Exception (msg : string)
| ExternalError (msg : string).

Inductive pyres (A : Type) : Type :=
| Ok (a : A)
| Raise (e : exn).

Arguments Ok {A} a.
Arguments Raise {A} e.

Definition bind {A B : Type} (m : pyres A) (k : A -> pyres B) : pyres B :=
  match m with
  | Ok a => k a
  | Raise e => Raise e
  end.

Inductive slot (A : Type) : Type :=
| Absent
| PyNone
| Val (a : A).

Arguments Absent {A}.
Arguments PyNone {A}.
Arguments Val {A} a.

Definition dict (V : Type) : Type := list (string * V).

Fixpoint dict_get {V : Type} (d : dict V) (k : string) : option V :=
  match d with
  | [] => None
  | (k', v) :: d' => if String.eqb k k' then Some v else dict_get d' k
  end.

(** [d[k] = v] *)
Fixpoint dict_set {V : Type} (d : dict V) (k : string) (v : V) : dict V :=
  match d with
  | [] => [(k, v)]
  | (k', v') :: d' =>
      if String.eqb k k' then (k', v) :: d' else (k', v') :: dict_set d' k v
  end.

(** [d.update(d2)], and [{**d, **d2}] on a fresh copy of [d] *)
Definition dict_update {V : Type} (d d2 : dict V) : dict V :=
  fold_left (fun acc kv => dict_set acc (fst kv) (snd kv)) d2 d.

(** [d[k]] read: KeyError when the key is missing *)
Definition dict_item {V : Type} (d : dict V) (k : string) : pyres V :=
  match dict_get d k with
  | Some v => Ok v
  | None => Raise (KeyError k)
  end.

Definition dict_keys {V : Type} (d : dict V) : list string := map fst d.

(** [xs[i]] on a list or array, [0 <= i] *)
Definition index {A : Type} (xs : list A) (i : nat) : pyres A :=
  match nth_error xs i with
  | Some x => Ok x
  | None => Raise (IndexError "index out of range")
  end.

(** [for x in xs: acc = body(acc, x)], stopping at the first exception *)
Fixpoint for_each {A S : Type} (xs : list A) (body : S -> A -> pyres S) (acc : S)
  : pyres S :=
  match xs with
  | [] => Ok acc
  | x :: xs' => bind (body acc x) (for_each xs' body)
  end.

(** Reading an attribute: AttributeError when it was never assigned. *)
Definition attr {A : Type} (name : string) (s : slot A) : pyres (option A) :=
  match s with
  | Absent => Raise (AttributeError name)
  | PyNone => Ok None
  | Val a => Ok (Some a)
  end.

(** Reading an attribute as the operand of an arithmetic or string
    operator: [None] there is a TypeError. *)
Definition operand {A : Type} (name : string) (s : slot A) : pyres A :=
  match s with
  | Absent => Raise (AttributeError name)
  | PyNone => Raise (TypeError "unsupported operand type(s): 'NoneType'")
  | Val a => Ok a
  end.

End Py.

Import Py.

Declare Scope py_scope.
Notation "x <- e ;; k" := (Py.bind e (fun x => k))
  (at level 61, e at next level, right associativity) : py_scope.
Open Scope py_scope.

(* ================================================================= *)
(** ** Facts about results, attributes and dictionary reads *)

Module PyFacts.

Lemma bind_Ok : forall (A B : Type) (m : pyres A) (k : A -> pyres B) (b : B),
  Py.bind m k = Ok b -> exists a, m = Ok a /\ k a = Ok b.
Proof.
  intros A B [a | e] k b H; simpl in H; [eauto | discriminate].
Qed.

Lemma operand_Ok : forall (A : Type) (name : string) (s : slot A) (a : A),
  operand name s = Ok a -> s = Val a.
Proof.
  intros A name [| |v] a H; simpl in H; try discriminate.
  inversion H; reflexivity.
Qed.

Lemma dict_item_Ok : forall (V : Type) (d : dict V) (k : string) (v : V),
  dict_item d k = Ok v -> dict_get d k = Some v.
Proof.
  intros V d k v H. unfold dict_item in H.
  destruct (dict_get d k); [inversion H; reflexivity | discriminate].
Qed.

End PyFacts.

Import PyFacts.

(* ================================================================= *)
(** ** simulation.fitModel: the calibration search *)

Module FitModel.

(** How the [for idx in range(self._maxiter)] loop of [Run] ends: by its
    [break] (after printing DONE!) or by the range running out. *)
Inductive loop_exit : Type := Converged | Exhausted.

(** What one pass through the loop body does to the loop. *)
Inductive ctl : Type := Break | Continue.

Section Calibration.

(** Floating-point values and the operations the search applies to them. *)
Variable num : Type.
Variables num_eqb num_ltb : num -> num -> bool.
Variables num_add num_sub num_mul num_div : num -> num -> num.
Variable num_of_int : Z -> num.
(** [int(x)] *)
Variable int_of_num : num -> Z.
(** [round(x, ndigits)] *)
Variable round : num -> Z -> num.
(** [abs(decimal.Decimal(str(x).rstrip('0')).as_tuple().exponent)] *)
Variable decimal_exponent : num -> Z.
Variable num_1E3 : num.

(** [mypathway.network(LR=..., kinetics=..., **parameters)]: a keyword that
    is not passed is [Absent] / [None]. *)
Record network_args : Type := {
  arg_LR : slot num;
  arg_kinetics : option bool;
  arg_parameters : dict num
}.

(** External collaborators. *)
(** [pl.geomspace(0.00001, ttotal, num=nsteps)] *)
Variable geomspace : Z -> slot Z -> pyres (list num).
(** [scipy.signal.find_peaks(x)[0]] *)
Variable find_peaks : list num -> list nat.
(** [pd.read_csv('src/lib/pathways/{}_parameters.csv'.format(pathway))
    .set_index('Parameter').iloc[:,0].to_dict()] *)
Variable read_csv : string -> pyres (dict num).
(** [mypathway.defaultParameters] of the imported pathway module *)
Variable defaultParameters : string -> dict num.
(** [ScipyOdeSimulator(mypathway.network(...), tspan=t, compiler='cython').run().all] *)
Variable simulate : string -> network_args -> list num -> pyres (dict (list num)).

(** The attributes of a [fitModel] instance that [Run] reads or writes. *)
Record fitModel : Type := {
  _expratio : slot num;
  _seed : slot num;
  _maxiter : slot Z;
  _seed_incrementor : slot num;
  _seed_decrementor : slot num;
  _target_parameter : slot string;
  _ttotal : slot Z;
  _nsteps : slot Z;
  _pathway : slot string;
  _observable : slot string;
  pathway_parameters : slot (dict num);
  _DefaultPathwayParametersDataFrame : slot (dict num);
  _DefaultPathwayParametersTable : slot (dict num);
  _PathwayParameters : slot (dict num);
  simtime : slot (list num);
  simres1 : slot (dict (list num));
  _iteration : slot Z;
  _lst_ratio : list num;
  _lst_seed : list num;
  _fold : slot num
}.

(** [__init__]: [_seed_decrementor] is not among the attributes it creates. *)
Definition init : fitModel := {|
  _expratio := PyNone;
  _seed := PyNone;
  _maxiter := PyNone;
  _seed_incrementor := PyNone;
  _seed_decrementor := Absent;
  _target_parameter := PyNone;
  _ttotal := PyNone;
  _nsteps := PyNone;
  _pathway := PyNone;
  _observable := PyNone;
  pathway_parameters := Val [];
  _DefaultPathwayParametersDataFrame := Absent;
  _DefaultPathwayParametersTable := Absent;
  _PathwayParameters := Absent;
  simtime := Absent;
  simres1 := Absent;
  _iteration := Absent;
  _lst_ratio := [];
  _lst_seed := [];
  _fold := Absent
|}.

(** Keyword arguments: [None] is a key that is not passed.  The values are
    taken after the conversions [int(...)], [float(...)], [str(...)]. *)
Record sim_kwargs : Type := {
  kw_pathway_parameters : option (slot (dict num));
  kw_ttotal : option Z;
  kw_nsteps : option Z;
  kw_pathway : option string;
  kw_observable : option string
}.

Record run_kwargs : Type := {
  kw_expratio : option num;
  kw_seed : option num;
  kw_maxiter : option Z;
  kw_seed_incrementor : option num;
  kw_seed_decrementor : option num;
  kw_target_parameter : option string
}.

Definition available_pathways : list string :=
  ["Gs"; "Gi"; "Gq"; "OXTR_pathway"]%string.

Definition mem (s : string) (l : list string) : bool :=
  existsb (String.eqb s) l.

Definition SetSimulationParameters (self : fitModel) (kw : sim_kwargs)
  : pyres fitModel :=
  let pp := match kw_pathway_parameters kw with
            | Some d => d
            | None => pathway_parameters self
            end in
  ttotal <- match kw_ttotal kw with
            | Some t => Ok t
            | None => Raise (TypeError "ttotal undefined.")
            end ;;
  let nsteps := match kw_nsteps kw with
                | Some n => Val n
                | None => _nsteps self
                end in
  pathway <- match kw_pathway kw with
             | Some p => Ok p
             | None => Raise (TypeError "pathway undefined.")
             end ;;
  let pathway := if String.eqb pathway "Gz(Gi)" then "Gi"%string else pathway in
  if negb (mem pathway available_pathways)
  then Raise (Exception "Unvailable Pathway. Please, introduce it manually.")
  else
    observable <- match kw_observable kw with
                  | Some o => Ok o
                  | None => Raise (TypeError "observable undefined.")
                  end ;;
    Ok {| _expratio := _expratio self;
          _seed := _seed self;
          _maxiter := _maxiter self;
          _seed_incrementor := _seed_incrementor self;
          _seed_decrementor := _seed_decrementor self;
          _target_parameter := _target_parameter self;
          _ttotal := Val ttotal;
          _nsteps := nsteps;
          _pathway := Val pathway;
          _observable := Val observable;
          pathway_parameters := pp;
          _DefaultPathwayParametersDataFrame := Val [];
          _DefaultPathwayParametersTable := _DefaultPathwayParametersTable self;
          _PathwayParameters := _PathwayParameters self;
          simtime := simtime self;
          simres1 := simres1 self;
          _iteration := _iteration self;
          _lst_ratio := _lst_ratio self;
          _lst_seed := _lst_seed self;
          _fold := _fold self |}.

(** Lines 1441-1466: keyword arguments.  [maxiter], [seed_incrementor] and
    [seed_decrementor] are assigned only under [if '<key>' in kwargs], so
    the default of [kwargs.pop('<key>', default)] is never taken. *)
Definition read_kwargs (self : fitModel) (kw : run_kwargs) : pyres fitModel :=
  expratio <- match kw_expratio kw with
              | Some x => Ok x
              | None => Raise (TypeError "exratio undefined.")
              end ;;
  seed <- match kw_seed kw with
          | Some x => Ok x
          | None => Raise (TypeError "seed undefined.")
          end ;;
  let maxiter := match kw_maxiter kw with
                 | Some n => Val n
                 | None => _maxiter self
                 end in
  let incrementor := match kw_seed_incrementor kw with
                     | Some x => Val x
                     | None => _seed_incrementor self
                     end in
  let decrementor := match kw_seed_decrementor kw with
                     | Some x => Val x
                     | None => _seed_decrementor self
                     end in
  target <- match kw_target_parameter kw with
            | Some x => Ok x
            | None => Raise (TypeError "target_parameter undefined.")
            end ;;
  Ok {| _expratio := Val expratio;
        _seed := Val seed;
        _maxiter := maxiter;
        _seed_incrementor := incrementor;
        _seed_decrementor := decrementor;
        _target_parameter := Val target;
        _ttotal := _ttotal self;
        _nsteps := _nsteps self;
        _pathway := _pathway self;
        _observable := _observable self;
        pathway_parameters := pathway_parameters self;
        _DefaultPathwayParametersDataFrame := _DefaultPathwayParametersDataFrame self;
        _DefaultPathwayParametersTable := _DefaultPathwayParametersTable self;
        _PathwayParameters := _PathwayParameters self;
        simtime := simtime self;
        simres1 := simres1 self;
        _iteration := _iteration self;
        _lst_ratio := _lst_ratio self;
        _lst_seed := _lst_seed self;
        _fold := _fold self |}.

(** Lines 1469-1492: the effective parameter table.  The edited table
    ([get_changed_df()]) is used when it can be read, the data frame itself
    under the bare [except:]. *)
Definition edited_table (self : fitModel) (df : dict num) : dict num :=
  match _DefaultPathwayParametersTable self with
  | Val t => t
  | _ => df
  end.

Definition format_slot (s : slot string) : string :=
  match s with
  | Val p => p
  | _ => "None"%string
  end.

Definition is_empty {A : Type} (l : list A) : bool :=
  match l with
  | [] => true
  | _ => false
  end.

Definition load_parameters (self : fitModel) : pyres (dict num * dict num) :=
  df0 <- attr "_DefaultPathwayParametersDataFrame"
              (_DefaultPathwayParametersDataFrame self) ;;
  let df := match df0 with Some d => d | None => [] end in
  pp <- attr "pathway_parameters" (pathway_parameters self) ;;
  match is_empty df, pp with
  | true, None =>
      csv <- read_csv (format_slot (_pathway self)) ;;
      Ok (csv, csv)
  | false, None =>
      Ok (df, edited_table self df)
  | true, Some over =>
      csv <- read_csv (format_slot (_pathway self)) ;;
      Ok (csv, dict_update csv over)
  | false, Some over =>
      Ok (df, dict_update (edited_table self df) over)
  end.

(** [if not self._ttotal] *)
Definition falsy_int (s : slot Z) : pyres bool :=
  v <- attr "_ttotal" s ;;
  Ok (match v with
      | None => true
      | Some n => (n =? 0)%Z
      end).

(** Lines 1441-1552 of [Run]: everything before the loop. *)
Definition prepare (self : fitModel) (kw : run_kwargs) : pyres fitModel :=
  s1 <- read_kwargs self kw ;;
  tables <- load_parameters s1 ;;
  no_time <- falsy_int (_ttotal s1) ;;
  if no_time
  then Raise (TypeError "simulation parameters unknown.")
  else
    pathway <- operand "_pathway" (_pathway s1) ;;
    ttotal <- operand "_ttotal" (_ttotal s1) ;;
    t <- geomspace ttotal (_nsteps s1) ;;
    res1 <- simulate pathway
              {| arg_LR := PyNone; arg_kinetics := Some true;
                 arg_parameters := snd tables |} t ;;
    Ok {| _expratio := _expratio s1;
          _seed := _seed s1;
          _maxiter := _maxiter s1;
          _seed_incrementor := _seed_incrementor s1;
          _seed_decrementor := _seed_decrementor s1;
          _target_parameter := _target_parameter s1;
          _ttotal := _ttotal s1;
          _nsteps := _nsteps s1;
          _pathway := _pathway s1;
          _observable := _observable s1;
          pathway_parameters := pathway_parameters s1;
          _DefaultPathwayParametersDataFrame := Val (fst tables);
          _DefaultPathwayParametersTable := _DefaultPathwayParametersTable s1;
          _PathwayParameters := Val (snd tables);
          simtime := Val t;
          simres1 := Val res1;
          _iteration := Val 1%Z;
          _lst_ratio := [];
          _lst_seed := [];
          _fold := _fold s1 |}.

(** [np.where(simtime > c)[0]]: the positions, counted from [i]. *)
Fixpoint where_gt (c : num) (ts : list num) (i : nat) : list nat :=
  match ts with
  | [] => []
  | t :: ts' =>
      if num_ltb c t then i :: where_gt c ts' (S i) else where_gt c ts' (S i)
  end.

(** [xs[idx]] with an array of positions, and [np.take(xs, idx)] *)
Fixpoint take (xs : list num) (idx : list nat) : pyres (list num) :=
  match idx with
  | [] => Ok []
  | i :: idx' =>
      x <- index xs i ;;
      rest <- take xs idx' ;;
      Ok (x :: rest)
  end.

(** [xs[-1]] *)
Definition last_item (xs : list num) : pyres num :=
  match rev xs with
  | x :: _ => Ok x
  | [] => Raise (IndexError "index -1 is out of bounds for axis 0 with size 0")
  end.

(** Value of the last detected peak of a curve, times 1E3:
    [curve[find_peaks(curve)[0]][-1]*1E3]. *)
Definition last_peak (curve : list num) : pyres num :=
  peaks <- take curve (find_peaks curve) ;;
  v <- last_item peaks ;;
  Ok (num_mul v num_1E3).

(** [calc_ratio(self)], lines 1509-1546, with [self.new_pathway_parameters]
    as its second argument. *)
Definition calc_ratio (st : fitModel) (new_pathway_parameters : dict num)
  : pyres num :=
  pathway <- operand "_pathway" (_pathway st) ;;
  t <- operand "simtime" (simtime st) ;;
  res2 <- simulate pathway
            {| arg_LR := Absent; arg_kinetics := None;
               arg_parameters := new_pathway_parameters |} t ;;
  observable <- operand "_observable" (_observable st) ;;
  let obs_name := ("obs_" ++ observable)%string in
  res1 <- operand "simres1" (simres1 st) ;;
  obs_1 <- dict_item res1 obs_name ;;
  obs_2 <- dict_item res2 obs_name ;;
  let threshold := match dict_get new_pathway_parameters "time_in" with
                   | Some time_in => num_of_int (int_of_num time_in)
                   | None => num_of_int 0%Z
                   end in
  let kept := where_gt threshold t 0 in
  obs_curve_1 <- take obs_1 kept ;;
  obs_curve_2 <- take obs_2 kept ;;
  vmax_obs_curve_1 <- last_peak obs_curve_1 ;;
  vmax_obs_curve_2 <- last_peak obs_curve_2 ;;
  expratio <- operand "_expratio" (_expratio st) ;;
  Ok (round (num_div vmax_obs_curve_2 vmax_obs_curve_1)
            (decimal_exponent expratio)).

(** The attributes the loop body assigns. *)
Definition with_search (st : fitModel) (seed : num) (iteration : slot Z)
  (ratios seeds : list num) (fold : slot num) : fitModel :=
  {| _expratio := _expratio st;
     _seed := Val seed;
     _maxiter := _maxiter st;
     _seed_incrementor := _seed_incrementor st;
     _seed_decrementor := _seed_decrementor st;
     _target_parameter := _target_parameter st;
     _ttotal := _ttotal st;
     _nsteps := _nsteps st;
     _pathway := _pathway st;
     _observable := _observable st;
     pathway_parameters := pathway_parameters st;
     _DefaultPathwayParametersDataFrame := _DefaultPathwayParametersDataFrame st;
     _DefaultPathwayParametersTable := _DefaultPathwayParametersTable st;
     _PathwayParameters := _PathwayParameters st;
     simtime := simtime st;
     simres1 := simres1 st;
     _iteration := iteration;
     _lst_ratio := ratios;
     _lst_seed := seeds;
     _fold := fold |}.

(** [self._iteration += 1] *)
Definition incr (s : slot Z) : pyres (slot Z) :=
  n <- operand "_iteration" s ;;
  Ok (Val (n + 1)%Z).

(** The ratio of one trial at the current seed: the first two statements of
    the loop body, lines 1560-1561. *)
Definition trial_ratio (st : fitModel) (seed : num) : pyres num :=
  pathway <- operand "_pathway" (_pathway st) ;;
  target <- operand "_target_parameter" (_target_parameter st) ;;
  params <- operand "_PathwayParameters" (_PathwayParameters st) ;;
  default <- dict_item (defaultParameters pathway) target ;;
  calc_ratio st (dict_update params [(target, num_mul default seed)]).

(** The loop body, lines 1556-1582. *)
Definition trial (st : fitModel) : pyres (ctl * fitModel) :=
  seed <- operand "_seed" (_seed st) ;;
  obs_ratio <- trial_ratio st seed ;;
  expratio <- operand "_expratio" (_expratio st) ;;
  let ratios := _lst_ratio st ++ [obs_ratio] in
  let seeds := _lst_seed st ++ [seed] in
  if num_eqb obs_ratio expratio then
    Ok (Break,
        with_search st seed (_iteration st) ratios seeds
          (Val (round seed (decimal_exponent expratio))))
  else if num_ltb obs_ratio expratio then
    iteration <- incr (_iteration st) ;;
    step <- operand "_seed_incrementor" (_seed_incrementor st) ;;
    Ok (Continue,
        with_search st (num_add seed step) iteration ratios seeds (_fold st))
  else
    iteration <- incr (_iteration st) ;;
    step <- operand "_seed_decrementor" (_seed_decrementor st) ;;
    Ok (Continue,
        with_search st (num_sub seed step) iteration ratios seeds (_fold st)).

(** [for idx in range(n)]: at most [n] passes through the body. *)
Fixpoint search (n : nat) (st : fitModel) : pyres (loop_exit * fitModel) :=
  match n with
  | O => Ok (Exhausted, st)
  | S n' =>
      r <- trial st ;;
      match fst r with
      | Break => Ok (Converged, snd r)
      | Continue => search n' (snd r)
      end
  end.

(** [range(self._maxiter)] *)
Definition range (s : slot Z) : pyres nat :=
  v <- attr "_maxiter" s ;;
  match v with
  | Some n => Ok (Z.to_nat n)
  | None => Raise (TypeError "'NoneType' object cannot be interpreted as an integer")
  end.

(** Lines 1554-1584 of [Run]. *)
Definition search_loop (st : fitModel) : pyres (loop_exit * fitModel) :=
  n <- range (_maxiter st) ;;
  search n st.

Definition Run (self : fitModel) (kw : run_kwargs)
  : pyres (loop_exit * fitModel) :=
  st <- prepare self kw ;;
  search_loop st.

(** *** The search as the specification words it

    From a seed [s]: stop converged when the ratio at [s] equals the target;
    step the seed up by the increment when the ratio is below the target and
    down by the decrement otherwise; stop exhausted when the budget of trials
    is used up.  [trace n s trials e] lists the (seed, ratio) pairs of such a
    search with budget [n]. *)

Section Trace.

Variable ratio_of : num -> pyres num.
Variables expratio inc dec : num.









End Trace.

(** *** The loop of [Run] against that search *)

(** The state of the search while the loop runs: the attributes the body
    reads but never assigns hold values, and the two lists have grown by the
    trials made so far. *)
Record running (st0 st : fitModel) (expratio : num) (inc dec : slot num)
  : Prop := {
  run_expratio : _expratio st = Val expratio;
  run_incrementor : _seed_incrementor st = inc;
  run_decrementor : _seed_decrementor st = dec;
  run_iteration : exists k, _iteration st = Val k;
  run_ratio : forall s, trial_ratio st s = trial_ratio st0 s
}.

Lemma running_with_search :
  forall st0 st expratio inc dec seed k ratios seeds fold,
    running st0 st expratio inc dec ->
    running st0 (with_search st seed (Val k) ratios seeds fold) expratio inc dec.
Proof.
  intros st0 st expratio inc dec seed k ratios seeds fold [H1 H2 H3 H4 H5].
  constructor; simpl; try assumption.
  exists k; reflexivity.
Qed.



(** The loop body leaves the set-up of the search as it found it. *)
Lemma trial_running :
  forall st0 expratio inc dec st c st1,
    running st0 st expratio inc dec ->
    trial st = Ok (c, st1) ->
    running st0 st1 expratio inc dec /\ exists seed1, _seed st1 = Val seed1.
Proof.
  intros st0 expratio inc dec st c st1 Hrun Htrial.
  unfold trial in Htrial.
  apply bind_Ok in Htrial. destruct Htrial as (seed & _ & Htrial).
  apply bind_Ok in Htrial. destruct Htrial as (r & _ & Htrial).
  apply bind_Ok in Htrial. destruct Htrial as (e & _ & Htrial).
  destruct (run_iteration Hrun) as [k Hk]. rewrite Hk in Htrial.
  destruct (num_eqb r e).
  - inversion Htrial; subst.
    split; [apply running_with_search; assumption | eexists; reflexivity].
  - destruct (num_ltb r e); simpl in Htrial;
      apply bind_Ok in Htrial; destruct Htrial as (step & _ & Htrial);
      inversion Htrial; subst;
      (split; [apply running_with_search; assumption | eexists; reflexivity]).
Qed.

Lemma search_running :
  forall st0 expratio inc dec n st e st1 seed,
    running st0 st expratio inc dec ->
    _seed st = Val seed ->
    search n st = Ok (e, st1) ->
    running st0 st1 expratio inc dec /\ exists seed1, _seed st1 = Val seed1.
Proof.
  intros st0 expratio inc dec n.
  induction n as [|n IH]; intros st e st1 seed Hrun Hseed Hsearch; simpl in Hsearch.
  - inversion Hsearch; subst. eauto.
  - apply bind_Ok in Hsearch. destruct Hsearch as ([c st2] & Htrial & Hrest).
    destruct (trial_running Hrun Htrial) as [Hrun2 [seed2 Hseed2]].
    simpl in Hrest. destruct c.
    + inversion Hrest; subst. eauto.
    + eapply IH; eassumption.
Qed.

(** [j] trials that neither converge nor raise, then the rest of the budget. *)
Lemma search_add :
  forall j m st st1,
    search j st = Ok (Exhausted, st1) ->
    search (j + m) st = search m st1.
Proof.
  induction j as [|j IH]; intros m st st1 H; simpl in *.
  - inversion H; reflexivity.
  - destruct (trial st) as [[c st2] | e]; simpl in *; [|discriminate].
    destruct c; [discriminate | apply IH; assumption].
Qed.

(** What [prepare] leaves in the attributes the loop reads. *)
Lemma prepare_inv :
  forall self kw st,
    prepare self kw = Ok st ->
    exists expratio seed,
      kw_expratio kw = Some expratio /\ kw_seed kw = Some seed /\
      _seed st = Val seed /\
      _maxiter st = match kw_maxiter kw with
                    | Some n => Val n
                    | None => _maxiter self
                    end /\
      _lst_ratio st = [] /\ _lst_seed st = [] /\
      running st st expratio
        (match kw_seed_incrementor kw with
         | Some x => Val x
         | None => _seed_incrementor self
         end)
        (match kw_seed_decrementor kw with
         | Some x => Val x
         | None => _seed_decrementor self
         end).
Proof.
  intros self kw st H. unfold prepare in H.
  apply bind_Ok in H. destruct H as (s1 & Hkw & H).
  apply bind_Ok in H. destruct H as (tables & _ & H).
  apply bind_Ok in H. destruct H as (no_time & _ & H).
  destruct no_time; [discriminate|].
  apply bind_Ok in H. destruct H as (pathway & _ & H).
  apply bind_Ok in H. destruct H as (ttotal & _ & H).
  apply bind_Ok in H. destruct H as (t & _ & H).
  apply bind_Ok in H. destruct H as (res1 & _ & H).
  unfold read_kwargs in Hkw.
  destruct (kw_expratio kw) as [expratio|]; [|discriminate].
  destruct (kw_seed kw) as [seed|]; [|discriminate].
  destruct (kw_target_parameter kw) as [target|]; [|discriminate].
  simpl in Hkw. inversion Hkw; subst s1; clear Hkw.
  inversion H; subst st; clear H. simpl.
  exists expratio, seed. repeat split.
  simpl. exists 1%Z; reflexivity.
Qed.

(** What [SetSimulationParameters] after [__init__] leaves in the three
    attributes [Run] assigns only under a key-presence test. *)
Lemma fresh_instance :
  forall skw self,
    SetSimulationParameters init skw = Ok self ->
    _maxiter self = PyNone /\
    _seed_incrementor self = PyNone /\
    _seed_decrementor self = Absent.
Proof.
  intros skw self H. unfold SetSimulationParameters in H.
  destruct (kw_ttotal skw); [|discriminate].
  destruct (kw_pathway skw); [|discriminate].
  simpl in H.
  match type of H with (if ?c then _ else _) = _ => destruct c end;
    [discriminate|].
  destruct (kw_observable skw); [|discriminate].
  simpl in H. inversion H; subst self. simpl. repeat split.
Qed.




(** Omitted keywords of [Run].  On an instance configured from [__init__] by
    [SetSimulationParameters], a call of [Run] that gets as far as the loop:
    - without [maxiter], finds [_maxiter] still [None] and raises TypeError at
      [range(self._maxiter)];
    - with [maxiter], after [j] trials that neither converged nor raised, at
      a trial within the budget whose ratio does not match the target:
      without [seed_incrementor] and with the ratio below the target,
      [_seed_incrementor] is still [None] and the update raises TypeError;
      without [seed_decrementor] and with the ratio not below the target, the
      attribute [_seed_decrementor] does not exist and the update raises
      AttributeError. *)
Theorem Run_omitted_keywords :
  forall (skw : sim_kwargs) (self : fitModel) (kw : run_kwargs) (st : fitModel),
    SetSimulationParameters init skw = Ok self ->
    prepare self kw = Ok st ->
    (kw_maxiter kw = None ->
       _maxiter st = PyNone /\
       exists msg, Run self kw = Raise (TypeError msg)) /\
    (forall maxiter j st1 seed1 expratio r,
       kw_maxiter kw = Some maxiter ->
       (j < Z.to_nat maxiter)%nat ->
       kw_expratio kw = Some expratio ->
       search j st = Ok (Exhausted, st1) ->
       _seed st1 = Val seed1 ->
       trial_ratio st seed1 = Ok r ->
       num_eqb r expratio = false ->
       (kw_seed_incrementor kw = None ->
        num_ltb r expratio = true ->
          _seed_incrementor st1 = PyNone /\
          exists msg, Run self kw = Raise (TypeError msg)) /\
       (kw_seed_decrementor kw = None ->
        num_ltb r expratio = false ->
          _seed_decrementor st1 = Absent /\
          Run self kw = Raise (AttributeError "_seed_decrementor"))).
Proof.
  intros skw self kw st Hfresh Hprep.
  destruct (fresh_instance _ Hfresh) as (Hm & Hi & Hd).
  destruct (prepare_inv _ _ Hprep)
    as (expratio' & seed' & He & Hs & Hseed' & Hmaxiter & Hr0 & Hs0 & Hrun).
  split.
  - intros Hnone. rewrite Hnone, Hm in Hmaxiter. split; [assumption|].
    unfold Run. rewrite Hprep. simpl. unfold search_loop.
    rewrite Hmaxiter. simpl. eexists; reflexivity.
  - intros maxiter j st1 seed1 expratio r Hmax Hj Hexp Hsearch Hseed1 Hratio Hne.
    rewrite Hexp in He; inversion He; subst expratio'.
    rewrite Hmax in Hmaxiter.
    destruct (@search_running _ _ _ _ _ _ _ _ _ Hrun Hseed' Hsearch) as [Hrun1 _].
    destruct (run_iteration Hrun1) as [k Hk].
    assert (HRun : Run self kw = search (S (Z.to_nat maxiter - S j)) st1).
    { transitivity (search (Z.to_nat maxiter) st).
      - unfold Run. rewrite Hprep. simpl. unfold search_loop.
        rewrite Hmaxiter. reflexivity.
      - replace (Z.to_nat maxiter)
          with (j + S (Z.to_nat maxiter - S j))%nat at 1 by lia.
        apply search_add; assumption. }
    assert (Htrial : forall e,
      (if num_ltb r expratio
       then operand "_seed_incrementor" (_seed_incrementor st1)
       else operand "_seed_decrementor" (_seed_decrementor st1)) = Raise e ->
      Run self kw = Raise e).
    { intros e Hop. rewrite HRun. simpl. unfold trial.
      rewrite Hseed1. simpl. rewrite (run_ratio Hrun1), Hratio. simpl.
      rewrite (run_expratio Hrun1). simpl. rewrite Hne, Hk. simpl.
      destruct (num_ltb r expratio); rewrite Hop; reflexivity. }
    split; intros Hkw Hlt.
    + pose proof (run_incrementor Hrun1) as Hslot.
      rewrite Hkw, Hi in Hslot. split; [assumption|].
      eexists. apply Htrial. rewrite Hlt, Hslot. reflexivity.
    + pose proof (run_decrementor Hrun1) as Hslot.
      rewrite Hkw, Hd in Hslot. split; [assumption|].
      apply Htrial. rewrite Hlt, Hslot. reflexivity.
Qed.

End Calibration.

(** *** A run on concrete inputs

    Integers for numbers, a pathway with one parameter [k] whose observable
    [obs_X] rises to [k] and falls back, so that the ratio of a trial at seed
    [s] is [2 * s]. *)

Fixpoint toy_peaks (i : nat) (xs : list Z) : list nat :=
  match xs with
  | a :: (b :: c :: _) as rest =>
      if ((a <? b) && (c <? b))%Z
      then S i :: toy_peaks (S i) rest
      else toy_peaks (S i) rest
  | _ => []
  end.

Definition toy_simulate (pathway : string) (args : network_args Z) (t : list Z)
  : pyres (dict (list Z)) :=
  match dict_get (arg_parameters args) "k" with
  | Some k => Ok [("obs_X"%string, [0; k; 0]%Z)]
  | None => Raise (ExternalError "parameter k is missing")
  end.

Definition toy_Run : fitModel Z -> run_kwargs Z -> pyres (loop_exit * fitModel Z) :=
  Run Z.eqb Z.ltb Z.add Z.sub Z.mul Z.div (fun z => z) (fun x => x)
    (fun x _ => x) (fun _ => 0%Z) 1000%Z
    (fun _ _ => Ok [1; 2; 3]%Z) (toy_peaks 0)
    (fun _ => Ok [("k"%string, 1%Z)]) (fun _ => [("k"%string, 2%Z)])
    toy_simulate.

Definition toy_prepare : fitModel Z -> run_kwargs Z -> pyres (fitModel Z) :=
  prepare (fun _ _ => Ok [1; 2; 3]%Z) (fun _ => Ok [("k"%string, 1%Z)])
    toy_simulate.

Definition toy_sim_kwargs : sim_kwargs Z := {|
  kw_pathway_parameters := None;
  kw_ttotal := Some 10%Z;
  kw_nsteps := Some 3%Z;
  kw_pathway := Some "Gq"%string;
  kw_observable := Some "X"%string
|}.

Definition toy_self : fitModel Z :=
  Eval vm_compute in
    match SetSimulationParameters (init Z) toy_sim_kwargs with
    | Ok self => self
    | Raise _ => init Z
    end.

Definition toy_kwargs (expratio : Z) (maxiter inc dec : option Z) : run_kwargs Z := {|
  kw_expratio := Some expratio;
  kw_seed := Some 1%Z;
  kw_maxiter := maxiter;
  kw_seed_incrementor := inc;
  kw_seed_decrementor := dec;
  kw_target_parameter := Some "k"%string
|}.

Example toy_Run_converges :
  exists st',
    toy_Run toy_self (toy_kwargs 6 (Some 5%Z) (Some 1%Z) (Some 1%Z)) = Ok (Converged, st') /\
    _lst_seed st' = [1; 2; 3]%Z /\
    _lst_ratio st' = [2; 4; 6]%Z /\
    _iteration st' = Val 3%Z /\
    _fold st' = Val 3%Z.
Proof.
  eexists. split; [vm_compute; reflexivity|]. simpl. repeat split.
Qed.

Example toy_Run_oscillates :
  exists st',
    toy_Run toy_self (toy_kwargs 3 (Some 4%Z) (Some 1%Z) (Some 1%Z)) = Ok (Exhausted, st') /\
    _lst_seed st' = [1; 2; 1; 2]%Z /\
    _lst_ratio st' = [2; 4; 2; 4]%Z /\
    _iteration st' = Val 5%Z.
Proof.
  eexists. split; [vm_compute; reflexivity|]. simpl. repeat split.
Qed.


(** C10 at a call that omits [seed_decrementor].  [__init__] sets
    [_seed_incrementor] to [None] but creates no [_seed_decrementor]; on an
    instance configured by [SetSimulationParameters], [Run] with [maxiter]
    and [seed_incrementor] but without [seed_decrementor], whose first trial
    has a ratio above the target, raises AttributeError at the seed update,
    where the claim has a TypeError. *)
Lemma Run_without_decrementor_is_AttributeError :
  _seed_incrementor (init Z) = PyNone /\
  _seed_decrementor (init Z) = Absent /\
  SetSimulationParameters (init Z) toy_sim_kwargs = Ok toy_self /\
  kw_seed_decrementor (toy_kwargs 1 (Some 5%Z) (Some 1%Z) None) = None /\
  toy_Run toy_self (toy_kwargs 1 (Some 5%Z) (Some 1%Z) None)
    = Raise (AttributeError "_seed_decrementor") /\
  (forall msg, toy_Run toy_self (toy_kwargs 1 (Some 5%Z) (Some 1%Z) None)
                 <> Raise (TypeError msg)).
Proof.
  do 4 (split; [reflexivity|]).
  assert (H : toy_Run toy_self (toy_kwargs 1 (Some 5%Z) (Some 1%Z) None)
              = Raise (AttributeError "_seed_decrementor"))
    by (vm_compute; reflexivity).
  split; [exact H|].
  intros msg Hmsg. rewrite H in Hmsg. discriminate.
Qed.

Lemma Run_omitted_keywords_witness :
  (exists msg,
     toy_Run toy_self (toy_kwargs 6 None (Some 1%Z) (Some 1%Z)) = Raise (TypeError msg)) /\
  (exists msg,
     toy_Run toy_self (toy_kwargs 6 (Some 5%Z) None (Some 1%Z)) = Raise (TypeError msg)) /\
  toy_Run toy_self (toy_kwargs 1 (Some 5%Z) (Some 1%Z) None)
    = Raise (AttributeError "_seed_decrementor").
Proof.
  assert (Hfresh : SetSimulationParameters (init Z) toy_sim_kwargs = Ok toy_self)
    by reflexivity.
  pose (thm := Run_omitted_keywords Z.eqb Z.ltb Z.add Z.sub Z.mul Z.div
                 (fun z => z) (fun x => x) (fun x _ => x) (fun _ => 0%Z) 1000%Z
                 (fun _ _ => Ok [1; 2; 3]%Z) (toy_peaks 0)
                 (fun _ => Ok [("k"%string, 1%Z)]) (fun _ => [("k"%string, 2%Z)])
                 toy_simulate toy_sim_kwargs).
  split; [|split].
  - destruct (toy_prepare toy_self (toy_kwargs 6 None (Some 1%Z) (Some 1%Z)))
      as [st | e] eqn:Hprep; [|vm_compute in Hprep; discriminate].
    exact (proj2 (proj1 (thm _ _ _ Hfresh Hprep) eq_refl)).
  - destruct (toy_prepare toy_self (toy_kwargs 6 (Some 5%Z) None (Some 1%Z)))
      as [st | e] eqn:Hprep; [|vm_compute in Hprep; discriminate].
    assert (Hst : st = match toy_prepare toy_self (toy_kwargs 6 (Some 5%Z) None (Some 1%Z)) with
                       | Ok s => s | Raise _ => st end)
      by (rewrite Hprep; reflexivity).
    vm_compute in Hst.
    assert (Hj : (0 < Z.to_nat 5)%nat) by (simpl; lia).
    refine (proj2 (proj1 (proj2 (thm _ _ _ Hfresh Hprep) 5%Z 0%nat st 1%Z 6%Z 2%Z
                            eq_refl Hj eq_refl eq_refl _ _ eq_refl) eq_refl eq_refl));
      subst st; vm_compute; reflexivity.
  - destruct (toy_prepare toy_self (toy_kwargs 1 (Some 5%Z) (Some 1%Z) None))
      as [st | e] eqn:Hprep; [|vm_compute in Hprep; discriminate].
    assert (Hst : st = match toy_prepare toy_self (toy_kwargs 1 (Some 5%Z) (Some 1%Z) None) with
                       | Ok s => s | Raise _ => st end)
      by (rewrite Hprep; reflexivity).
    vm_compute in Hst.
    assert (Hj : (0 < Z.to_nat 5)%nat) by (simpl; lia).
    refine (proj2 (proj2 (proj2 (thm _ _ _ Hfresh Hprep) 5%Z 0%nat st 1%Z 1%Z 2%Z
                            eq_refl Hj eq_refl eq_refl _ _ eq_refl) eq_refl eq_refl));
      subst st; vm_compute; reflexivity.
Defined.

End FitModel.

(* ================================================================= *)
(** ** The concentration sweep shared by activation.Run and inhibition.Run *)

Module Sweep.

(** A value stored in one entry of [sim_data]: the ligand concentration (a
    float) or an array (the time grid, an observable's time series). *)
Inductive pyval (num : Type) : Type :=
| VNum (x : num)
| VArr (xs : list num).

Arguments VNum {num} x.
Arguments VArr {num} xs.

(** [simulation_data[ligand_name]]: [{'sim_data': data, 'label': ...}] *)
Record ligand_data (num : Type) : Type := {
  sim_data : list (dict (pyval num));
  label : string
}.

(** [mypathway.network(LR=..., kinetics=..., **parameters)]; a parameter may
    hold [None]. *)
Record network_args (num : Type) : Type := {
  arg_LR : slot num;
  arg_kinetics : option bool;
  arg_parameters : dict (option num)
}.

Definition available_pathways : list string := ["Gs"; "Gi"; "Gq"]%string.

Definition mem (s : string) (l : list string) : bool :=
  existsb (String.eqb s) l.

(** [x == None] on an attribute that [__init__] created *)
Definition is_None {A : Type} (x : option A) : bool :=
  match x with
  | None => true
  | Some _ => false
  end.

(** [x == b] for an attribute that holds a boolean or [None] *)
Definition is_bool (x : option bool) (b : bool) : bool :=
  match x with
  | Some v => Bool.eqb v b
  | None => false
  end.

(** An argument of an arithmetic routine: [None] there is a TypeError. *)
Definition number {A : Type} (x : option A) : pyres A :=
  match x with
  | Some a => Ok a
  | None => Raise (TypeError "unsupported operand type(s): 'NoneType'")
  end.

(** [xs.index(x)]: position of the first occurrence *)
Fixpoint list_index (x : string) (xs : list string) : pyres nat :=
  match xs with
  | [] => Raise (ValueError "x not in list")
  | y :: ys =>
      if String.eqb x y then Ok 0%nat
      else i <- list_index x ys ;; Ok (S i)
  end.

(** [{**d}] with every value present *)
Definition present {num : Type} (d : dict num) : dict (option num) :=
  map (fun kv => (fst kv, Some (snd kv))) d.

Section Points.

Variable num : Type.

(** Lines 693-698 and 1078-1083: the entry of one concentration point,
    [d1 = {'ligand_conc': ligand_conc, 'time': t}] updated with one item per
    name of [list_of_observables].  [yout] is [None] while the local variable
    is unbound. *)
Definition record_point (ligand_conc : num) (t : list num)
  (list_of_observables : list string) (yout : option (dict (list num)))
  : pyres (dict (pyval num)) :=
  for_each list_of_observables
    (fun d1 name =>
       out <- match yout with
              | Some y => Ok y
              | None => Raise (NameError "yout")
              end ;;
       series <- dict_item out name ;;
       Ok (dict_set d1 name (VArr series)))
    [("ligand_conc"%string, VNum ligand_conc); ("time"%string, VArr t)].

(** The loop [for idx in range(len(self._lig_conc_range))] of one ligand,
    lines 676-699 and 1067-1084: [simulate_point] is what the body does
    before it builds [d1]. *)
Definition sweep (simulate_point : num -> pyres (option (dict (list num))))
  (t : list num) (list_of_observables : list string) (lig_conc_range : list num)
  : pyres (list (dict (pyval num))) :=
  for_each lig_conc_range
    (fun data ligand_conc =>
       yout <- simulate_point ligand_conc ;;
       d1 <- record_point ligand_conc t list_of_observables yout ;;
       Ok (data ++ [d1]))
    [].



End Points.

End Sweep.

(* ================================================================= *)
(** ** simulation.activation: configuration and Run *)

Module Activation.

Import Sweep.

Section Run.

Variable num : Type.
Variable num_0 : num.
(** [x != 0], the truth value of one array element *)
Variable num_nonzero : num -> bool.

(** External collaborators. *)
(** [pl.geomspace(0.00001, ttotal, num=nsteps)] *)
Variable geomspace : option num -> option Z -> pyres (list num).
(** [utils.LR_eq_conc(receptor_conc, agonist_conc, antagonist_conc,
    pkd_agonist, pkd_antagonist)]; module [utils] is not among the sources *)
Variable LR_eq_conc : num -> num -> num -> num -> num -> pyres num.
(** [os.path.splitext(name)[0]] *)
Variable splitext : string -> string.
(** [pd.read_csv('src/lib/pathways/{}_parameters.csv'.format(pathway))
    .set_index('Parameter').iloc[:,0].to_dict()] *)
Variable read_csv : string -> pyres (dict num).
(** [mypathway.list_of_observables] of the imported pathway module *)
Variable list_of_observables : string -> list string.
(** [ScipyOdeSimulator(mypathway.network(...), tspan=t, compiler='cython').run().all] *)
Variable simulate : string -> network_args num -> list num -> pyres (dict (list num)).

(** The attributes of an [activation] instance that [Run] reads or writes;
    [None] is Python's [None]. *)
Record activation : Type := {
  _ligands : option (list string);
  _affinities : option (list num);
  _pathway : option string;
  _receptor_conc : option num;
  _lig_conc_range : option (list num);
  _ttotal : option num;
  _nsteps : option Z;
  _binding_kinetics : option bool;
  _binding_kinetic_parameters : option (dict num);
  _DefaultPathwayParametersDataFrame : slot (dict num);
  _DefaultPathwayParametersTable : slot (dict num);
  _PathwayParameters : slot (dict num);
  simulation_data : option (dict (ligand_data num))
}.

Definition init : activation := {|
  _ligands := None;
  _affinities := None;
  _pathway := None;
  _receptor_conc := None;
  _lig_conc_range := None;
  _ttotal := None;
  _nsteps := None;
  _binding_kinetics := Some true;
  _binding_kinetic_parameters := None;
  _DefaultPathwayParametersDataFrame := Absent;
  _DefaultPathwayParametersTable := Absent;
  _PathwayParameters := Absent;
  simulation_data := None
|}.

(** Keyword arguments of [SetSimulationParameters]: the outer [None] is a key
    that is not passed, the inner one the value [None]. *)
Record sim_kwargs : Type := {
  kw_ligands : option (option (list string));
  kw_affinities : option (option (list num));
  kw_pathway : option (option string);
  kw_receptor_conc : option (option num);
  kw_lig_conc_range : option (option (list num));
  kw_ttotal : option (option num);
  kw_nsteps : option (option Z);
  kw_binding_kinetics : option (option bool);
  kw_binding_kinetic_parameters : option (option (dict num))
}.

(** [kwargs.pop(key)] *)
Definition pop {A : Type} (key : string) (v : option A) : pyres A :=
  match v with
  | Some a => Ok a
  | None => Raise (KeyError key)
  end.

Definition SetSimulationParameters (self : activation) (kw : sim_kwargs)
  : pyres activation :=
  ligands <- pop "ligands" (kw_ligands kw) ;;
  let affinities := match kw_affinities kw with
                    | Some a => a
                    | None => _affinities self
                    end in
  pathway <- pop "pathway" (kw_pathway kw) ;;
  receptor_conc <- pop "receptor_conc" (kw_receptor_conc kw) ;;
  lig_conc_range <- pop "lig_conc_range" (kw_lig_conc_range kw) ;;
  ttotal <- pop "ttotal" (kw_ttotal kw) ;;
  nsteps <- pop "nsteps" (kw_nsteps kw) ;;
  binding_kinetics <- pop "binding_kinetics" (kw_binding_kinetics kw) ;;
  let kinetic_parameters := match kw_binding_kinetic_parameters kw with
                            | Some p => p
                            | None => _binding_kinetic_parameters self
                            end in
  Ok {| _ligands := ligands;
        _affinities := affinities;
        _pathway := pathway;
        _receptor_conc := receptor_conc;
        _lig_conc_range := lig_conc_range;
        _ttotal := ttotal;
        _nsteps := nsteps;
        _binding_kinetics := binding_kinetics;
        _binding_kinetic_parameters := kinetic_parameters;
        _DefaultPathwayParametersDataFrame := Val [];
        _DefaultPathwayParametersTable := _DefaultPathwayParametersTable self;
        _PathwayParameters := _PathwayParameters self;
        simulation_data := simulation_data self |}.

(** [self._lig_conc_range.any()] on a numpy array; on [None] the attribute
    lookup fails. *)
Definition any (lig_conc_range : option (list num)) : pyres bool :=
  match lig_conc_range with
  | Some xs => Ok (existsb num_nonzero xs)
  | None => Raise (AttributeError "any")
  end.

(** Lines 620-629: the input checks, one [if]/[elif] chain. *)
Definition check_inputs (self : activation) : pyres unit :=
  if is_None (_ligands self) then
    Raise (TypeError "ligands list undefined.")
  else if is_None (_pathway self) then
    Raise (TypeError "pathway name undefined.")
  else if is_bool (_binding_kinetics self) false && is_None (_affinities self) then
    Raise (TypeError "affinity_values_dict undefined.")
  else if is_bool (_binding_kinetics self) true && is_None (_affinities self) then
    Ok tt
  else
    some <- any (_lig_conc_range self) ;;
    if Bool.eqb some false then
      Raise (TypeError "lig_conc_range undefined.")
    else if is_None (_ttotal self) then
      Raise (TypeError "ttotal undefined.")
    else if is_None (_nsteps self) then
      Raise (TypeError "nsteps undefined.")
    else if is_None (_receptor_conc self) then
      Raise (TypeError "receptor_conc undefined.")
    else
      Ok tt.

(** Lines 633-636: the pathway's name as [Run] leaves it in [self._pathway]. *)
Definition check_pathway (pathway : string) : pyres string :=
  let pathway := if String.eqb pathway "Gz(Gi)" then "Gi"%string else pathway in
  if negb (mem pathway available_pathways)
  then Raise (Exception "Unvailable Pathway. Please, introduce it manually.")
  else Ok pathway.

Definition is_empty {A : Type} (l : list A) : bool :=
  match l with
  | [] => true
  | _ => false
  end.

(** The edited table ([get_changed_df()]) when it can be read, the data
    frame itself under the bare [except:]. *)
Definition edited_table (self : activation) (df : dict num) : dict num :=
  match _DefaultPathwayParametersTable self with
  | Val t => t
  | _ => df
  end.

(** Lines 638-661: the data frame and the effective parameter table. *)
Definition load_parameters (self : activation) (pathway : string)
  : pyres (dict num * dict num) :=
  df0 <- attr "_DefaultPathwayParametersDataFrame"
              (_DefaultPathwayParametersDataFrame self) ;;
  let df := match df0 with Some d => d | None => [] end in
  match is_empty df, _binding_kinetic_parameters self with
  | true, None =>
      csv <- read_csv pathway ;;
      Ok (csv, csv)
  | false, None =>
      Ok (df, edited_table self df)
  | true, Some over =>
      csv <- read_csv pathway ;;
      Ok (csv, dict_update csv over)
  | false, Some over =>
      Ok (df, dict_update (edited_table self df) over)
  end.

(** Lines 679-691: the simulation of one concentration point of one ligand.
    When [_binding_kinetics] is neither [False] nor [True] no branch runs and
    [yout] stays unbound. *)
Definition simulate_point (self : activation) (pathway : string)
  (parameters : dict num) (t : list num) (ligand : string) (ligand_conc : num)
  : pyres (option (dict (list num))) :=
  if is_bool (_binding_kinetics self) false then
    let parameters :=
      dict_set (present parameters) "R_init" (_receptor_conc self) in
    receptor_conc <- number (_receptor_conc self) ;;
    ligands <- number (_ligands self) ;;
    affinities <- number (_affinities self) ;;
    i <- list_index ligand ligands ;;
    pKd <- index affinities i ;;
    LR_conc_init <- LR_eq_conc receptor_conc ligand_conc num_0 pKd num_0 ;;
    yout <- simulate pathway
              {| arg_LR := Val LR_conc_init; arg_kinetics := Some false;
                 arg_parameters := parameters |} t ;;
    Ok (Some yout)
  else if is_bool (_binding_kinetics self) true then
    let parameters :=
      dict_set (dict_set (present parameters) "R_init" (_receptor_conc self))
        "L_init" (Some ligand_conc) in
    yout <- simulate pathway
              {| arg_LR := Absent; arg_kinetics := Some true;
                 arg_parameters := parameters |} t ;;
    Ok (Some yout)
  else
    Ok None.

(** Lines 671-703: the loop over the ligands. *)
Definition run_ligands (self : activation) (pathway : string)
  (parameters : dict num) (t : list num) (ligands : list string)
  : pyres (dict (ligand_data num)) :=
  for_each ligands
    (fun simulation_data ligand =>
       let ligand_name := splitext ligand in
       lig_conc_range <- number (_lig_conc_range self) ;;
       data <- sweep (simulate_point self pathway parameters t ligand) t
                 (list_of_observables pathway) lig_conc_range ;;
       Ok (dict_set simulation_data ligand_name
             {| sim_data := data; label := ligand_name |}))
    [].

(** [Run], after the input checks. *)
Definition run_checked (self : activation) : pyres activation :=
  pathway0 <- number (_pathway self) ;;
  pathway <- check_pathway pathway0 ;;
  tables <- load_parameters self pathway ;;
  t <- geomspace (_ttotal self) (_nsteps self) ;;
  ligands <- number (_ligands self) ;;
  data <- run_ligands self pathway (snd tables) t ligands ;;
  Ok {| _ligands := _ligands self;
        _affinities := _affinities self;
        _pathway := Some pathway;
        _receptor_conc := _receptor_conc self;
        _lig_conc_range := _lig_conc_range self;
        _ttotal := _ttotal self;
        _nsteps := _nsteps self;
        _binding_kinetics := _binding_kinetics self;
        _binding_kinetic_parameters := _binding_kinetic_parameters self;
        _DefaultPathwayParametersDataFrame := Val (fst tables);
        _DefaultPathwayParametersTable := _DefaultPathwayParametersTable self;
        _PathwayParameters := Val (snd tables);
        simulation_data := Some data |}.

Definition Run (self : activation) : pyres activation :=
  _ <- check_inputs self ;;
  run_checked self.

End Run.

End Activation.

(* ================================================================= *)
(** ** simulation.inhibition: configuration and Run *)

Module Inhibition.

Import Sweep.

Section Run.

Variable num : Type.
(** [x != 0], the truth value of one array element *)
Variable num_nonzero : num -> bool.

(** External collaborators, as for activation. *)
Variable geomspace : option num -> option Z -> pyres (list num).
Variable LR_eq_conc : num -> num -> num -> num -> num -> pyres num.
Variable splitext : string -> string.
Variable read_csv : string -> pyres (dict num).
Variable list_of_observables : string -> list string.
Variable simulate : string -> network_args num -> list num -> pyres (dict (list num)).

Record inhibition : Type := {
  _agonist : option string;
  _agonist_affinity : option num;
  _agonist_submaximal_conc : option num;
  _antagonists : option (list string);
  _antagonists_affinities : option (list num);
  _pathway : option string;
  _receptor_conc : option num;
  _lig_conc_range : option (list num);
  _ttotal : option num;
  _nsteps : option Z;
  _binding_kinetics : option bool;
  _binding_kinetic_parameters : option (dict num);
  _DefaultPathwayParametersDataFrame : slot (dict num);
  _DefaultPathwayParametersTable : slot (dict num);
  _PathwayParameters : slot (dict num);
  simulation_data : option (dict (ligand_data num))
}.

Definition init : inhibition := {|
  _agonist := None;
  _agonist_affinity := None;
  _agonist_submaximal_conc := None;
  _antagonists := None;
  _antagonists_affinities := None;
  _pathway := None;
  _receptor_conc := None;
  _lig_conc_range := None;
  _ttotal := None;
  _nsteps := None;
  _binding_kinetics := Some false;
  _binding_kinetic_parameters := None;
  _DefaultPathwayParametersDataFrame := Absent;
  _DefaultPathwayParametersTable := Absent;
  _PathwayParameters := Absent;
  simulation_data := None
|}.

Definition any (lig_conc_range : option (list num)) : pyres bool :=
  match lig_conc_range with
  | Some xs => Ok (existsb num_nonzero xs)
  | None => Raise (AttributeError "any")
  end.

(** Lines 1022-1034: the input checks. *)
Definition check_inputs (self : inhibition) : pyres unit :=
  if is_None (_agonist self) then
    Raise (TypeError "agonist undefined.")
  else if is_None (_agonist_affinity self) then
    Raise (TypeError "agonist_affinity undifined.")
  else if is_None (_antagonists self) then
    Raise (TypeError "antagonists list undefined.")
  else if is_None (_antagonists_affinities self) then
    Raise (TypeError "antagonists affinity values undefined.")
  else if is_None (_pathway self) then
    Raise (TypeError "pathway undefined.")
  else
    some <- any (_lig_conc_range self) ;;
    if Bool.eqb some false then
      Raise (TypeError "lig_conc_range undefined.")
    else if is_None (_agonist_submaximal_conc self) then
      Raise (TypeError "agonist_submaximal_conc undifined.")
    else if is_None (_ttotal self) then
      Raise (TypeError "ttotal undefined.")
    else if is_None (_nsteps self) then
      Raise (TypeError "nsteps undefined.")
    else if is_None (_receptor_conc self) then
      Raise (TypeError "receptor_conc undefined.")
    else if is_bool (_binding_kinetics self) true then
      Raise (TypeError "The of Kinetic parameters during an inhibition simulation it is not supported yet.")
    else
      Ok tt.

Definition check_pathway (pathway : string) : pyres string :=
  let pathway := if String.eqb pathway "Gz(Gi)" then "Gi"%string else pathway in
  if negb (mem pathway available_pathways)
  then Raise (Exception "Unvailable Pathway. Please, introduce it manually.")
  else Ok pathway.

Definition is_empty {A : Type} (l : list A) : bool :=
  match l with
  | [] => true
  | _ => false
  end.

(** Lines 1042-1053: the data frame and the effective parameter table. *)
Definition load_parameters (self : inhibition) (pathway : string)
  : pyres (dict num * dict num) :=
  df0 <- attr "_DefaultPathwayParametersDataFrame"
              (_DefaultPathwayParametersDataFrame self) ;;
  let df := match df0 with Some d => d | None => [] end in
  if is_empty df then
    csv <- read_csv pathway ;;
    Ok (csv, csv)
  else
    Ok (df, match _DefaultPathwayParametersTable self with
            | Val t => t
            | _ => df
            end).

(** Lines 1071-1076: the simulation of one concentration point of one
    antagonist. *)
Definition simulate_point (self : inhibition) (pathway : string)
  (parameters : dict num) (t : list num) (ligand : string) (ligand_conc : num)
  : pyres (option (dict (list num))) :=
  let parameters :=
    dict_set (present parameters) "R_init" (_receptor_conc self) in
  receptor_conc <- number (_receptor_conc self) ;;
  submaximal <- number (_agonist_submaximal_conc self) ;;
  agonist_affinity <- number (_agonist_affinity self) ;;
  antagonists <- number (_antagonists self) ;;
  affinities <- number (_antagonists_affinities self) ;;
  i <- list_index ligand antagonists ;;
  pKd <- index affinities i ;;
  LR_conc_init <- LR_eq_conc receptor_conc submaximal ligand_conc
                    agonist_affinity pKd ;;
  yout <- simulate pathway
            {| arg_LR := Val LR_conc_init; arg_kinetics := Some false;
               arg_parameters := parameters |} t ;;
  Ok (Some yout).

(** Lines 1062-1087: the loop over the antagonists. *)
Definition run_ligands (self : inhibition) (pathway : string)
  (parameters : dict num) (t : list num) (antagonists : list string)
  : pyres (dict (ligand_data num)) :=
  for_each antagonists
    (fun simulation_data ligand =>
       let ligand_name := splitext ligand in
       lig_conc_range <- number (_lig_conc_range self) ;;
       data <- sweep (simulate_point self pathway parameters t ligand) t
                 (list_of_observables pathway) lig_conc_range ;;
       agonist <- number (_agonist self) ;;
       Ok (dict_set simulation_data ligand_name
             {| sim_data := data;
                label := (agonist ++ " + " ++ ligand_name)%string |}))
    [].

Definition run_checked (self : inhibition) : pyres inhibition :=
  pathway0 <- number (_pathway self) ;;
  pathway <- check_pathway pathway0 ;;
  tables <- load_parameters self pathway ;;
  t <- geomspace (_ttotal self) (_nsteps self) ;;
  antagonists <- number (_antagonists self) ;;
  data <- run_ligands self pathway (snd tables) t antagonists ;;
  Ok {| _agonist := _agonist self;
        _agonist_affinity := _agonist_affinity self;
        _agonist_submaximal_conc := _agonist_submaximal_conc self;
        _antagonists := _antagonists self;
        _antagonists_affinities := _antagonists_affinities self;
        _pathway := Some pathway;
        _receptor_conc := _receptor_conc self;
        _lig_conc_range := _lig_conc_range self;
        _ttotal := _ttotal self;
        _nsteps := _nsteps self;
        _binding_kinetics := _binding_kinetics self;
        _binding_kinetic_parameters := _binding_kinetic_parameters self;
        _DefaultPathwayParametersDataFrame := Val (fst tables);
        _DefaultPathwayParametersTable := _DefaultPathwayParametersTable self;
        _PathwayParameters := Val (snd tables);
        simulation_data := Some data |}.

Definition Run (self : inhibition) : pyres inhibition :=
  _ <- check_inputs self ;;
  run_checked self.

End Run.

End Inhibition.

(* ================================================================= *)
(** ** Facts about dictionaries, loops and the sweep *)

Module SweepFacts.

Import Sweep.

Lemma dict_get_set_eq : forall (V : Type) (d : dict V) (k : string) (v : V),
  dict_get (dict_set d k v) k = Some v.
Proof.
  induction d as [|[k' v'] d IH]; intros k v; simpl.
  - rewrite String.eqb_refl. reflexivity.
  - destruct (String.eqb k k') eqn:E; simpl; rewrite E; [reflexivity | apply IH].
Qed.

Lemma dict_get_set_neq : forall (V : Type) (d : dict V) (k k' : string) (v : V),
  k <> k' ->
  dict_get (dict_set d k v) k' = dict_get d k'.
Proof.
  induction d as [|[k0 v0] d IH]; intros k k' v Hne; simpl.
  - destruct (String.eqb k' k) eqn:E; [|reflexivity].
    apply String.eqb_eq in E. congruence.
  - destruct (String.eqb k k0) eqn:E; simpl.
    + apply String.eqb_eq in E. subst k0.
      destruct (String.eqb k' k) eqn:E'; [|reflexivity].
      apply String.eqb_eq in E'. congruence.
    + destruct (String.eqb k' k0); [reflexivity | apply IH; assumption].
Qed.

(** A loop invariant indexed by the items already visited. *)
Lemma for_each_invariant :
  forall (A S : Type) (body : S -> A -> pyres S) (I : list A -> S -> Prop)
         (xs done : list A) (acc r : S),
    (forall done x acc acc',
        I done acc -> In x xs -> body acc x = Ok acc' -> I (done ++ [x]) acc') ->
    I done acc ->
    for_each xs body acc = Ok r ->
    I (done ++ xs) r.
Proof.
  intros A S body I xs.
  induction xs as [|x xs IH]; intros done acc r Hstep Hinit Hloop; simpl in Hloop.
  - inversion Hloop; subst. rewrite app_nil_r. assumption.
  - apply bind_Ok in Hloop. destruct Hloop as (acc' & Hbody & Hrest).
    replace (done ++ x :: xs) with ((done ++ [x]) ++ xs)
      by (rewrite <- app_assoc; reflexivity).
    eapply IH; [ | | exact Hrest].
    + intros done0 x0 acc0 acc0' HI Hin Hb.
      eapply Hstep; [exact HI | right; exact Hin | exact Hb].
    + eapply Hstep; [exact Hinit | left; reflexivity | exact Hbody].
Qed.

Section Points.

Variable num : Type.



(** The loop over the ligands: every ligand visited has its record under
    its name, and the record is the last one stored under that name. *)
Lemma ligands_recorded :
  forall (P : list (dict (pyval num)) -> Prop) (splitext : string -> string)
         (body : dict (ligand_data num) -> string -> pyres (dict (ligand_data num)))
         (ligands : list string) (simulation_data : dict (ligand_data num)),
    (forall acc ligand acc',
        body acc ligand = Ok acc' ->
        exists rec, acc' = dict_set acc (splitext ligand) rec /\ P (sim_data rec)) ->
    for_each ligands body [] = Ok simulation_data ->
    (forall ligand, In ligand ligands ->
       exists rec,
         dict_get simulation_data (splitext ligand) = Some rec /\ P (sim_data rec)) /\
    (forall name rec,
       dict_get simulation_data name = Some rec -> P (sim_data rec)).
Proof.
  intros P splitext body ligands simulation_data Hbody Hloop.
  apply (@for_each_invariant _ _ _
           (fun done sd =>
              (forall ligand, In ligand done ->
                 exists rec, dict_get sd (splitext ligand) = Some rec /\ P (sim_data rec)) /\
              (forall name rec, dict_get sd name = Some rec -> P (sim_data rec)))
           ligands []) in Hloop.
  - exact Hloop.
  - intros done ligand acc acc' [Hdone Hall] _ Hb.
    destruct (Hbody _ _ _ Hb) as (rec & -> & HP).
    assert (Hall' : forall name rec0,
               dict_get (dict_set acc (splitext ligand) rec) name = Some rec0 ->
               P (sim_data rec0)).
    { intros name rec0 Hget.
      destruct (String.eqb (splitext ligand) name) eqn:E.
      - apply String.eqb_eq in E. subst name.
        rewrite dict_get_set_eq in Hget. inversion Hget; subst; assumption.
      - apply String.eqb_neq in E.
        rewrite dict_get_set_neq in Hget by assumption. eauto. }
    split; [|exact Hall'].
    intros ligand' Hin. apply in_app_or in Hin.
    destruct (String.eqb (splitext ligand) (splitext ligand')) eqn:E.
    + apply String.eqb_eq in E. rewrite <- E.
      exists rec. split; [apply dict_get_set_eq | assumption].
    + apply String.eqb_neq in E.
      destruct Hin as [Hin | [Heq | []]]; [|subst; congruence].
      destruct (Hdone _ Hin) as (rec' & Hget & HP').
      exists rec'. split; [|assumption].
      rewrite dict_get_set_neq by assumption. assumption.
  - split; [intros ligand [] | intros name rec Hget; discriminate].
Qed.

End Points.

End SweepFacts.

(* ================================================================= *)
(** ** activation.Run and inhibition.Run: input checks and recorded data *)

Module RunFacts.

Import Sweep SweepFacts.

Section Runs.

Variable num : Type.
Variable num_0 : num.
Variable num_nonzero : num -> bool.
Variable geomspace : option num -> option Z -> pyres (list num).
Variable LR_eq_conc : num -> num -> num -> num -> num -> pyres num.
Variable splitext : string -> string.
Variable read_csv : string -> pyres (dict num).
Variable list_of_observables : string -> list string.
Variable simulate : string -> network_args num -> list num -> pyres (dict (list num)).

Let activation_Run :=
  Activation.Run num_0 num_nonzero geomspace LR_eq_conc splitext read_csv
    list_of_observables simulate.
Let activation_run_checked :=
  Activation.run_checked num_0 geomspace LR_eq_conc splitext read_csv
    list_of_observables simulate.
Let inhibition_Run :=
  Inhibition.Run num_nonzero geomspace LR_eq_conc splitext read_csv
    list_of_observables simulate.

Lemma number_Ok : forall (A : Type) (x : option A) (a : A),
  number x = Ok a -> x = Some a.
Proof.
  intros A [x|] a H; simpl in H; [inversion H; reflexivity | discriminate].
Qed.





(** C9. In activation.Run's input checks, an instance with a ligand list, a
    pathway name, [_binding_kinetics == True] and [_affinities == None] ends
    the [elif] chain at its [pass]: the checks pass whatever
    [_lig_conc_range], [_ttotal], [_nsteps] and [_receptor_conc] hold, and
    [Run] goes on with what follows the checks.  Such an instance with
    [_ttotal == None] is reached through [SetSimulationParameters]; with
    affinities given the same chain does raise 'ttotal undefined.'. *)
Theorem check_inputs_passes_without_affinities :
  (forall self : Activation.activation num,
     Activation._ligands self <> None ->
     Activation._pathway self <> None ->
     Activation._binding_kinetics self = Some true ->
     Activation._affinities self = None ->
     Activation.check_inputs num_nonzero self = Ok tt /\
     Activation.Run num_0 num_nonzero geomspace LR_eq_conc splitext read_csv
       list_of_observables simulate self
     = Activation.run_checked num_0 geomspace LR_eq_conc splitext read_csv
         list_of_observables simulate self) /\
  (exists (kw : Activation.sim_kwargs num) (self : Activation.activation num),
     Activation.SetSimulationParameters (Activation.init num) kw = Ok self /\
     Activation._binding_kinetics self = Some true /\
     Activation._affinities self = None /\
     Activation._ttotal self = None /\
     Activation.check_inputs num_nonzero self = Ok tt) /\
  (forall (self : Activation.activation num) ligands pathway affinities lig_conc_range,
     Activation._ligands self = Some ligands ->
     Activation._pathway self = Some pathway ->
     Activation._affinities self = Some affinities ->
     Activation._lig_conc_range self = Some lig_conc_range ->
     existsb num_nonzero lig_conc_range = true ->
     Activation._ttotal self = None ->
     Activation.check_inputs num_nonzero self
     = Raise (TypeError "ttotal undefined.")).
Proof.
  split; [|split].
  - intros self Hl Hp Hk Ha.
    assert (Hc : Activation.check_inputs num_nonzero self = Ok tt).
    { unfold Activation.check_inputs.
      destruct (Activation._ligands self); [|congruence].
      destruct (Activation._pathway self); [|congruence].
      rewrite Hk, Ha. reflexivity. }
    split; [exact Hc|].
    unfold Activation.Run. rewrite Hc. reflexivity.
  - exists {| Activation.kw_ligands := Some (Some ["L"%string]);
              Activation.kw_affinities := None;
              Activation.kw_pathway := Some (Some "Gs"%string);
              Activation.kw_receptor_conc := Some None;
              Activation.kw_lig_conc_range := Some None;
              Activation.kw_ttotal := Some None;
              Activation.kw_nsteps := Some None;
              Activation.kw_binding_kinetics := Some (Some true);
              Activation.kw_binding_kinetic_parameters := None |}.
    eexists. split; [reflexivity|]. simpl. repeat split.
  - intros self ligands pathway affinities range Hl Hp Ha Hr Hany Ht.
    unfold Activation.check_inputs.
    rewrite Hl, Hp, Ha, Hr, Ht. simpl.
    rewrite !andb_false_r. simpl. rewrite Hany. reflexivity.
Qed.

End Runs.

(** *** A sweep on concrete inputs: integers for numbers, one observable *)

Definition toy_simulate (pathway : string) (args : network_args Z) (t : list Z)
  : pyres (dict (list Z)) :=
  match arg_LR args with
  | Val LR => Ok [("obs_cAMP"%string, map (fun x => (LR * x)%Z) t)]
  | _ => Ok [("obs_cAMP"%string, t)]
  end.

Definition toy_activation_Run : Activation.activation Z -> pyres (Activation.activation Z) :=
  Activation.Run 0%Z (fun z => negb (z =? 0)%Z) (fun _ _ => Ok [1; 2]%Z)
    (fun r l _ _ _ => Ok (r * l)%Z) (fun name => name)
    (fun _ => Ok [("k"%string, 1%Z)]) (fun _ => ["obs_cAMP"%string])
    toy_simulate.

Definition toy_activation : Activation.activation Z :=
  Eval vm_compute in
    match Activation.SetSimulationParameters (Activation.init Z)
            {| Activation.kw_ligands := Some (Some ["L1"; "L2"]%string);
               Activation.kw_affinities := Some (Some [7; 8]%Z);
               Activation.kw_pathway := Some (Some "Gs"%string);
               Activation.kw_receptor_conc := Some (Some 5%Z);
               Activation.kw_lig_conc_range := Some (Some [1; 10; 100]%Z);
               Activation.kw_ttotal := Some (Some 2%Z);
               Activation.kw_nsteps := Some (Some 2%Z);
               Activation.kw_binding_kinetics := Some (Some false);
               Activation.kw_binding_kinetic_parameters := None |} with
    | Ok self => self
    | Raise _ => Activation.init Z
    end.

Example toy_activation_Run_data :
  exists self',
    toy_activation_Run toy_activation = Ok self' /\
    Activation.simulation_data self'
    = Some [("L1"%string,
             {| sim_data :=
                  [[("ligand_conc"%string, VNum 1%Z); ("time"%string, VArr [1; 2]%Z);
                    ("obs_cAMP"%string, VArr [5; 10]%Z)];
                   [("ligand_conc"%string, VNum 10%Z); ("time"%string, VArr [1; 2]%Z);
                    ("obs_cAMP"%string, VArr [50; 100]%Z)];
                   [("ligand_conc"%string, VNum 100%Z); ("time"%string, VArr [1; 2]%Z);
                    ("obs_cAMP"%string, VArr [500; 1000]%Z)]];
                label := "L1" |});
            ("L2"%string,
             {| sim_data :=
                  [[("ligand_conc"%string, VNum 1%Z); ("time"%string, VArr [1; 2]%Z);
                    ("obs_cAMP"%string, VArr [5; 10]%Z)];
                   [("ligand_conc"%string, VNum 10%Z); ("time"%string, VArr [1; 2]%Z);
                    ("obs_cAMP"%string, VArr [50; 100]%Z)];
                   [("ligand_conc"%string, VNum 100%Z); ("time"%string, VArr [1; 2]%Z);
                    ("obs_cAMP"%string, VArr [500; 1000]%Z)]];
                label := "L2" |})].
Proof.
  eexists. split; [vm_compute; reflexivity|]. reflexivity.
Qed.


End RunFacts.

(* ================================================================= *)
(** ** Numerical routines over the reals *)

Module Numerics.

Local Open Scope R_scope.

(** A bound handed to [curve_fit]: [-np.inf], a number or [np.inf]. *)
Inductive bound : Type :=
| NegInf
| Fin (x : R)
| PosInf.

(** [np.amax(xs)], [np.max(xs)], [xs.max()] *)
Definition amax (xs : list R) : pyres R :=
  match xs with
  | [] => Raise (ValueError "zero-size array to reduction operation maximum which has no identity")
  | x :: xs' => Ok (fold_left Rmax xs' x)
  end.

(** [np.amin(xs)], [np.min(xs)], [xs.min()] *)
Definition amin (xs : list R) : pyres R :=
  match xs with
  | [] => Raise (ValueError "zero-size array to reduction operation minimum which has no identity")
  | x :: xs' => Ok (fold_left Rmin xs' x)
  end.

(** [sklearn.preprocessing.minmax_scale(xs)] with the default feature range
    (0, 1): [X * scale_ + min_] where [scale_ = 1 / (max - min)], a zero
    range counting as 1, and [min_ = 0 - min * scale_]. *)
Definition minmax_scale (xs : list R) : pyres (list R) :=
  data_min <- amin xs ;;
  data_max <- amax xs ;;
  let data_range := data_max - data_min in
  let scale_ := 1 / (if Req_dec_T data_range 0 then 1 else data_range) in
  let min_ := 0 - data_min * scale_ in
  Ok (map (fun x => x * scale_ + min_) xs).

(** [np.geomspace(start, stop, num)]: numpy refuses an endpoint equal to 0
    ('Geometric sequence cannot include zero'); [samples] stands for the
    sequence it computes from nonzero endpoints. *)
Definition np_geomspace (samples : R -> R -> Z -> list R) (start stop : R)
  (num : Z) : pyres (list R) :=
  if Req_dec_T start 0 then
    Raise (ValueError "Geometric sequence cannot include zero")
  else if Req_dec_T stop 0 then
    Raise (ValueError "Geometric sequence cannot include zero")
  else
    Ok (samples start stop num).

(** The four-parameter logistic: [equation_dose] of the Analysis methods and
    of [show_curve], [sigmoid] of [maxbend]:
    [Bottom + (Top-Bottom)/(1+np.power((EC50/X),p))].  [np.power] and [**]
    are [Rpower], which is the power of a positive base. *)
Definition equation_dose (X Bottom Top EC50 p : R) : R :=
  Bottom + (Top - Bottom) / (1 + Rpower (EC50 / X) p).

(** The fitted parameters [popt], in the order of the model's arguments. *)
Record popt : Type := {
  Bottom : R;
  Top : R;
  EC : R;
  p : R
}.

(** The arguments of one call of [scipy.optimize.curve_fit(f, xdata, ydata,
    bounds=(lower, upper))]. *)
Record fit_request : Type := {
  f : R -> R -> R -> R -> R -> R;
  xdata : list R;
  ydata : list R;
  lower : list bound;
  upper : list bound
}.

(** The call as the four call sites write it:
    [curve_fit(equation_dose, x, y, bounds=([np.min(y), -np.inf, -np.inf, 0.5],
                                            [np.inf, np.max(y), np.inf, 2.5]))]. *)
Definition logistic_fit (x y : list R) : pyres fit_request :=
  y_min <- amin y ;;
  y_max <- amax y ;;
  Ok {| f := equation_dose;
        xdata := x;
        ydata := y;
        lower := [Fin y_min; NegInf; NegInf; Fin (5 / 10)];
        upper := [PosInf; Fin y_max; PosInf; Fin (25 / 10)] |}.

End Numerics.

(* ================================================================= *)
(** ** binding: bind and maxbend *)

Module Binding.

Import Numerics.

Local Open Scope R_scope.

Section Binding.

(** [utils.LR_eq_conc(receptor_conc, agonist_conc, antagonist_conc,
    pkd_agonist, pkd_antagonist)]; module [utils] is not among the sources. *)
Variable LR_eq_conc : R -> R -> R -> R -> R -> R.
(** [scipy.optimize.curve_fit]: the fitted parameters, or the solver's error *)
Variable curve_fit : fit_request -> pyres popt.
(** [np.geomspace(start, stop, num)] from nonzero endpoints *)
Variable geomspace : R -> R -> Z -> list R.
(** [scipy.optimize.minimize(fun, x0, args=..., method='Nelder-Mead').x[0]],
    [fun] taken with its [args] applied *)
Variable minimize : (R -> R) -> R -> pyres R.
(** [round(x, ndigits)] on a numpy.float64: the floating-point rounding
    routine itself is not modelled *)
Variable round : R -> nat -> R.

(** The attributes [bind] and [maxbend] read or write. *)
Record binding : Type := {
  _receptor_conc : slot R;
  _lig_conc_range : slot (list R);
  _pKd : slot R;
  binding_data : slot (list R);
  submax_concentration : option R
}.

(** [__init__] creates [receptor_conc], [lig_conc_range] and [pKd] without
    the underscore; the attributes the methods use appear with [bind]. *)
Definition init : binding := {|
  _receptor_conc := Absent;
  _lig_conc_range := Absent;
  _pKd := Absent;
  binding_data := Absent;
  submax_concentration := None
|}.

(** Keyword arguments of [bind]: [None] is a key that is not passed. *)
Record bind_kwargs : Type := {
  kw_receptor_conc : option R;
  kw_lig_conc_range : option (list R);
  kw_pKd : option R
}.

(** Lines 421-423: one solver call per concentration, the competitor's
    concentration and pKd both 0. *)
Definition binding_curve (receptor_conc : R) (lig_conc_range : list R) (pKd : R)
  : list R :=
  map (fun conc => LR_eq_conc receptor_conc conc 0 pKd 0) lig_conc_range.

Definition bind (self : binding) (kw : bind_kwargs) : pyres (binding * list R) :=
  match kw_receptor_conc kw, kw_lig_conc_range kw, kw_pKd kw with
  | None, _, _ => Raise (TypeError "ERROR: receptor_conc is missing")
  | Some _, None, _ => Raise (TypeError "ERROR: lig_conc_range is missing")
  | Some _, Some _, None => Raise (TypeError "ERROR: pKd is missing")
  | Some receptor_conc, Some lig_conc_range, Some pKd =>
      let data := binding_curve receptor_conc lig_conc_range pKd in
      Ok ({| _receptor_conc := Val receptor_conc;
             _lig_conc_range := Val lig_conc_range;
             _pKd := Val pKd;
             binding_data := Val data;
             submax_concentration := submax_concentration self |},
          data)
  end.

(** [sigmoid_deriv_b(x, a, d, c, b)] of [maxbend] *)
Definition sigmoid_deriv_b (x a d c b : R) : R :=
  Rpower (x / c) b * (a - d) * ln (x / c) / (Rpower (x / c) b + 1) ^ 2.

(** Lines 444-454. *)
Definition maxbend (self : binding) : pyres (binding * R) :=
  lig_conc_range <- operand "_lig_conc_range" (_lig_conc_range self) ;;
  lo <- amin lig_conc_range ;;
  hi <- amax lig_conc_range ;;
  xfit <- np_geomspace geomspace lo hi 50000 ;;
  data <- operand "binding_data" (binding_data self) ;;
  request <- logistic_fit lig_conc_range data ;;
  popt <- curve_fit request ;;
  x0 <- amax xfit ;;
  min_value <- minimize
                 (fun x => sigmoid_deriv_b x (Bottom popt) (Top popt) (EC popt) (p popt))
                 x0 ;;
  let submax := round min_value 3 in
  Ok ({| _receptor_conc := _receptor_conc self;
         _lig_conc_range := _lig_conc_range self;
         _pKd := _pKd self;
         binding_data := binding_data self;
         submax_concentration := Some submax |},
      submax).

End Binding.

End Binding.

(* ================================================================= *)
(** ** activation.Analysis and inhibition.Analysis *)

Module Analysis.

Import Sweep Numerics.

Local Open Scope R_scope.

(** [{'x': ..., 'y': ..., 'label': ...}] *)
Record curve : Type := {
  x : list R;
  y : list R;
  curve_label : string
}.

(** [dose[ligand]]: the dictionary with keys [raw_data], [normalized_data],
    [fitted_data], ['EC50 (μM)'] and ['pEC50'] (activation), ['IC50 (μM)']
    and ['pIC50'] (inhibition). *)
Record dose_response : Type := {
  raw_data : curve;
  normalized_data : curve;
  fitted_data : curve;
  EC50 : R;
  pEC50 : R
}.

Section Analysis.

(** [scipy.optimize.curve_fit]: the fitted parameters, or the solver's error *)
Variable curve_fit : fit_request -> pyres popt.
(** [np.geomspace(start, stop, num)] from nonzero endpoints *)
Variable geomspace : R -> R -> Z -> list R.
(** [round(x, ndigits)] on a numpy.float64 and [np.log10(x)]: the
    floating-point routines themselves are not modelled *)
Variable round : R -> nat -> R.
Variable log10 : R -> R.

(** [self._pathway == name] *)
Definition pathway_is (pathway : option string) (name : string) : bool :=
  match pathway with
  | Some p => String.eqb p name
  | None => false
  end.

(** [np.amax(self.simulation_data[ligand]['sim_data'][i][observable])] *)
Definition point_max (sim_data : list (dict (pyval R))) (observable : string)
  (i : nat) : pyres R :=
  d1 <- index sim_data i ;;
  v <- dict_item d1 observable ;;
  match v with
  | VArr series => amax series
  | VNum c => Ok c
  end.

(** The loop [for i in range(len(self._lig_conc_range))] that fills
    [metabolite_conc_raw]. *)
Definition metabolite_conc_raw (sim_data : list (dict (pyval R)))
  (observable : string) (n : nat) : pyres (list R) :=
  for_each (seq 0 n)
    (fun raw i =>
       m <- point_max sim_data observable i ;;
       Ok (raw ++ [m]))
    [].

(** Lines 740-761 and 1127-1148: the raw and the normalized response of one
    ligand, by pathway. *)
Definition reduce (pathway : option string) (sim_data : list (dict (pyval R)))
  (n : nat) : pyres (list R * list R) :=
  if pathway_is pathway "Gi" || pathway_is pathway "Gz(Gi)" then
    raw <- metabolite_conc_raw sim_data "obs_cAMP" n ;;
    norm <- minmax_scale (map (fun r => 1 - r) raw) ;;
    Ok (raw, norm)
  else if pathway_is pathway "Gs" then
    raw <- metabolite_conc_raw sim_data "obs_cAMP" n ;;
    norm <- minmax_scale raw ;;
    Ok (raw, norm)
  else if pathway_is pathway "Gq" then
    raw <- metabolite_conc_raw sim_data "obs_IP3" n ;;
    norm <- minmax_scale raw ;;
    Ok (raw, norm)
  else
    Raise (Exception "Unvailable Pathway. Please, introduce it manually.").

(** Lines 779-793 and 1166-1183: fit, fitted trace and potency of one
    ligand. *)
Definition fit_ligand (lig_conc_range : list R) (lig_conc_min lig_conc_max : R)
  (ligand_label : string) (raw norm : list R) : pyres dose_response :=
  request <- logistic_fit lig_conc_range norm ;;
  popt <- curve_fit request ;;
  xfit <- np_geomspace geomspace lig_conc_min lig_conc_max 50000 ;;
  let yfit := map (fun X => equation_dose X (Bottom popt) (Top popt) (EC popt) (p popt))
                  xfit in
  Ok {| raw_data := {| x := lig_conc_range; y := raw; curve_label := ligand_label |};
        normalized_data :=
          {| x := lig_conc_range; y := norm; curve_label := ligand_label |};
        fitted_data := {| x := xfit; y := yfit; curve_label := ligand_label |};
        EC50 := round (EC popt) 5;
        pEC50 := round (- log10 (EC popt * (1 / 1000000))) 2 |}.

(** The body of [for ligand in self.simulation_data]. *)
Definition analyse_ligand (pathway : option string) (lig_conc_range : list R)
  (lig_conc_min lig_conc_max : R) (simulation_data : dict (ligand_data R))
  (ligand : string) : pyres dose_response :=
  rec <- dict_item simulation_data ligand ;;
  reduced <- reduce pathway (sim_data rec) (List.length lig_conc_range) ;;
  fit_ligand lig_conc_range lig_conc_min lig_conc_max (label rec)
    (fst reduced) (snd reduced).

(** [Analysis], lines 714-796 and 1099-1186; [no_data] is the message of the
    TypeError raised when [Run] has not stored [simulation_data]. *)
Definition analysis (no_data : string)
  (simulation_data : option (dict (ligand_data R)))
  (lig_conc_range : option (list R)) (pathway : option string)
  : pyres (dict dose_response) :=
  match simulation_data with
  | None => Raise (TypeError no_data)
  | Some data =>
      range <- match lig_conc_range with
               | Some r => Ok r
               | None => Raise (AttributeError "min")
               end ;;
      lig_conc_min <- amin range ;;
      lig_conc_max <- amax range ;;
      for_each (dict_keys data)
        (fun dose ligand =>
           entry <- analyse_ligand pathway range lig_conc_min lig_conc_max
                      data ligand ;;
           Ok (dict_set dose ligand entry))
        []
  end.

(** [simulation.activation.Analysis]: the value it stores in
    [self.processed_data]. *)
Definition activation_Analysis (self : Activation.activation R)
  : pyres (dict dose_response) :=
  analysis "There is no simulation data. simulation.activation.run() must be run first."
    (Activation.simulation_data self) (Activation._lig_conc_range self)
    (Activation._pathway self).

(** [simulation.inhibition.Analysis] *)
Definition inhibition_Analysis (self : Inhibition.inhibition R)
  : pyres (dict dose_response) :=
  analysis "There is no simulation data. simulation.inhibition.run() must be run first."
    (Inhibition.simulation_data self) (Inhibition._lig_conc_range self)
    (Inhibition._pathway self).

End Analysis.

End Analysis.

(* ================================================================= *)
(** ** Facts about the numerical routines *)

Module NumericsFacts.

Import Numerics.

Local Open Scope R_scope.

Lemma fold_max_spec : forall (xs : list R) (a : R),
  (fold_left Rmax xs a = a \/ In (fold_left Rmax xs a) xs) /\
  a <= fold_left Rmax xs a /\
  (forall v, In v xs -> v <= fold_left Rmax xs a).
Proof.
  induction xs as [|b xs IH]; intros a; simpl.
  - split; [left; reflexivity|]. split; [lra | intros v []].
  - destruct (IH (Rmax a b)) as (Hin & Hle & Hall).
    pose proof (Rmax_l a b) as Hl. pose proof (Rmax_r a b) as Hr.
    split; [|split].
    + destruct Hin as [Heq | Hin]; [|right; right; assumption].
      rewrite Heq. unfold Rmax. destruct (Rle_dec a b); [right; left|left]; reflexivity.
    + lra.
    + intros v [Hv | Hv]; [subst v; lra | apply Hall; assumption].
Qed.

Lemma fold_min_spec : forall (xs : list R) (a : R),
  (fold_left Rmin xs a = a \/ In (fold_left Rmin xs a) xs) /\
  fold_left Rmin xs a <= a /\
  (forall v, In v xs -> fold_left Rmin xs a <= v).
Proof.
  induction xs as [|b xs IH]; intros a; simpl.
  - split; [left; reflexivity|]. split; [lra | intros v []].
  - destruct (IH (Rmin a b)) as (Hin & Hle & Hall).
    pose proof (Rmin_l a b) as Hl. pose proof (Rmin_r a b) as Hr.
    split; [|split].
    + destruct Hin as [Heq | Hin]; [|right; right; assumption].
      rewrite Heq. unfold Rmin. destruct (Rle_dec a b); [left|right; left]; reflexivity.
    + lra.
    + intros v [Hv | Hv]; [subst v; lra | apply Hall; assumption].
Qed.

(** [np.amax] returns an element that no element exceeds. *)
Lemma amax_spec : forall (xs : list R) (m : R),
  amax xs = Ok m -> In m xs /\ forall v, In v xs -> v <= m.
Proof.
  intros [|a xs] m H; simpl in H; [discriminate|].
  inversion H; subst m; clear H.
  destruct (fold_max_spec xs a) as (Hin & Hle & Hall).
  split.
  - destruct Hin as [-> | Hin]; [left; reflexivity | right; assumption].
  - intros v [<- | Hv]; [assumption | apply Hall; assumption].
Qed.

Lemma amin_spec : forall (xs : list R) (m : R),
  amin xs = Ok m -> In m xs /\ forall v, In v xs -> m <= v.
Proof.
  intros [|a xs] m H; simpl in H; [discriminate|].
  inversion H; subst m; clear H.
  destruct (fold_min_spec xs a) as (Hin & Hle & Hall).
  split.
  - destruct Hin as [-> | Hin]; [left; reflexivity | right; assumption].
  - intros v [<- | Hv]; [assumption | apply Hall; assumption].
Qed.

(** Min-max scaling maps into [0, 1]. *)
Lemma minmax_scale_range : forall (xs ys : list R),
  minmax_scale xs = Ok ys ->
  List.length ys = List.length xs /\ forall v, In v ys -> 0 <= v <= 1.
Proof.
  intros xs ys H. unfold minmax_scale in H.
  apply bind_Ok in H. destruct H as (lo & Hlo & H).
  apply bind_Ok in H. destruct H as (hi & Hhi & H).
  inversion H; subst ys; clear H.
  split; [apply length_map|].
  intros v Hv. apply in_map_iff in Hv. destruct Hv as (a & <- & Ha).
  destruct (amin_spec _ Hlo) as [_ Hmin]. destruct (amax_spec _ Hhi) as [_ Hmax].
  pose proof (Hmin a Ha) as H1. pose proof (Hmax a Ha) as H2.
  destruct (Req_dec_T (hi - lo) 0) as [Hz | Hnz].
  - replace (a * (1 / 1) + (0 - lo * (1 / 1))) with (a - lo) by field. lra.
  - assert (Hpos : 0 < hi - lo) by lra.
    replace (a * (1 / (hi - lo)) + (0 - lo * (1 / (hi - lo))))
      with ((a - lo) / (hi - lo)) by (field; lra).
    split.
    + apply Rmult_le_pos; [lra | left; apply Rinv_0_lt_compat; assumption].
    + apply Rmult_le_reg_r with (hi - lo); [assumption|].
      unfold Rdiv. rewrite Rmult_assoc, Rinv_l by lra. lra.
Qed.

Lemma np_geomspace_nonzero :
  forall (samples : R -> R -> Z -> list R) (start stop : R) (num : Z),
    start <> 0 -> stop <> 0 ->
    np_geomspace samples start stop num = Ok (samples start stop num).
Proof.
  intros samples start stop num Hstart Hstop. unfold np_geomspace.
  destruct (Req_dec_T start 0); [contradiction|].
  destruct (Req_dec_T stop 0); [contradiction|]. reflexivity.
Qed.

Lemma np_geomspace_zero :
  forall (samples : R -> R -> Z -> list R) (start stop : R) (num : Z),
    start = 0 \/ stop = 0 ->
    np_geomspace samples start stop num
    = Raise (ValueError "Geometric sequence cannot include zero").
Proof.
  intros samples start stop num H. unfold np_geomspace.
  destruct (Req_dec_T start 0); [reflexivity|].
  destruct (Req_dec_T stop 0); [reflexivity|]. tauto.
Qed.

Lemma np_geomspace_Ok :
  forall (samples : R -> R -> Z -> list R) (start stop : R) (num : Z)
         (xs : list R),
    np_geomspace samples start stop num = Ok xs ->
    start <> 0 /\ stop <> 0 /\ xs = samples start stop num.
Proof.
  intros samples start stop num xs H. unfold np_geomspace in H.
  destruct (Req_dec_T start 0); [discriminate|].
  destruct (Req_dec_T stop 0); [discriminate|].
  inversion H. repeat split; assumption.
Qed.

End NumericsFacts.

(* ================================================================= *)
(** ** Analysis: reduction, normalization, fit and potency *)

Module AnalysisFacts.

Import Sweep SweepFacts Numerics NumericsFacts Analysis.

Local Open Scope R_scope.

(** A loop that stores one computed value per key. *)
Lemma for_each_dict_set :
  forall (V : Type) (g : string -> pyres V) (keys : list string) (out : dict V),
    for_each keys (fun d k => v <- g k ;; Ok (dict_set d k v)) [] = Ok out ->
    (forall k v, dict_get out k = Some v -> In k keys /\ g k = Ok v) /\
    (forall k, In k keys -> exists v, dict_get out k = Some v /\ g k = Ok v).
Proof.
  intros V g keys out H.
  apply (@for_each_invariant _ _ _
           (fun done d =>
              (forall k v, dict_get d k = Some v -> In k done /\ g k = Ok v) /\
              (forall k, In k done -> exists v, dict_get d k = Some v /\ g k = Ok v))
           keys []) in H.
  - exact H.
  - intros done k d d' [Hget Hin] _ Hbody.
    apply bind_Ok in Hbody. destruct Hbody as (v & Hg & Hbody).
    inversion Hbody; subst d'; clear Hbody.
    split.
    + intros k' v' Hk'.
      destruct (String.eqb k k') eqn:E.
      * apply String.eqb_eq in E. subst k'.
        rewrite dict_get_set_eq in Hk'. inversion Hk'; subst v'.
        split; [apply in_or_app; right; left; reflexivity | assumption].
      * apply String.eqb_neq in E.
        rewrite dict_get_set_neq in Hk' by assumption.
        destruct (Hget _ _ Hk') as [Hd Hv].
        split; [apply in_or_app; left; assumption | assumption].
    + intros k' Hk'. apply in_app_or in Hk'.
      destruct (String.eqb k k') eqn:E.
      * apply String.eqb_eq in E. subst k'.
        exists v. split; [apply dict_get_set_eq | assumption].
      * apply String.eqb_neq in E.
        destruct Hk' as [Hk' | [Hk' | []]]; [|congruence].
        destruct (Hin _ Hk') as (v' & Hv' & Hg').
        exists v'. split; [|assumption].
        rewrite dict_get_set_neq by assumption. assumption.
  - split; [intros k v Hk; discriminate | intros k []].
Qed.

(** An exception raised for one key, after keys that all succeeded, is the
    exception of the loop. *)
Lemma for_each_dict_raise :
  forall (V : Type) (g : string -> pyres V) (done : list string) (k : string)
         (rest : list string) (e : exn) (acc : dict V),
    (forall k', In k' done -> exists v, g k' = Ok v) ->
    g k = Raise e ->
    for_each (done ++ k :: rest) (fun d k => v <- g k ;; Ok (dict_set d k v)) acc
    = Raise e.
Proof.
  intros V g done k rest e.
  induction done as [|k0 done IH]; intros acc Hdone Hk; simpl.
  - rewrite Hk. reflexivity.
  - destruct (Hdone k0 (or_introl eq_refl)) as [v Hv]. rewrite Hv. simpl.
    apply IH; [|assumption].
    intros k' Hin. apply Hdone. right; assumption.
Qed.

(** What the maximum of one stored value is. *)
Definition is_max_of (v : pyval R) (m : R) : Prop :=
  match v with
  | VArr series => In m series /\ forall s, In s series -> s <= m
  | VNum c => m = c
  end.

Lemma point_max_spec :
  forall (sim_data : list (dict (pyval R))) (observable : string) (i : nat) (m : R),
    point_max sim_data observable i = Ok m ->
    exists d1 v,
      nth_error sim_data i = Some d1 /\
      dict_get d1 observable = Some v /\
      is_max_of v m.
Proof.
  intros sim_data observable i m H. unfold point_max in H.
  apply bind_Ok in H. destruct H as (d1 & Hd1 & H).
  apply bind_Ok in H. destruct H as (v & Hv & H).
  unfold index in Hd1. destruct (nth_error sim_data i) as [d|] eqn:Hn; [|discriminate].
  inversion Hd1; subst d.
  unfold dict_item in Hv. destruct (dict_get d1 observable) as [w|] eqn:Hg; [|discriminate].
  inversion Hv; subst w.
  exists d1, v. split; [reflexivity|]. split; [assumption|].
  destruct v as [c | series]; simpl.
  - inversion H; reflexivity.
  - apply amax_spec; assumption.
Qed.

(** One maximum per concentration, in range order. *)
Definition maxima_of (sim_data : list (dict (pyval R))) (observable : string)
  (n : nat) (raw : list R) : Prop :=
  List.length raw = n /\
  forall i, (i < n)%nat ->
    exists d1 v m,
      nth_error sim_data i = Some d1 /\
      dict_get d1 observable = Some v /\
      nth_error raw i = Some m /\
      is_max_of v m.

Lemma metabolite_conc_raw_spec :
  forall (sim_data : list (dict (pyval R))) (observable : string) (n : nat)
         (raw : list R),
    metabolite_conc_raw sim_data observable n = Ok raw ->
    maxima_of sim_data observable n raw.
Proof.
  intros sim_data observable n raw H. unfold metabolite_conc_raw in H.
  apply (@for_each_invariant _ _ _
           (fun done raw =>
              List.length raw = List.length done /\
              forall j i, nth_error done j = Some i ->
                exists m, nth_error raw j = Some m /\
                          point_max sim_data observable i = Ok m)
           (seq 0 n) []) in H.
  - simpl in H. destruct H as [Hlen Hall]. rewrite length_seq in Hlen.
    split; [assumption|].
    intros i Hi.
    assert (Hs : nth_error (seq 0 n) i = Some i).
    { rewrite nth_error_nth' with (d := 0%nat) by (rewrite length_seq; assumption).
      rewrite seq_nth by assumption. reflexivity. }
    destruct (Hall i i Hs) as (m & Hm & Hp).
    destruct (point_max_spec _ _ _ Hp) as (d1 & v & Hd1 & Hv & Hmax).
    exists d1, v, m. repeat split; assumption.
  - intros done i acc acc' [Hlen Hall] _ Hbody.
    apply bind_Ok in Hbody. destruct Hbody as (m & Hm & Hbody).
    inversion Hbody; subst acc'; clear Hbody.
    split; [rewrite !length_app, Hlen; reflexivity|].
    intros j i' Hj.
    destruct (Nat.lt_ge_cases j (List.length done)) as [Hlt | Hge].
    + rewrite nth_error_app1 in Hj by assumption.
      destruct (Hall j i' Hj) as (m' & Hm' & Hp').
      exists m'. split; [|assumption].
      rewrite nth_error_app1 by (rewrite Hlen; assumption). assumption.
    + rewrite nth_error_app2 in Hj by assumption.
      destruct (j - List.length done)%nat as [|k] eqn:Ek;
        [|destruct k; discriminate].
      simpl in Hj. inversion Hj; subst i'.
      exists m. split; [|assumption].
      rewrite nth_error_app2 by (rewrite Hlen; assumption).
      rewrite Hlen, Ek. reflexivity.
  - split; [reflexivity|]. intros j i Hj. destruct j; discriminate.
Qed.

Lemma pathway_is_true : forall (pathway : option string) (name : string),
  pathway_is pathway name = true -> pathway = Some name.
Proof.
  intros [p|] name H; simpl in H; [|discriminate].
  apply String.eqb_eq in H. congruence.
Qed.

(** The observable and the transformation of each pathway. *)
Definition reduction_rule (pathway : option string) (observable : string)
  (transform : R -> R) : Prop :=
  ((pathway = Some "Gi"%string \/ pathway = Some "Gz(Gi)"%string) /\
   observable = "obs_cAMP"%string /\ transform = (fun r => 1 - r)) \/
  (pathway = Some "Gs"%string /\
   observable = "obs_cAMP"%string /\ transform = (fun r => r)) \/
  (pathway = Some "Gq"%string /\
   observable = "obs_IP3"%string /\ transform = (fun r => r)).

Lemma reduce_spec :
  forall (pathway : option string) (sim_data : list (dict (pyval R))) (n : nat)
         (raw norm : list R),
    reduce pathway sim_data n = Ok (raw, norm) ->
    exists observable transform,
      reduction_rule pathway observable transform /\
      maxima_of sim_data observable n raw /\
      minmax_scale (map transform raw) = Ok norm.
Proof.
  intros pathway sim_data n raw norm H. unfold reduce in H.
  destruct (pathway_is pathway "Gi" || pathway_is pathway "Gz(Gi)") eqn:EGi.
  - apply bind_Ok in H. destruct H as (raw' & Hraw & H).
    apply bind_Ok in H. destruct H as (norm' & Hnorm & H).
    inversion H; subst raw' norm'.
    exists "obs_cAMP"%string, (fun r => 1 - r).
    split; [|split; [apply metabolite_conc_raw_spec|]; assumption].
    left. split; [|split; reflexivity].
    apply orb_true_iff in EGi.
    destruct EGi as [E | E]; apply pathway_is_true in E; auto.
  - destruct (pathway_is pathway "Gs") eqn:EGs.
    + apply bind_Ok in H. destruct H as (raw' & Hraw & H).
      apply bind_Ok in H. destruct H as (norm' & Hnorm & H).
      inversion H; subst raw' norm'.
      exists "obs_cAMP"%string, (fun r => r).
      split; [|split; [apply metabolite_conc_raw_spec; assumption|]].
      * right; left. split; [apply pathway_is_true; assumption | split; reflexivity].
      * rewrite map_id. assumption.
    + destruct (pathway_is pathway "Gq") eqn:EGq; [|discriminate].
      apply bind_Ok in H. destruct H as (raw' & Hraw & H).
      apply bind_Ok in H. destruct H as (norm' & Hnorm & H).
      inversion H; subst raw' norm'.
      exists "obs_IP3"%string, (fun r => r).
      split; [|split; [apply metabolite_conc_raw_spec; assumption|]].
      * right; right. split; [apply pathway_is_true; assumption | split; reflexivity].
      * rewrite map_id. assumption.
Qed.

Section Fits.

Variable curve_fit : fit_request -> pyres popt.
Variable geomspace : R -> R -> Z -> list R.
Variable minimize : (R -> R) -> R -> pyres R.
Variable round : R -> nat -> R.
Variable log10 : R -> R.

(** The entry [fit_ligand] builds from fitted parameters. *)
Definition entry_of (lig_conc_range : list R) (lig_conc_min lig_conc_max : R)
  (ligand_label : string) (raw norm : list R) (popt : popt) : dose_response :=
  let xfit := geomspace lig_conc_min lig_conc_max 50000 in
  {| raw_data := {| x := lig_conc_range; y := raw; curve_label := ligand_label |};
     normalized_data :=
       {| x := lig_conc_range; y := norm; curve_label := ligand_label |};
     fitted_data :=
       {| x := xfit;
          y := map (fun X => equation_dose X (Bottom popt) (Top popt) (EC popt) (p popt))
                   xfit;
          curve_label := ligand_label |};
     EC50 := round (EC popt) 5;
     pEC50 := round (- log10 (EC popt * (1 / 1000000))) 2 |}.

Lemma analyse_ligand_inv :
  forall pathway range lo hi (sd : dict (ligand_data R)) ligand entry,
    analyse_ligand curve_fit geomspace round log10 pathway range lo hi sd ligand = Ok entry ->
    exists rec raw norm request popt,
      dict_get sd ligand = Some rec /\
      reduce pathway (sim_data rec) (List.length range) = Ok (raw, norm) /\
      logistic_fit range norm = Ok request /\
      curve_fit request = Ok popt /\
      entry = entry_of range lo hi (label rec) raw norm popt.
Proof.
  intros pathway range lo hi sd ligand entry H. unfold analyse_ligand in H.
  apply bind_Ok in H. destruct H as (rec & Hrec & H).
  apply bind_Ok in H. destruct H as ([raw norm] & Hred & H).
  unfold fit_ligand in H. simpl in H.
  apply bind_Ok in H. destruct H as (request & Hreq & H).
  apply bind_Ok in H. destruct H as (popt & Hfit & H).
  apply bind_Ok in H. destruct H as (xfit & Hgeom & H).
  apply np_geomspace_Ok in Hgeom. destruct Hgeom as (_ & _ & ->).
  inversion H; subst entry; clear H.
  unfold dict_item in Hrec.
  destruct (dict_get sd ligand) as [r|] eqn:Hget; [|discriminate].
  inversion Hrec; subst r.
  exists rec, raw, norm, request, popt. repeat split; assumption.
Qed.

Lemma analysis_inv :
  forall no_data simulation_data lig_conc_range pathway dose,
    analysis curve_fit geomspace round log10 no_data simulation_data lig_conc_range pathway
    = Ok dose ->
    exists sd range lo hi,
      simulation_data = Some sd /\
      lig_conc_range = Some range /\
      amin range = Ok lo /\
      amax range = Ok hi /\
      (forall ligand entry,
         dict_get dose ligand = Some entry ->
         analyse_ligand curve_fit geomspace round log10 pathway range lo hi sd ligand
         = Ok entry) /\
      (forall ligand,
         In ligand (dict_keys sd) ->
         exists entry, dict_get dose ligand = Some entry).
Proof.
  intros no_data simulation_data lig_conc_range pathway dose H.
  unfold analysis in H.
  destruct simulation_data as [sd|]; [|discriminate].
  destruct lig_conc_range as [range|]; [|discriminate].
  simpl in H.
  apply bind_Ok in H. destruct H as (lo & Hlo & H).
  apply bind_Ok in H. destruct H as (hi & Hhi & H).
  apply for_each_dict_set in H. destruct H as [Hget Hin].
  exists sd, range, lo, hi. repeat split; try assumption.
  - intros ligand entry Hd. apply Hget; assumption.
  - intros ligand Hl. destruct (Hin ligand Hl) as (entry & He & _).
    exists entry; assumption.
Qed.

(** *** C2: reduction and normalization *)

(** Every ligand stored in [dose] was reduced from that ligand's own record:
    the raw response holds, per concentration in range order, the maximum of
    the pathway's observable, and the normalized response is the min-max
    scaling of the transformed raw response of this ligand. *)
Definition reduced_per_ligand (sd : dict (ligand_data R)) (range : list R)
  (pathway : option string) (dose : dict dose_response) : Prop :=
  forall ligand entry,
    dict_get dose ligand = Some entry ->
    exists rec observable transform,
      dict_get sd ligand = Some rec /\
      reduction_rule pathway observable transform /\
      maxima_of (sim_data rec) observable (List.length range) (y (raw_data entry)) /\
      minmax_scale (map transform (y (raw_data entry)))
      = Ok (y (normalized_data entry)) /\
      (forall v, In v (y (normalized_data entry)) -> 0 <= v <= 1).

Lemma analysis_reduces :
  forall no_data simulation_data lig_conc_range pathway dose,
    analysis curve_fit geomspace round log10 no_data simulation_data lig_conc_range pathway
    = Ok dose ->
    exists sd range,
      simulation_data = Some sd /\
      lig_conc_range = Some range /\
      (forall ligand, In ligand (dict_keys sd) ->
         exists entry, dict_get dose ligand = Some entry) /\
      reduced_per_ligand sd range pathway dose.
Proof.
  intros no_data simulation_data lig_conc_range pathway dose H.
  destruct (analysis_inv _ _ _ _ H) as (sd & range & lo & hi & -> & -> & _ & _ & Hget & Hin).
  exists sd, range. repeat split; try assumption.
  intros ligand entry Hd.
  destruct (analyse_ligand_inv _ _ _ _ _ _ (Hget _ _ Hd))
    as (rec & raw & norm & request & popt & Hrec & Hred & _ & _ & ->).
  destruct (reduce_spec _ _ _ Hred) as (observable & transform & Hrule & Hmax & Hnorm).
  exists rec, observable, transform. simpl.
  do 4 (split; [assumption|]).
  destruct (minmax_scale_range _ Hnorm) as [_ Hrange]. exact Hrange.
Qed.

(** C2. For every ligand of the completed simulation data,
    activation.Analysis and inhibition.Analysis reduce each concentration
    point to the maximum over time of the pathway's observable, [obs_cAMP]
    for Gs and Gi, [obs_IP3] for Gq, and normalize by min-max scaling of
    [1 - raw] for Gi and of [raw] for Gs and Gq, over that ligand's own
    sweep. *)
Theorem Analysis_reduces_and_normalizes :
  (forall (self : Activation.activation R) (dose : dict dose_response),
     activation_Analysis curve_fit geomspace round log10 self = Ok dose ->
     exists sd range,
       Activation.simulation_data self = Some sd /\
       Activation._lig_conc_range self = Some range /\
       (forall ligand, In ligand (dict_keys sd) ->
          exists entry, dict_get dose ligand = Some entry) /\
       reduced_per_ligand sd range (Activation._pathway self) dose) /\
  (forall (self : Inhibition.inhibition R) (dose : dict dose_response),
     inhibition_Analysis curve_fit geomspace round log10 self = Ok dose ->
     exists sd range,
       Inhibition.simulation_data self = Some sd /\
       Inhibition._lig_conc_range self = Some range /\
       (forall ligand, In ligand (dict_keys sd) ->
          exists entry, dict_get dose ligand = Some entry) /\
       reduced_per_ligand sd range (Inhibition._pathway self) dose).
Proof.
  split; intros self dose H.
  - unfold activation_Analysis in H. apply analysis_reduces in H. exact H.
  - unfold inhibition_Analysis in H. apply analysis_reduces in H. exact H.
Qed.

(** *** C4, C6, C8: the fit of one ligand and what is reported of it *)

(** Every entry of [dose] holds what [curve_fit] returned for the logistic
    fit of the ligand's normalized response against the concentrations. *)
Definition fitted_per_ligand (range : list R) (dose : dict dose_response) : Prop :=
  forall ligand entry,
    dict_get dose ligand = Some entry ->
    exists request popt,
      logistic_fit range (y (normalized_data entry)) = Ok request /\
      curve_fit request = Ok popt /\
      y (fitted_data entry)
      = map (fun X => f request X (Bottom popt) (Top popt) (EC popt) (p popt))
            (x (fitted_data entry)) /\
      EC50 entry = round (EC popt) 5 /\
      pEC50 entry = round (- log10 (EC popt * (1 / 1000000))) 2.

Lemma logistic_fit_inv : forall (xs ys : list R) (request : fit_request),
  logistic_fit xs ys = Ok request ->
  exists y_min y_max,
    amin ys = Ok y_min /\
    amax ys = Ok y_max /\
    request = {| f := equation_dose; xdata := xs; ydata := ys;
                 lower := [Fin y_min; NegInf; NegInf; Fin (5 / 10)];
                 upper := [PosInf; Fin y_max; PosInf; Fin (25 / 10)] |}.
Proof.
  intros xs ys request H. unfold logistic_fit in H.
  apply bind_Ok in H. destruct H as (y_min & Hmin & H).
  apply bind_Ok in H. destruct H as (y_max & Hmax & H).
  inversion H. exists y_min, y_max. repeat split; assumption.
Qed.

Lemma analysis_fits :
  forall no_data simulation_data lig_conc_range pathway dose,
    analysis curve_fit geomspace round log10 no_data simulation_data lig_conc_range pathway
    = Ok dose ->
    exists range,
      lig_conc_range = Some range /\ fitted_per_ligand range dose.
Proof.
  intros no_data simulation_data lig_conc_range pathway dose H.
  destruct (analysis_inv _ _ _ _ H) as (sd & range & lo & hi & -> & -> & _ & _ & Hget & _).
  exists range. split; [reflexivity|].
  intros ligand entry Hd.
  destruct (analyse_ligand_inv _ _ _ _ _ _ (Hget _ _ Hd))
    as (rec & raw & norm & request & popt & _ & _ & Hreq & Hfit & ->).
  exists request, popt. simpl.
  split; [assumption|]. split; [assumption|].
  destruct (logistic_fit_inv _ _ Hreq) as (y_min & y_max & _ & _ & ->). simpl.
  repeat split.
Qed.

Lemma maxbend_inv :
  forall (self self' : Binding.binding) (v : R),
    Binding.maxbend curve_fit geomspace minimize round self = Ok (self', v) ->
    exists range data lo hi request popt x0 xmin,
      Binding._lig_conc_range self = Val range /\
      Binding.binding_data self = Val data /\
      amin range = Ok lo /\
      amax range = Ok hi /\
      (lo <> 0 /\ hi <> 0) /\
      logistic_fit range data = Ok request /\
      curve_fit request = Ok popt /\
      amax (geomspace lo hi 50000) = Ok x0 /\
      minimize
        (fun x => Binding.sigmoid_deriv_b x (Bottom popt) (Top popt) (EC popt) (p popt))
        x0 = Ok xmin /\
      v = round xmin 3 /\
      Binding.submax_concentration self' = Some v.
Proof.
  intros self self' v H. unfold Binding.maxbend in H.
  apply bind_Ok in H. destruct H as (range & Hrange & H).
  apply bind_Ok in H. destruct H as (lo & Hlo & H).
  apply bind_Ok in H. destruct H as (hi & Hhi & H).
  apply bind_Ok in H. destruct H as (xfit & Hgeom & H).
  apply np_geomspace_Ok in Hgeom. destruct Hgeom as (Hlo0 & Hhi0 & ->).
  apply bind_Ok in H. destruct H as (data & Hdata & H).
  apply bind_Ok in H. destruct H as (request & Hreq & H).
  apply bind_Ok in H. destruct H as (popt & Hfit & H).
  apply bind_Ok in H. destruct H as (x0 & Hx0 & H).
  apply bind_Ok in H. destruct H as (xmin & Hmin & H).
  inversion H; subst self' v; clear H.
  exists range, data, lo, hi, request, popt, x0, xmin. simpl.
  destruct (Binding._lig_conc_range self); try discriminate.
  destruct (Binding.binding_data self); try discriminate.
  simpl in Hrange, Hdata. inversion Hrange; inversion Hdata; subst.
  repeat split; assumption.
Qed.

(** C4. Every logistic fit of the toolkit hands [curve_fit] the model
    [y = Bottom + (Top-Bottom)/(1+(EC/x)^p)] with the lower bounds
    [min(y), -inf, -inf, 0.5] and the upper bounds [+inf, max(y), +inf, 2.5]
    on (Bottom, Top, EC, p), where [y] is the response vector being fitted:
    the ligand's normalized response in activation.Analysis and
    inhibition.Analysis, the binding data in binding.maxbend. *)
Theorem logistic_fit_model_and_bounds :
  (forall (xs ys : list R) (request : fit_request),
     logistic_fit xs ys = Ok request ->
     exists y_min y_max,
       (In y_min ys /\ forall v, In v ys -> y_min <= v) /\
       (In y_max ys /\ forall v, In v ys -> v <= y_max) /\
       xdata request = xs /\
       ydata request = ys /\
       (forall X Bottom Top EC p,
          f request X Bottom Top EC p
          = Bottom + (Top - Bottom) / (1 + Rpower (EC / X) p)) /\
       lower request = [Fin y_min; NegInf; NegInf; Fin (5 / 10)] /\
       upper request = [PosInf; Fin y_max; PosInf; Fin (25 / 10)]) /\
  (forall (self : Activation.activation R) (dose : dict dose_response),
     activation_Analysis curve_fit geomspace round log10 self = Ok dose ->
     exists range,
       Activation._lig_conc_range self = Some range /\
       fitted_per_ligand range dose) /\
  (forall (self : Inhibition.inhibition R) (dose : dict dose_response),
     inhibition_Analysis curve_fit geomspace round log10 self = Ok dose ->
     exists range,
       Inhibition._lig_conc_range self = Some range /\
       fitted_per_ligand range dose) /\
  (forall (self self' : Binding.binding) (v : R),
     Binding.maxbend curve_fit geomspace minimize round self = Ok (self', v) ->
     exists range data request popt,
       Binding._lig_conc_range self = Val range /\
       Binding.binding_data self = Val data /\
       logistic_fit range data = Ok request /\
       curve_fit request = Ok popt).
Proof.
  split; [|split; [|split]].
  - intros xs ys request H.
    destruct (logistic_fit_inv _ _ H) as (y_min & y_max & Hmin & Hmax & ->).
    exists y_min, y_max. simpl.
    split; [apply amin_spec; assumption|].
    split; [apply amax_spec; assumption|].
    repeat split.
  - intros self dose H. unfold activation_Analysis in H.
    apply analysis_fits in H. exact H.
  - intros self dose H. unfold inhibition_Analysis in H.
    apply analysis_fits in H. exact H.
  - intros self self' v H.
    destruct (maxbend_inv _ H)
      as (range & data & lo & hi & request & popt & x0 & xmin
          & Hr & Hd & _ & _ & _ & Hreq & Hfit & _).
    exists range, data, request, popt. repeat split; assumption.
Qed.

(** C8. For every ligand analysed by activation.Analysis or
    inhibition.Analysis the reported potency is the rounding to 5 decimals of
    the EC parameter fitted to the concentrations as they were given, and the
    reported pEC50 / pIC50 is the rounding to 2 decimals of
    [-log10(EC * 1e-6)]; [round] and [log10] are the routines the code
    calls. *)
Theorem potency_is_rounded_fit :
  (forall (self : Activation.activation R) (dose : dict dose_response)
          (ligand : string) (entry : dose_response),
     activation_Analysis curve_fit geomspace round log10 self = Ok dose ->
     dict_get dose ligand = Some entry ->
     exists range request popt,
       Activation._lig_conc_range self = Some range /\
       logistic_fit range (y (normalized_data entry)) = Ok request /\
       xdata request = range /\
       curve_fit request = Ok popt /\
       EC50 entry = round (EC popt) 5 /\
       pEC50 entry = round (- log10 (EC popt * (1 / 1000000))) 2) /\
  (forall (self : Inhibition.inhibition R) (dose : dict dose_response)
          (ligand : string) (entry : dose_response),
     inhibition_Analysis curve_fit geomspace round log10 self = Ok dose ->
     dict_get dose ligand = Some entry ->
     exists range request popt,
       Inhibition._lig_conc_range self = Some range /\
       logistic_fit range (y (normalized_data entry)) = Ok request /\
       xdata request = range /\
       curve_fit request = Ok popt /\
       EC50 entry = round (EC popt) 5 /\
       pEC50 entry = round (- log10 (EC popt * (1 / 1000000))) 2).
Proof.
  split; intros self dose ligand entry H Hget.
  - unfold activation_Analysis in H. apply analysis_fits in H.
    destruct H as (range & Hrange & Hfit).
    destruct (Hfit _ _ Hget) as (request & popt & Hreq & Hpopt & _ & HEC & HpEC).
    exists range, request, popt. do 2 (split; [assumption|]).
    split; [|repeat split; assumption].
    destruct (logistic_fit_inv _ _ Hreq) as (y_min & y_max & _ & _ & ->).
    reflexivity.
  - unfold inhibition_Analysis in H. apply analysis_fits in H.
    destruct H as (range & Hrange & Hfit).
    destruct (Hfit _ _ Hget) as (request & popt & Hreq & Hpopt & _ & HEC & HpEC).
    exists range, request, popt. do 2 (split; [assumption|]).
    split; [|repeat split; assumption].
    destruct (logistic_fit_inv _ _ Hreq) as (y_min & y_max & _ & _ & ->).
    reflexivity.
Qed.

(** C6, as the code has it.  The curve-fitting step has no check of its own
    on the concentrations.  For any concentration vector: when [curve_fit]
    returns parameters, the fit of the ligand goes on with them, returning
    the entry built from them when neither the smallest nor the largest
    concentration is 0 and raising the ValueError of [np.geomspace]
    otherwise; when [curve_fit] raises, the fit of the ligand raises that
    exception, and so does Analysis when the ligands before it were
    analysed. *)
Theorem curve_fit_outcome_is_the_fit_outcome :
  (forall range lo hi ligand_label raw norm request popt,
     logistic_fit range norm = Ok request ->
     curve_fit request = Ok popt ->
     (lo <> 0 /\ hi <> 0 ->
      fit_ligand curve_fit geomspace round log10 range lo hi ligand_label raw norm
      = Ok (entry_of range lo hi ligand_label raw norm popt)) /\
     (lo = 0 \/ hi = 0 ->
      fit_ligand curve_fit geomspace round log10 range lo hi ligand_label raw norm
      = Raise (ValueError "Geometric sequence cannot include zero"))) /\
  (forall range lo hi ligand_label raw norm request e,
     logistic_fit range norm = Ok request ->
     curve_fit request = Raise e ->
     fit_ligand curve_fit geomspace round log10 range lo hi ligand_label raw norm
     = Raise e) /\
  (forall pathway range lo hi (sd : dict (ligand_data R)) ligand rec raw norm request e,
     dict_get sd ligand = Some rec ->
     reduce pathway (sim_data rec) (List.length range) = Ok (raw, norm) ->
     logistic_fit range norm = Ok request ->
     curve_fit request = Raise e ->
     analyse_ligand curve_fit geomspace round log10 pathway range lo hi sd ligand
     = Raise e) /\
  (forall no_data (sd : dict (ligand_data R)) range pathway lo hi done ligand rest e,
     dict_keys sd = done ++ ligand :: rest ->
     amin range = Ok lo ->
     amax range = Ok hi ->
     (forall l, In l done ->
        exists entry,
          analyse_ligand curve_fit geomspace round log10 pathway range lo hi sd l
          = Ok entry) ->
     analyse_ligand curve_fit geomspace round log10 pathway range lo hi sd ligand
     = Raise e ->
     analysis curve_fit geomspace round log10 no_data (Some sd) (Some range) pathway
     = Raise e).
Proof.
  split; [|split; [|split]].
  - intros range lo hi ligand_label raw norm request popt Hreq Hfit.
    unfold fit_ligand. rewrite Hreq. simpl. rewrite Hfit. simpl. split.
    + intros [Hlo Hhi]. rewrite (np_geomspace_nonzero _ _ Hlo Hhi). reflexivity.
    + intros Hzero. rewrite (np_geomspace_zero _ _ Hzero). reflexivity.
  - intros range lo hi ligand_label raw norm request e Hreq Hfit.
    unfold fit_ligand. rewrite Hreq. simpl. rewrite Hfit. reflexivity.
  - intros pathway range lo hi sd ligand rec raw norm request e Hrec Hred Hreq Hfit.
    unfold analyse_ligand, dict_item. rewrite Hrec. simpl. rewrite Hred. simpl.
    unfold fit_ligand. rewrite Hreq. simpl. rewrite Hfit. reflexivity.
  - intros no_data sd range pathway lo hi done ligand rest e Hkeys Hlo Hhi Hdone Hraise.
    unfold analysis. simpl. rewrite Hlo. simpl. rewrite Hhi. simpl.
    rewrite Hkeys. apply for_each_dict_raise; assumption.
Qed.

(** *** C7: the submaximal concentration *)

(** [np.geomspace(start, stop, num)] over positive endpoints ends at [stop],
    its largest sample when [start <= stop]. *)
Definition geomspace_ends_at_stop : Prop :=
  forall lo hi, 0 < lo -> lo <= hi -> amax (geomspace lo hi 50000) = Ok hi.

(** C7, as the code has it.  binding.maxbend returns the point the
    Nelder-Mead minimizer gives for [sigmoid_deriv_b] at the fitted
    parameters, rounded to 3 decimals by [round].  The minimization is seeded
    at the largest sample of [np.geomspace] between the smallest and the
    largest concentration of [_lig_conc_range], neither of them 0, which is
    the largest concentration when the concentrations are positive; nothing
    confines the result to the concentration range. *)
Theorem maxbend_is_rounded_minimizer :
  forall (self self' : Binding.binding) (v : R),
    geomspace_ends_at_stop ->
    Binding.maxbend curve_fit geomspace minimize round self = Ok (self', v) ->
    exists range data lo hi request popt x0 xmin,
      Binding._lig_conc_range self = Val range /\
      Binding.binding_data self = Val data /\
      (In lo range /\ forall c, In c range -> lo <= c) /\
      (In hi range /\ forall c, In c range -> c <= hi) /\
      (lo <> 0 /\ hi <> 0) /\
      logistic_fit range data = Ok request /\
      curve_fit request = Ok popt /\
      amax (geomspace lo hi 50000) = Ok x0 /\
      (0 < lo -> x0 = hi) /\
      minimize
        (fun x => Binding.sigmoid_deriv_b x (Bottom popt) (Top popt) (EC popt) (p popt))
        x0 = Ok xmin /\
      v = round xmin 3 /\
      Binding.submax_concentration self' = Some v.
Proof.
  intros self self' v Hgeom H.
  destruct (maxbend_inv _ H)
    as (range & data & lo & hi & request & popt & x0 & xmin
        & Hr & Hd & Hlo & Hhi & Hnz & Hreq & Hfit & Hx0 & Hmin & Hv & Hsub).
  destruct (amin_spec _ Hlo) as [Hlo_in Hlo_le].
  destruct (amax_spec _ Hhi) as [Hhi_in Hhi_le].
  assert (Hle : lo <= hi) by (apply Hhi_le; assumption).
  exists range, data, lo, hi, request, popt, x0, xmin.
  do 2 (split; [assumption|]).
  split; [split; assumption|].
  split; [split; assumption|].
  do 4 (split; [assumption|]).
  split.
  { intros Hpos. rewrite (Hgeom lo hi Hpos Hle) in Hx0.
    inversion Hx0; reflexivity. }
  repeat (split; [assumption|]). assumption.
Qed.

(** [maxbend] on a range whose smallest or largest concentration is 0: the
    ValueError of [np.geomspace] is raised before the fit is attempted,
    whatever [curve_fit] and [minimize] would return. *)
Theorem maxbend_rejects_zero_endpoint :
  forall (self : Binding.binding) (range : list R) (lo hi : R),
    Binding._lig_conc_range self = Val range ->
    amin range = Ok lo ->
    amax range = Ok hi ->
    lo = 0 \/ hi = 0 ->
    Binding.maxbend curve_fit geomspace minimize round self
    = Raise (ValueError "Geometric sequence cannot include zero").
Proof.
  intros self range lo hi Hrange Hlo Hhi Hzero.
  unfold Binding.maxbend. rewrite Hrange. simpl.
  rewrite Hlo. simpl. rewrite Hhi. simpl.
  rewrite (np_geomspace_zero _ _ Hzero). reflexivity.
Qed.

(** Analysis on a range whose smallest or largest concentration is 0: no
    ligand gets an entry.  The first ligand of [simulation_data] raises, and
    when its responses are reduced and [curve_fit] returns parameters for
    them, the exception is the ValueError of [np.geomspace]. *)
Theorem Analysis_rejects_zero_concentration :
  forall no_data (sd : dict (ligand_data R)) range pathway lo hi ligand rest,
    dict_keys sd = ligand :: rest ->
    amin range = Ok lo ->
    amax range = Ok hi ->
    lo = 0 \/ hi = 0 ->
    (exists e,
       analysis curve_fit geomspace round log10 no_data (Some sd) (Some range) pathway
       = Raise e) /\
    (forall rec raw norm request popt,
       dict_get sd ligand = Some rec ->
       reduce pathway (sim_data rec) (List.length range) = Ok (raw, norm) ->
       logistic_fit range norm = Ok request ->
       curve_fit request = Ok popt ->
       analysis curve_fit geomspace round log10 no_data (Some sd) (Some range) pathway
       = Raise (ValueError "Geometric sequence cannot include zero")).
Proof.
  intros no_data sd range pathway lo hi ligand rest Hkeys Hlo Hhi Hzero.
  assert (Hfirst : forall e,
             analyse_ligand curve_fit geomspace round log10 pathway range lo hi sd ligand
             = Raise e ->
             analysis curve_fit geomspace round log10 no_data (Some sd) (Some range)
               pathway
             = Raise e).
  { intros e He. unfold analysis. simpl. rewrite Hlo. simpl. rewrite Hhi. simpl.
    rewrite Hkeys. simpl. rewrite He. reflexivity. }
  split.
  - destruct (analyse_ligand curve_fit geomspace round log10 pathway range lo hi sd
                ligand) as [entry | e] eqn:Han.
    + destruct (analyse_ligand_inv _ _ _ _ _ _ Han)
        as (rec & raw & norm & request & popt & _ & _ & Hreq & Hfit & _).
      exfalso. unfold analyse_ligand in Han.
      apply bind_Ok in Han. destruct Han as (rec' & _ & Han).
      apply bind_Ok in Han. destruct Han as (reduced & _ & Han).
      unfold fit_ligand in Han.
      apply bind_Ok in Han. destruct Han as (request' & _ & Han).
      apply bind_Ok in Han. destruct Han as (popt' & _ & Han).
      rewrite (np_geomspace_zero _ _ Hzero) in Han. discriminate.
    + exists e. apply Hfirst. reflexivity.
  - intros rec raw norm request popt Hrec Hred Hreq Hfit.
    apply Hfirst. unfold analyse_ligand, dict_item. rewrite Hrec. simpl.
    rewrite Hred. simpl. unfold fit_ligand. rewrite Hreq. simpl.
    rewrite Hfit. simpl. rewrite (np_geomspace_zero _ _ Hzero). reflexivity.
Qed.

End Fits.

(** *** Analysis and maxbend on concrete inputs

    A solver that returns the corner (min y, max y, 1, 1) of its bounds, a
    two-sample grid, a minimizer that returns its seed, a rounding that
    finds nothing to round and the logarithm on positive numbers. *)

Definition toy_curve_fit (request : fit_request) : pyres popt :=
  match lower request, upper request with
  | Fin y_min :: _, _ :: Fin y_max :: _ =>
      Ok {| Bottom := y_min; Top := y_max; EC := 1; p := 1 |}
  | _, _ => Raise (ExternalError "bounds")
  end.

Definition toy_geomspace (lo hi : R) (n : Z) : list R := [lo; hi].

Definition toy_minimize (objective : R -> R) (x0 : R) : pyres R := Ok x0.

Definition toy_round (x : R) (ndigits : nat) : R := x.

Definition toy_log10 (x : R) : R := ln x / ln 10.

(** The record of one ligand simulated at a single concentration. *)
Definition toy_simulation_data : dict (ligand_data R) :=
  [("L"%string,
    {| sim_data := [[("ligand_conc"%string, VNum 1);
                     ("time"%string, VArr [1; 2]);
                     ("obs_cAMP"%string, VArr [3; 4])]];
       label := "L" |})].

(** One ligand, a range of a single concentration. *)
Definition toy_activation : Activation.activation R := {|
  Activation._ligands := Some ["L"%string];
  Activation._affinities := Some [8];
  Activation._pathway := Some "Gs"%string;
  Activation._receptor_conc := Some 1;
  Activation._lig_conc_range := Some [1];
  Activation._ttotal := Some 2;
  Activation._nsteps := Some 2%Z;
  Activation._binding_kinetics := Some false;
  Activation._binding_kinetic_parameters := None;
  Activation._DefaultPathwayParametersDataFrame := Val [];
  Activation._DefaultPathwayParametersTable := Absent;
  Activation._PathwayParameters := Val [];
  Activation.simulation_data := Some toy_simulation_data
|}.

Definition toy_Analysis : Activation.activation R -> pyres (dict dose_response) :=
  activation_Analysis toy_curve_fit toy_geomspace toy_round toy_log10.

Example toy_Analysis_returns :
  exists entry,
    toy_Analysis toy_activation = Ok [("L"%string, entry)] /\
    y (raw_data entry) = [Rmax 3 4] /\
    EC50 entry = 1.
Proof.
  unfold toy_Analysis, activation_Analysis, analysis. simpl.
  unfold analyse_ligand. simpl. unfold fit_ligand. simpl.
  rewrite np_geomspace_nonzero by lra. simpl.
  eexists. split; [reflexivity|]. split; reflexivity.
Qed.

(** C6 as stated fails: with a single concentration, and a solver that
    returns, the fit returns parameters and Analysis reports a potency. *)
Lemma Analysis_fits_a_single_concentration :
  Activation._lig_conc_range toy_activation = Some [1] /\
  exists dose entry,
    toy_Analysis toy_activation = Ok dose /\
    dict_get dose "L" = Some entry /\
    EC50 entry = 1.
Proof.
  split; [reflexivity|].
  destruct toy_Analysis_returns as (entry & HA & _ & HEC).
  exists [("L"%string, entry)], entry.
  split; [exact HA|]. split; [reflexivity | exact HEC].
Qed.

(** The inverse readout of Gi: the raw maxima are kept, the normalized
    response is the min-max scaling of [1 - raw]. *)
Example toy_reduce_Gi :
  exists norm,
    reduce (Some "Gi"%string)
      [[("obs_cAMP"%string, VArr [3; 4])]; [("obs_cAMP"%string, VArr [1; 2])]] 2
    = Ok ([Rmax 3 4; Rmax 1 2], norm) /\
    minmax_scale [1 - Rmax 3 4; 1 - Rmax 1 2] = Ok norm.
Proof.
  eexists. split; reflexivity.
Qed.

Lemma Analysis_reduces_and_normalizes_witness :
  exists dose sd range,
    toy_Analysis toy_activation = Ok dose /\
    Activation.simulation_data toy_activation = Some sd /\
    Activation._lig_conc_range toy_activation = Some range /\
    reduced_per_ligand sd range (Some "Gs"%string) dose.
Proof.
  destruct toy_Analysis_returns as (entry & HA & _).
  destruct (proj1 (Analysis_reduces_and_normalizes toy_curve_fit toy_geomspace
                     toy_round toy_log10)
              toy_activation _ HA)
    as (sd & range & Hsd & Hrange & _ & Hred).
  exists [("L"%string, entry)], sd, range. repeat split; assumption.
Defined.

Lemma logistic_fit_model_and_bounds_witness :
  exists dose range,
    toy_Analysis toy_activation = Ok dose /\
    Activation._lig_conc_range toy_activation = Some range /\
    fitted_per_ligand toy_curve_fit toy_round toy_log10 range dose.
Proof.
  destruct toy_Analysis_returns as (entry & HA & _).
  destruct (proj1 (proj2 (logistic_fit_model_and_bounds toy_curve_fit toy_geomspace
                            toy_minimize toy_round toy_log10))
              toy_activation _ HA)
    as (range & Hrange & Hfit).
  exists [("L"%string, entry)], range. repeat split; assumption.
Defined.

Lemma potency_is_rounded_fit_witness :
  exists dose entry popt,
    toy_Analysis toy_activation = Ok dose /\
    dict_get dose "L" = Some entry /\
    EC50 entry = toy_round (EC popt) 5.
Proof.
  destruct toy_Analysis_returns as (entry & HA & _).
  destruct (proj1 (potency_is_rounded_fit toy_curve_fit toy_geomspace toy_round
                     toy_log10)
              toy_activation _ "L"%string entry HA eq_refl)
    as (range & request & popt & _ & _ & _ & _ & HEC & _).
  exists [("L"%string, entry)], entry, popt.
  split; [exact HA|]. split; [reflexivity | exact HEC].
Defined.

(** Flat binding data over the range [1, 2]. *)
Definition toy_binding : Binding.binding := {|
  Binding._receptor_conc := Val 0;
  Binding._lig_conc_range := Val [1; 2];
  Binding._pKd := Val 8;
  Binding.binding_data := Val [0; 0];
  Binding.submax_concentration := None
|}.

Lemma toy_geomspace_ends_at_stop : geomspace_ends_at_stop toy_geomspace.
Proof.
  intros lo hi _ Hle. unfold toy_geomspace, amax. simpl.
  rewrite Rmax_right by assumption. reflexivity.
Qed.

Lemma toy_range_ends : Rmin 1 2 = 1 /\ Rmax 1 2 = 2.
Proof.
  split; [apply Rmin_left | apply Rmax_right]; lra.
Qed.

Lemma toy_maxbend_value :
  forall (minimize : (R -> R) -> R -> pyres R) (xmin : R),
    (forall objective, minimize objective 2 = Ok xmin) ->
    exists self',
      Binding.maxbend toy_curve_fit toy_geomspace minimize toy_round toy_binding
      = Ok (self', xmin).
Proof.
  intros minimize xmin Hmin.
  destruct toy_range_ends as [Hlo Hhi].
  eexists. unfold Binding.maxbend. simpl. rewrite Hlo, Hhi.
  rewrite np_geomspace_nonzero by lra. simpl.
  rewrite Hhi, Hmin. reflexivity.
Qed.

(** A minimizer that leaves the range: from the seed 2, on the nearly flat
    objective of flat binding data, the simplex ends at 298.085. *)
Definition wandering_minimize (objective : R -> R) (x0 : R) : pyres R :=
  Ok (298085 / 1000).

(** C7 as stated fails: on flat binding data over the range [1, 2] the
    minimization, which nothing confines, ends far above the largest
    concentration, and maxbend returns that point. *)
Lemma maxbend_returns_a_point_outside_the_range :
  (exists self',
     Binding.maxbend toy_curve_fit toy_geomspace wandering_minimize toy_round
       toy_binding
     = Ok (self', 298085 / 1000)) /\
  amin [1; 2] = Ok 1 /\
  amax [1; 2] = Ok 2 /\
  ~ (1 < 298085 / 1000 < 2).
Proof.
  destruct toy_range_ends as [Hlo Hhi].
  split; [apply toy_maxbend_value; intros objective; reflexivity|].
  split; [simpl; rewrite Hlo; reflexivity|].
  split; [simpl; rewrite Hhi; reflexivity|].
  lra.
Qed.

Lemma maxbend_is_rounded_minimizer_witness :
  geomspace_ends_at_stop toy_geomspace /\
  exists self' v xmin,
    Binding.maxbend toy_curve_fit toy_geomspace toy_minimize toy_round toy_binding
    = Ok (self', v) /\
    v = toy_round xmin 3.
Proof.
  split; [exact toy_geomspace_ends_at_stop|].
  destruct (toy_maxbend_value toy_minimize (fun _ => eq_refl)) as [self' Hrun].
  destruct (@maxbend_is_rounded_minimizer toy_curve_fit toy_geomspace toy_minimize
              toy_round toy_binding self' 2 toy_geomspace_ends_at_stop Hrun)
    as (range & data & lo & hi & request & popt & x0 & xmin
        & _ & _ & _ & _ & _ & _ & _ & _ & _ & _ & Hv & _).
  exists self', 2, xmin. split; assumption.
Defined.

(** Binding data over a range that starts at concentration 0. *)
Definition zero_binding : Binding.binding := {|
  Binding._receptor_conc := Val 0;
  Binding._lig_conc_range := Val [0];
  Binding._pKd := Val 8;
  Binding.binding_data := Val [0];
  Binding.submax_concentration := None
|}.

Lemma maxbend_rejects_zero_endpoint_witness :
  Binding.maxbend toy_curve_fit toy_geomspace toy_minimize toy_round zero_binding
  = Raise (ValueError "Geometric sequence cannot include zero").
Proof.
  apply (@maxbend_rejects_zero_endpoint toy_curve_fit toy_geomspace toy_minimize
           toy_round zero_binding [0] 0 0 eq_refl eq_refl eq_refl
           (or_introl eq_refl)).
Defined.

Lemma Analysis_rejects_zero_concentration_witness :
  exists e,
    analysis toy_curve_fit toy_geomspace toy_round toy_log10 "no data"
      (Some toy_simulation_data) (Some [0]) (Some "Gs"%string)
    = Raise e.
Proof.
  apply (proj1 (@Analysis_rejects_zero_concentration toy_curve_fit toy_geomspace
                  toy_round toy_log10 "no data" toy_simulation_data [0]
                  (Some "Gs"%string) 0 0 "L"%string [] eq_refl eq_refl eq_refl
                  (or_introl eq_refl))).
Defined.

End AnalysisFacts.

(* ================================================================= *)
(** ** binding.bind against the mass-action equilibrium of the specification *)

Module BindingFacts.

Import Numerics Binding.

Local Open Scope R_scope.












End BindingFacts.

(* ================================================================= *)
(** ** Dictionaries: reads after writes, key sets *)

Module DictFacts.

Import SweepFacts.

Lemma existsb_eqb_In : forall (s : string) (l : list string),
  existsb (String.eqb s) l = true <-> In s l.
Proof.
  intros s l. rewrite existsb_exists. split.
  - intros (x & Hin & Heq). apply String.eqb_eq in Heq. subst x. exact Hin.
  - intros Hin. exists s. split; [exact Hin | apply String.eqb_refl].
Qed.

Lemma dict_get_absent : forall (V : Type) (d : dict V) (k : string),
  ~ In k (dict_keys d) -> dict_get d k = None.
Proof.
  induction d as [|[k' v'] d IH]; intros k Hk; simpl; [reflexivity|].
  destruct (String.eqb k k') eqn:E.
  - apply String.eqb_eq in E. subst k'. exfalso. apply Hk. left. reflexivity.
  - apply IH. intro Hin. apply Hk. right. exact Hin.
Qed.

Lemma dict_get_present : forall (V : Type) (d : dict V) (k : string),
  In k (dict_keys d) <-> exists v, dict_get d k = Some v.
Proof.
  induction d as [|[k' v'] d IH]; intros k; simpl.
  - split; [intros [] | intros [v Hv]; discriminate].
  - destruct (String.eqb k k') eqn:E.
    + apply String.eqb_eq in E. subst k'. split; [eauto | auto].
    + apply String.eqb_neq in E. rewrite <- IH. split.
      * intros [Heq | Hin]; [congruence | exact Hin].
      * auto.
Qed.

(** [{**d, **over}] read at a key: the value of [over] when it has the key,
    the value of [d] otherwise. *)
Lemma dict_get_update : forall (V : Type) (over d : dict V) (k : string),
  NoDup (dict_keys over) ->
  dict_get (dict_update d over) k
  = match dict_get over k with
    | Some v => Some v
    | None => dict_get d k
    end.
Proof.
  induction over as [|[k0 v0] over IH]; intros d k Hnd; [reflexivity|].
  simpl in Hnd. inversion Hnd as [|? ? Hnotin Hnd']; subst.
  unfold dict_update in *. simpl. rewrite IH by exact Hnd'.
  destruct (String.eqb k k0) eqn:E.
  - apply String.eqb_eq in E. subst k0.
    rewrite (dict_get_absent _ _ Hnotin). apply dict_get_set_eq.
  - apply String.eqb_neq in E.
    destruct (dict_get over k); [reflexivity|].
    apply dict_get_set_neq. congruence.
Qed.

(** [d[k] = v] keeps the keys of [d] in their order and appends [k] when it
    is new. *)
Lemma dict_keys_set : forall (V : Type) (d : dict V) (k : string) (v : V),
  dict_keys (dict_set d k v)
  = if existsb (String.eqb k) (dict_keys d)
    then dict_keys d
    else dict_keys d ++ [k].
Proof.
  induction d as [|[k' v'] d IH]; intros k v; simpl; [reflexivity|].
  destruct (String.eqb k k') eqn:E; simpl; [reflexivity|].
  rewrite IH. destruct (existsb (String.eqb k) (dict_keys d)); reflexivity.
Qed.

Lemma dict_keys_set_NoDup : forall (V : Type) (d : dict V) (k : string) (v : V),
  NoDup (dict_keys d) -> NoDup (dict_keys (dict_set d k v)).
Proof.
  intros V d k v Hnd. rewrite dict_keys_set.
  destruct (existsb (String.eqb k) (dict_keys d)) eqn:E; [exact Hnd|].
  apply NoDup_app; [exact Hnd | constructor; [intros [] | constructor] | ].
  intros x Hx [Hk | []]. subst x.
  assert (Hex : existsb (String.eqb k) (dict_keys d) = true).
  { apply existsb_exists. exists k. split; [exact Hx | apply String.eqb_refl]. }
  congruence.
Qed.

Lemma dict_keys_set_In : forall (V : Type) (d : dict V) (k0 k : string) (v : V),
  In k (dict_keys (dict_set d k0 v)) <-> In k (dict_keys d) \/ k = k0.
Proof.
  intros V d k0 k v. rewrite dict_keys_set.
  destruct (existsb (String.eqb k0) (dict_keys d)) eqn:E.
  - split; [auto|]. intros [H | ->]; [exact H|].
    apply existsb_exists in E. destruct E as (x & Hx & Heq).
    apply String.eqb_eq in Heq. subst x. exact Hx.
  - rewrite in_app_iff. simpl. split.
    + intros [H | [H | []]]; [left; exact H | right; symmetry; exact H].
    + intros [H | ->]; [left; exact H | right; left; reflexivity].
Qed.

Lemma dict_get_set_inv :
  forall (V : Type) (d : dict V) (k0 k : string) (v w : V),
    dict_get (dict_set d k0 v) k = Some w ->
    (k = k0 /\ w = v) \/ (k <> k0 /\ dict_get d k = Some w).
Proof.
  intros V d k0 k v w H. destruct (String.eqb k0 k) eqn:E.
  - apply String.eqb_eq in E. subst k. rewrite dict_get_set_eq in H.
    inversion H. left. split; reflexivity.
  - apply String.eqb_neq in E. rewrite dict_get_set_neq in H by exact E.
    right. split; [congruence | exact H].
Qed.

(** A loop that stores one item per element under [key x]: the keys of the
    result, and a property of the stored values. *)
Lemma for_each_keys :
  forall (A V : Type) (key : A -> string) (P : string -> V -> Prop)
         (body : dict V -> A -> pyres (dict V)) (xs : list A) (acc r : dict V),
    (forall acc x acc',
        body acc x = Ok acc' ->
        exists v, acc' = dict_set acc (key x) v /\ P (key x) v) ->
    NoDup (dict_keys acc) ->
    (forall k v, dict_get acc k = Some v -> P k v) ->
    for_each xs body acc = Ok r ->
    NoDup (dict_keys r) /\
    (forall k, In k (dict_keys r) <->
               In k (dict_keys acc) \/ exists x, In x xs /\ k = key x) /\
    (forall k v, dict_get r k = Some v -> P k v).
Proof.
  intros A V key P body xs.
  induction xs as [|x xs IH]; intros acc r Hbody Hnd HP Hloop; simpl in Hloop.
  - inversion Hloop; subst r. split; [exact Hnd|]. split; [|exact HP].
    intros k. split; [auto|]. intros [H | (x & [] & _)]. exact H.
  - apply bind_Ok in Hloop. destruct Hloop as (acc' & Hb & Hloop).
    destruct (Hbody _ _ _ Hb) as (v & -> & Hv).
    apply IH in Hloop; [ | exact Hbody | apply dict_keys_set_NoDup; exact Hnd | ].
    + destruct Hloop as (Hnd' & Hkeys & HP').
      split; [exact Hnd'|]. split; [|exact HP'].
      intros k. rewrite Hkeys, dict_keys_set_In. split.
      * intros [[H | ->] | (y & Hy & ->)].
        -- left. exact H.
        -- right. exists x. split; [left; reflexivity | reflexivity].
        -- right. exists y. split; [right; exact Hy | reflexivity].
      * intros [H | (y & [<- | Hy] & ->)].
        -- left. left. exact H.
        -- left. right. reflexivity.
        -- right. exists y. split; [exact Hy | reflexivity].
    + intros k w Hget. apply dict_get_set_inv in Hget.
      destruct Hget as [[-> ->] | [_ Hget]]; [exact Hv | apply HP; exact Hget].
Qed.

End DictFacts.

(* ================================================================= *)
(** ** fitModel.Run: bookkeeping, parameters and the time window *)

Module CalibrationFacts.

Import FitModel SweepFacts DictFacts.

Section Facts.

Variable num : Type.
Variables num_eqb num_ltb : num -> num -> bool.
Variables num_add num_sub num_mul num_div : num -> num -> num.
Variable num_of_int : Z -> num.
Variable int_of_num : num -> Z.
Variable round : num -> Z -> num.
Variable decimal_exponent : num -> Z.
Variable num_1E3 : num.
Variable geomspace : Z -> slot Z -> pyres (list num).
Variable find_peaks : list num -> list nat.
Variable read_csv : string -> pyres (dict num).
Variable defaultParameters : string -> dict num.
Variable simulate : string -> network_args num -> list num -> pyres (dict (list num)).

Local Notation Run :=
  (FitModel.Run num_eqb num_ltb num_add num_sub num_mul num_div num_of_int
     int_of_num round decimal_exponent num_1E3 geomspace find_peaks read_csv
     defaultParameters simulate).
Local Notation prepare := (FitModel.prepare geomspace read_csv simulate).
Local Notation search :=
  (FitModel.search num_eqb num_ltb num_add num_sub num_mul num_div num_of_int
     int_of_num round decimal_exponent num_1E3 find_peaks defaultParameters
     simulate).
Local Notation trial :=
  (FitModel.trial num_eqb num_ltb num_add num_sub num_mul num_div num_of_int
     int_of_num round decimal_exponent num_1E3 find_peaks defaultParameters
     simulate).
Local Notation trial_ratio :=
  (FitModel.trial_ratio num_ltb num_mul num_div num_of_int int_of_num round
     decimal_exponent num_1E3 find_peaks defaultParameters simulate).
Local Notation calc_ratio :=
  (FitModel.calc_ratio num_ltb num_mul num_div num_of_int int_of_num round
     decimal_exponent num_1E3 find_peaks simulate).
Local Notation last_peak := (FitModel.last_peak num_mul num_1E3 find_peaks).
Local Notation where_gt := (FitModel.where_gt num_ltb).
Local Notation load_parameters := (FitModel.load_parameters read_csv).

(** What one pass through the loop body leaves behind. *)
Lemma trial_inv :
  forall (st st1 : fitModel num) (c : ctl) (seed expratio : num) (k : Z),
    _seed st = Val seed ->
    _expratio st = Val expratio ->
    _iteration st = Val k ->
    trial st = Ok (c, st1) ->
    exists r,
      trial_ratio st seed = Ok r /\
      ((c = Break /\
        num_eqb r expratio = true /\
        st1 = with_search st seed (Val k) (_lst_ratio st ++ [r])
                (_lst_seed st ++ [seed])
                (Val (round seed (decimal_exponent expratio)))) \/
       (c = Continue /\
        num_eqb r expratio = false /\
        exists seed1,
          st1 = with_search st seed1 (Val (k + 1)%Z) (_lst_ratio st ++ [r])
                  (_lst_seed st ++ [seed]) (_fold st))).
Proof.
  intros st st1 c seed expratio k Hseed Hexp Hiter H.
  unfold FitModel.trial in H. rewrite Hseed in H. simpl in H.
  apply bind_Ok in H. destruct H as (r & Hr & H).
  rewrite Hexp in H. simpl in H.
  exists r. split; [exact Hr|].
  destruct (num_eqb r expratio).
  - rewrite Hiter in H. inversion H; subst. left. repeat split.
  - rewrite Hiter in H. right.
    destruct (num_ltb r expratio); simpl in H;
      apply bind_Ok in H; destruct H as (step & _ & H);
      inversion H; subst; repeat split; eexists; reflexivity.
Qed.

Lemma search_bookkeeping :
  forall (n : nat) (st st' : fitModel num) (exit : loop_exit)
         (k : Z) (seed expratio : num),
    _iteration st = Val k ->
    _seed st = Val seed ->
    _expratio st = Val expratio ->
    search n st = Ok (exit, st') ->
    exists recorded,
      _lst_seed st' = _lst_seed st ++ recorded /\
      List.length (_lst_ratio st')
      = (List.length (_lst_ratio st) + List.length recorded)%nat /\
      match exit with
      | Converged =>
          _iteration st' = Val (k + Z.of_nat (List.length recorded) - 1)%Z /\
          exists earlier s,
            recorded = earlier ++ [s] /\
            _seed st' = Val s /\
            _fold st' = Val (round s (decimal_exponent expratio))
      | Exhausted =>
          _iteration st' = Val (k + Z.of_nat (List.length recorded))%Z /\
          _fold st' = _fold st
      end.
Proof.
  induction n as [|n IH]; intros st st' exit k seed expratio Hiter Hseed Hexp H.
  - simpl in H. inversion H; subst. exists []. rewrite app_nil_r. simpl.
    split; [reflexivity|]. split; [lia|].
    split; [rewrite Hiter; f_equal; lia | reflexivity].
  - simpl in H. apply bind_Ok in H. destruct H as ([c st1] & Htrial & H).
    simpl in H.
    destruct (@trial_inv st st1 c seed expratio k Hseed Hexp Hiter Htrial)
      as (r & _ & [(-> & _ & ->) | (-> & _ & seed1 & ->)]).
    + inversion H; subst exit st'. exists [seed]. simpl.
      split; [reflexivity|]. split; [rewrite length_app; reflexivity|].
      split; [f_equal; lia|].
      exists [], seed. repeat split.
    + apply IH with (k := (k + 1)%Z) (seed := seed1) (expratio := expratio) in H;
        [ | reflexivity | reflexivity | exact Hexp ].
      destruct H as (recorded & Hseeds & Hratios & Hexit).
      simpl in Hseeds, Hratios.
      exists (seed :: recorded).
      split; [rewrite Hseeds, <- app_assoc; reflexivity|].
      split; [rewrite Hratios, length_app; simpl; lia|].
      destruct exit.
      * destruct Hexit as (Hit & earlier & s & -> & Hs & Hfold).
        split; [rewrite Hit; f_equal; simpl List.length; lia|].
        exists (seed :: earlier), s. repeat split; assumption.
      * destruct Hexit as (Hit & Hfold).
        split; [rewrite Hit; f_equal; simpl List.length; lia | exact Hfold].
Qed.

Lemma prepare_fold :
  forall (self st : fitModel num) (kw : run_kwargs num),
    prepare self kw = Ok st -> _fold st = _fold self.
Proof.
  intros self st kw H. unfold FitModel.prepare in H.
  apply bind_Ok in H. destruct H as (s1 & Hkw & H).
  apply bind_Ok in H. destruct H as (tables & _ & H).
  apply bind_Ok in H. destruct H as (no_time & _ & H).
  destruct no_time; [discriminate|].
  apply bind_Ok in H. destruct H as (pathway & _ & H).
  apply bind_Ok in H. destruct H as (ttotal & _ & H).
  apply bind_Ok in H. destruct H as (t & _ & H).
  apply bind_Ok in H. destruct H as (res1 & _ & H).
  inversion H; subst st; clear H. simpl.
  unfold read_kwargs in Hkw.
  destruct (kw_expratio kw); [|discriminate].
  destruct (kw_seed kw); [|discriminate].
  destruct (kw_target_parameter kw); [|discriminate].
  simpl in Hkw. inversion Hkw; reflexivity.
Qed.

(** After [Run] returns, [_lst_seed] and [_lst_ratio] have one item per
    trial.  When the search converged, [_iteration] is the number of trials,
    the final [_seed] is the last recorded seed and [_fold] is that seed
    rounded to the decimals of [expratio].  When the budget ran out,
    [_iteration] is the number of trials plus one and [_fold] is left as it
    was before the call. *)
Theorem Run_bookkeeping :
  forall (self st st' : fitModel num) (kw : run_kwargs num)
         (exit : loop_exit) (expratio : num),
    prepare self kw = Ok st ->
    kw_expratio kw = Some expratio ->
    Run self kw = Ok (exit, st') ->
    List.length (_lst_ratio st') = List.length (_lst_seed st') /\
    match exit with
    | Converged =>
        _iteration st' = Val (Z.of_nat (List.length (_lst_seed st'))) /\
        exists earlier s,
          _lst_seed st' = earlier ++ [s] /\
          _seed st' = Val s /\
          _fold st' = Val (round s (decimal_exponent expratio))
    | Exhausted =>
        _iteration st' = Val (Z.of_nat (List.length (_lst_seed st')) + 1)%Z /\
        _fold st' = _fold self
    end.
Proof.
  intros self st st' kw exit expratio Hprep Hexp HRun.
  destruct (prepare_inv num_ltb num_mul num_div num_of_int int_of_num round
              decimal_exponent num_1E3 geomspace find_peaks read_csv
              defaultParameters simulate self kw Hprep)
    as (expratio' & seed & He & _ & Hseed & _ & Hr0 & Hs0 & Hrun).
  rewrite Hexp in He. inversion He; subst expratio'.
  destruct (run_iteration Hrun) as [k Hk].
  assert (Hk1 : _iteration st = Val 1%Z).
  { unfold FitModel.prepare in Hprep.
    repeat (apply bind_Ok in Hprep; destruct Hprep as (? & _ & Hprep)).
    match type of Hprep with (if ?b then _ else _) = _ => destruct b end;
      [discriminate|].
    repeat (apply bind_Ok in Hprep; destruct Hprep as (? & _ & Hprep)).
    inversion Hprep; reflexivity. }
  unfold FitModel.Run in HRun. rewrite Hprep in HRun. simpl in HRun.
  unfold search_loop in HRun.
  apply bind_Ok in HRun. destruct HRun as (n & _ & HRun).
  destruct (@search_bookkeeping n st st' exit 1%Z seed expratio Hk1 Hseed
              (run_expratio Hrun) HRun)
    as (recorded & Hseeds & Hratios & Hexit).
  rewrite Hs0 in Hseeds. rewrite Hr0 in Hratios. simpl in Hseeds, Hratios.
  split; [rewrite Hratios, Hseeds; reflexivity|].
  rewrite Hseeds. destruct exit.
  - destruct Hexit as (Hit & earlier & s & Hrec & Hs & Hfold).
    split; [rewrite Hit; f_equal; lia|].
    exists earlier, s. repeat split; assumption.
  - destruct Hexit as (Hit & Hfold).
    split; [rewrite Hit; f_equal; lia|].
    rewrite Hfold. eapply prepare_fold; eassumption.
Qed.

(** *** Peak values and the time window *)

Lemma take_Forall2 :
  forall (xs : list num) (idx : list nat) (vals : list num),
    take xs idx = Ok vals <->
    Forall2 (fun i v => nth_error xs i = Some v) idx vals.
Proof.
  intros xs. induction idx as [|i idx IH]; intros vals; simpl.
  - split.
    + intros H. inversion H. constructor.
    + intros H. inversion H. reflexivity.
  - unfold index. split.
    + intros H. destruct (nth_error xs i) as [x|] eqn:Hx; [|discriminate].
      simpl in H. destruct (take xs idx) as [rest|] eqn:Hrest; [|discriminate].
      simpl in H. inversion H; subst vals.
      constructor; [exact Hx | apply IH; reflexivity].
    + intros H. inversion H as [|? v ? rest Hx Hrest]; subst.
      rewrite Hx. simpl. apply IH in Hrest. rewrite Hrest. reflexivity.
Qed.

Lemma last_item_Ok :
  forall (xs : list num) (x : num),
    last_item xs = Ok x <-> exists earlier, xs = earlier ++ [x].
Proof.
  intros xs x. unfold last_item. split.
  - intros H. destruct (rev xs) as [|y ys] eqn:E; [discriminate|].
    inversion H; subst y. exists (rev ys).
    rewrite <- (rev_involutive xs), E. reflexivity.
  - intros [earlier ->]. rewrite rev_app_distr. reflexivity.
Qed.

(** [last_peak] returns exactly when [find_peaks] reports at least one
    position and every reported position lies inside the curve; the value is
    then the curve at the last reported position, times 1E3.  With no peak
    reported the [[-1]] read raises IndexError. *)
Theorem last_peak_value :
  forall (curve : list num),
    (forall v,
        last_peak curve = Ok v <->
        exists earlier i x,
          find_peaks curve = earlier ++ [i] /\
          Forall (fun j => (j < List.length curve)%nat) earlier /\
          nth_error curve i = Some x /\
          v = num_mul x num_1E3) /\
    ((find_peaks curve = [] \/
      exists i, In i (find_peaks curve) /\ (List.length curve <= i)%nat) ->
     exists msg, last_peak curve = Raise (IndexError msg)).
Proof.
  intros curve. split.
  - intros v. unfold FitModel.last_peak. split.
    + intros H. apply bind_Ok in H. destruct H as (peaks & Htake & H).
      apply bind_Ok in H. destruct H as (x & Hlast & H).
      inversion H; subst v.
      apply last_item_Ok in Hlast. destruct Hlast as [vals ->].
      apply take_Forall2 in Htake.
      apply Forall2_app_inv_r in Htake.
      destruct Htake as (earlier & final & Hearlier & Hfinal & Hidx).
      inversion Hfinal as [|i ? rest ? Hi Hnil]; subst.
      inversion Hnil; subst.
      exists earlier, i, x. repeat split; try assumption.
      clear - Hearlier. induction Hearlier as [|j w ? ? Hj _ IH]; constructor.
      * apply nth_error_Some. congruence.
      * exact IH.
    + intros (earlier & i & x & Hidx & Hin & Hx & ->).
      assert (Hvals : exists vals, take curve earlier = Ok vals).
      { clear - Hin. induction Hin as [|j js Hj _ [vals IH]].
        - exists []. reflexivity.
        - apply nth_error_Some in Hj.
          destruct (nth_error curve j) as [w|] eqn:Hw; [|congruence].
          exists (w :: vals). simpl. unfold index. rewrite Hw. simpl.
          rewrite IH. reflexivity. }
      destruct Hvals as [vals Hvals].
      assert (Htake : take curve (find_peaks curve) = Ok (vals ++ [x])).
      { rewrite Hidx. apply take_Forall2. apply Forall2_app.
        - apply take_Forall2. exact Hvals.
        - constructor; [exact Hx | constructor]. }
      rewrite Htake. simpl.
      assert (Hlast : last_item (vals ++ [x]) = Ok x)
        by (apply last_item_Ok; exists vals; reflexivity).
      rewrite Hlast. reflexivity.
  - unfold FitModel.last_peak. intros [Hnone | (i & Hin & Hout)].
    + rewrite Hnone. simpl. eexists. reflexivity.
    + assert (Htake : exists msg,
                 take curve (find_peaks curve) = Raise (IndexError msg)).
      { clear - Hin Hout. induction (find_peaks curve) as [|j js IH];
          [destruct Hin|].
        simpl. unfold index.
        destruct (nth_error curve j) as [w|] eqn:Hw;
          [|eexists; reflexivity].
        simpl. destruct Hin as [-> | Hin].
        - apply nth_error_None in Hout. congruence.
        - destruct (IH Hin) as [msg Hmsg]. rewrite Hmsg. eexists. reflexivity. }
      destruct Htake as [msg Hmsg]. rewrite Hmsg. eexists. reflexivity.
Qed.

Lemma take_where_gt :
  forall (c : num) (ts : list num) (before after : list num),
    (List.length ts <= List.length after)%nat ->
    take (before ++ after) (where_gt c ts (List.length before))
    = Ok (map snd (filter (fun p => num_ltb c (fst p)) (combine ts after))).
Proof.
  intros c. induction ts as [|t ts IH]; intros before after Hlen; [reflexivity|].
  destruct after as [|o after]; [simpl in Hlen; lia|].
  simpl in Hlen.
  assert (Hrest : take (before ++ o :: after)
                    (where_gt c ts (S (List.length before)))
                  = Ok (map snd (filter (fun p => num_ltb c (fst p))
                                   (combine ts after)))).
  { replace (before ++ o :: after) with ((before ++ [o]) ++ after)
      by (rewrite <- app_assoc; reflexivity).
    replace (S (List.length before)) with (List.length (before ++ [o]))
      by (rewrite length_app; simpl; lia).
    apply IH. lia. }
  simpl. destruct (num_ltb c t); simpl; [|exact Hrest].
  unfold index. rewrite nth_error_app2 by lia.
  rewrite Nat.sub_diag. simpl. rewrite Hrest. reflexivity.
Qed.

(** The time window of [calc_ratio], [np.take(obs, np.where(simtime > c))]:
    when the observable has a value for every time point, the window holds,
    in order, exactly the values whose time point is greater than [c]. *)
Theorem time_window_keeps_later_points :
  forall (c : num) (times obs : list num),
    (List.length times <= List.length obs)%nat ->
    take obs (where_gt c times 0)
    = Ok (map snd (filter (fun p => num_ltb c (fst p)) (combine times obs))).
Proof.
  intros c times obs Hlen.
  exact (take_where_gt c times [] obs Hlen).
Qed.

(** *** Configuration and the parameter table *)

(** [SetSimulationParameters] returns exactly when [ttotal], [pathway] and
    [observable] are given and the pathway, with "Gz(Gi)" read as "Gi", is
    one of the four available networks.  The pathway it stores is then one
    of these four names, never "Gz(Gi)", and the default-parameter data
    frame is reset to the empty one. *)
Theorem SetSimulationParameters_accepts :
  forall (self : fitModel num) (kw : sim_kwargs num),
    ((exists self', SetSimulationParameters self kw = Ok self') <->
     (exists ttotal pathway observable,
         kw_ttotal kw = Some ttotal /\
         kw_pathway kw = Some pathway /\
         kw_observable kw = Some observable /\
         In (if String.eqb pathway "Gz(Gi)" then "Gi"%string else pathway)
            available_pathways)) /\
    (forall self',
        SetSimulationParameters self kw = Ok self' ->
        exists stored,
          _pathway self' = Val stored /\
          In stored ["Gs"; "Gi"; "Gq"; "OXTR_pathway"]%string /\
          _DefaultPathwayParametersDataFrame self' = Val []).
Proof.
  intros self kw. unfold SetSimulationParameters. split; [split|].
  - intros [self' H].
    destruct (kw_ttotal kw) as [ttotal|]; [|discriminate].
    destruct (kw_pathway kw) as [pathway|]; [|discriminate].
    cbv beta iota zeta delta [Py.bind] in H.
    destruct (mem (if String.eqb pathway "Gz(Gi)" then "Gi"%string else pathway)
                available_pathways) eqn:Hmem; [|discriminate].
    cbv beta iota zeta delta [Py.bind negb] in H.
    destruct (kw_observable kw) as [observable|]; [|discriminate].
    exists ttotal, pathway, observable. repeat split.
    apply existsb_eqb_In. exact Hmem.
  - intros (ttotal & pathway & observable & -> & -> & -> & Hin).
    assert (Hmem : mem (if String.eqb pathway "Gz(Gi)" then "Gi"%string else pathway)
                     available_pathways = true)
      by (apply existsb_eqb_In; exact Hin).
    cbv beta iota zeta delta [Py.bind].
    rewrite Hmem. simpl. eexists. reflexivity.
  - intros self' H.
    destruct (kw_ttotal kw) as [ttotal|]; [|discriminate].
    destruct (kw_pathway kw) as [pathway|]; [|discriminate].
    cbv beta iota zeta delta [Py.bind] in H.
    destruct (mem (if String.eqb pathway "Gz(Gi)" then "Gi"%string else pathway)
                available_pathways) eqn:Hmem; [|discriminate].
    cbv beta iota zeta delta [Py.bind negb] in H.
    destruct (kw_observable kw) as [observable|]; [|discriminate].
    inversion H; subst self'; clear H.
    eexists. split; [reflexivity|]. split; [|reflexivity].
    apply existsb_eqb_In. exact Hmem.
Qed.

(** [Run] on an instance that [SetSimulationParameters] has not configured
    never returns: TypeError when [expratio], [seed] or [target_parameter]
    is missing, AttributeError on [_DefaultPathwayParametersDataFrame], which
    [__init__] does not create, otherwise. *)
Theorem Run_before_configuration :
  forall (kw : run_kwargs num),
    Run (init num) kw
    = match kw_expratio kw, kw_seed kw, kw_target_parameter kw with
      | None, _, _ => Raise (TypeError "exratio undefined.")
      | Some _, None, _ => Raise (TypeError "seed undefined.")
      | Some _, Some _, None => Raise (TypeError "target_parameter undefined.")
      | Some _, Some _, Some _ =>
          Raise (AttributeError "_DefaultPathwayParametersDataFrame")
      end.
Proof.
  intros kw. unfold FitModel.Run, FitModel.prepare, read_kwargs.
  destruct (kw_expratio kw); [|reflexivity].
  destruct (kw_seed kw); [|reflexivity].
  destruct (kw_target_parameter kw); reflexivity.
Qed.

(** A total time of zero counts as unset: whatever else is configured, [Run]
    does not return, and when the parameter tables can be read it raises
    TypeError "simulation parameters unknown.". *)
Theorem Run_zero_ttotal :
  forall (self : fitModel num) (kw : run_kwargs num),
    _ttotal self = Val 0%Z ->
    (exists e, Run self kw = Raise e) /\
    (forall s1 tables,
        read_kwargs self kw = Ok s1 ->
        load_parameters s1 = Ok tables ->
        Run self kw = Raise (TypeError "simulation parameters unknown.")).
Proof.
  intros self kw Hzero.
  assert (Hkw : forall s1, read_kwargs self kw = Ok s1 -> _ttotal s1 = Val 0%Z).
  { intros s1 H. unfold read_kwargs in H.
    destruct (kw_expratio kw); [|discriminate].
    destruct (kw_seed kw); [|discriminate].
    destruct (kw_target_parameter kw); [|discriminate].
    simpl in H. inversion H; subst s1. exact Hzero. }
  split.
  - unfold FitModel.Run, FitModel.prepare.
    destruct (read_kwargs self kw) as [s1|e] eqn:H1;
      [|eexists; reflexivity].
    simpl. destruct (load_parameters s1) as [tables|e];
      [|eexists; reflexivity].
    simpl. rewrite (Hkw s1 eq_refl). simpl. eexists. reflexivity.
  - intros s1 tables H1 H2. unfold FitModel.Run, FitModel.prepare.
    rewrite H1. simpl. rewrite H2. simpl. rewrite (Hkw s1 H1). reflexivity.
Qed.

(** What [read_kwargs] leaves untouched. *)
Lemma read_kwargs_keeps :
  forall (self s1 : fitModel num) (kw : run_kwargs num),
    read_kwargs self kw = Ok s1 ->
    pathway_parameters s1 = pathway_parameters self /\
    _DefaultPathwayParametersDataFrame s1 = _DefaultPathwayParametersDataFrame self /\
    _DefaultPathwayParametersTable s1 = _DefaultPathwayParametersTable self /\
    _pathway s1 = _pathway self.
Proof.
  intros self s1 kw H. unfold read_kwargs in H.
  destruct (kw_expratio kw); [|discriminate].
  destruct (kw_seed kw); [|discriminate].
  destruct (kw_target_parameter kw); [|discriminate].
  simpl in H. inversion H; subst s1. simpl. repeat split.
Qed.

(** The table the baseline run is simulated with, [{**table, **overrides}]:
    [table] is the CSV of the pathway when no data frame was loaded, the
    (edited) data frame otherwise; a key of [pathway_parameters] takes its
    value from there, any other key from [table]. *)
Theorem Run_parameter_precedence :
  forall (self st : fitModel num) (kw : run_kwargs num) (over : dict num),
    prepare self kw = Ok st ->
    pathway_parameters self = Val over ->
    NoDup (dict_keys over) ->
    exists df eff,
      _DefaultPathwayParametersDataFrame st = Val df /\
      _PathwayParameters st = Val eff /\
      (match _DefaultPathwayParametersDataFrame self with
       | Val ((_ :: _) as loaded) => df = loaded
       | _ => read_csv (format_slot (_pathway self)) = Ok df
       end) /\
      forall k,
        dict_get eff k
        = match dict_get over k with
          | Some v => Some v
          | None =>
              dict_get (match _DefaultPathwayParametersDataFrame self with
                        | Val (_ :: _) => edited_table self df
                        | _ => df
                        end) k
          end.
Proof.
  intros self st kw over H Hover Hnd. unfold FitModel.prepare in H.
  apply bind_Ok in H. destruct H as (s1 & Hkw & H).
  apply bind_Ok in H. destruct H as (tables & Htables & H).
  apply bind_Ok in H. destruct H as (no_time & _ & H).
  destruct no_time; [discriminate|].
  apply bind_Ok in H. destruct H as (pathway & _ & H).
  apply bind_Ok in H. destruct H as (ttotal & _ & H).
  apply bind_Ok in H. destruct H as (t & _ & H).
  apply bind_Ok in H. destruct H as (res1 & _ & H).
  inversion H; subst st; clear H. simpl.
  destruct (read_kwargs_keeps _ _ Hkw) as (Hpp & Hdf & Htab & Hpath).
  unfold FitModel.load_parameters in Htables.
  rewrite Hpp, Hdf, Hpath, Hover in Htables.
  assert (Hedit : forall d, edited_table s1 d = edited_table self d)
    by (intros d; unfold edited_table; rewrite Htab; reflexivity).
  destruct (_DefaultPathwayParametersDataFrame self) as [| |[|row df0]];
    simpl in Htables; try discriminate.
  - destruct (read_csv (format_slot (_pathway self))) as [csv|] eqn:Hcsv;
      [|discriminate].
    simpl in Htables. inversion Htables; subst tables. simpl.
    exists csv, (dict_update csv over). repeat split.
    intros k. apply dict_get_update. exact Hnd.
  - destruct (read_csv (format_slot (_pathway self))) as [csv|] eqn:Hcsv;
      [|discriminate].
    simpl in Htables. inversion Htables; subst tables. simpl.
    exists csv, (dict_update csv over). repeat split.
    intros k. apply dict_get_update. exact Hnd.
  - inversion Htables; subst tables. simpl.
    exists (row :: df0), (dict_update (edited_table s1 (row :: df0)) over).
    split; [reflexivity|]. split; [reflexivity|]. split; [reflexivity|].
    intros k. rewrite <- Hedit. apply dict_get_update. exact Hnd.
Qed.

(** Each trial simulates with the effective table changed at one key: the
    target parameter is set to its value in the pathway module's defaults
    times the seed, whatever the effective table held for it; every other
    key keeps the value of the effective table. *)
Theorem trial_changes_only_the_target :
  forall (st : fitModel num) (seed r : num),
    trial_ratio st seed = Ok r ->
    exists pathway target params default t perturbed res2,
      _pathway st = Val pathway /\
      _target_parameter st = Val target /\
      _PathwayParameters st = Val params /\
      dict_get (defaultParameters pathway) target = Some default /\
      simtime st = Val t /\
      simulate pathway
        {| arg_LR := Absent; arg_kinetics := None;
           arg_parameters := perturbed |} t = Ok res2 /\
      dict_get perturbed target = Some (num_mul default seed) /\
      forall k, k <> target -> dict_get perturbed k = dict_get params k.
Proof.
  intros st seed r H. unfold FitModel.trial_ratio in H.
  apply bind_Ok in H. destruct H as (pathway & Hpathway & H).
  apply bind_Ok in H. destruct H as (target & Htarget & H).
  apply bind_Ok in H. destruct H as (params & Hparams & H).
  apply bind_Ok in H. destruct H as (default & Hdefault & H).
  unfold FitModel.calc_ratio in H.
  apply bind_Ok in H. destruct H as (pathway' & Hpathway' & H).
  apply bind_Ok in H. destruct H as (t & Ht & H).
  apply bind_Ok in H. destruct H as (res2 & Hres2 & _).
  apply operand_Ok in Hpathway, Hpathway', Htarget, Hparams, Ht.
  rewrite Hpathway in Hpathway'. inversion Hpathway'; subst pathway'.
  apply dict_item_Ok in Hdefault.
  exists pathway, target, params, default, t,
    (dict_update params [(target, num_mul default seed)]), res2.
  do 5 (split; [assumption|]). split; [exact Hres2|].
  unfold dict_update. simpl. split.
  - apply dict_get_set_eq.
  - intros k Hk. apply dict_get_set_neq. congruence.
Qed.

Lemma calc_ratio_without_peaks :
  forall (st : fitModel num) (params : dict num),
    (forall c, find_peaks c = []) ->
    exists e, calc_ratio st params = Raise e.
Proof.
  intros st params Hnone.
  assert (Hlp : forall c,
             last_peak c
             = Raise (IndexError "index -1 is out of bounds for axis 0 with size 0")).
  { intros c. unfold FitModel.last_peak. rewrite Hnone. reflexivity. }
  unfold FitModel.calc_ratio.
  repeat match goal with
         | |- exists e, Py.bind ?m _ = Raise e =>
             first [ rewrite Hlp; simpl; eexists; reflexivity
                   | destruct m; simpl; [|eexists; reflexivity] ]
         end.
Qed.

(** When peak detection finds no peak in any curve, a [Run] with a positive
    [maxiter] never returns: its first trial raises (IndexError at the
    [[-1]] read of the empty peak array, unless an earlier step raised). *)
Theorem Run_needs_a_peak :
  forall (self : fitModel num) (kw : run_kwargs num) (n : Z),
    (forall c, find_peaks c = []) ->
    kw_maxiter kw = Some n ->
    (0 < n)%Z ->
    exists e, Run self kw = Raise e.
Proof.
  intros self kw n Hnone Hmax Hpos. unfold FitModel.Run.
  destruct (prepare self kw) as [st|e] eqn:Hprep; [|eexists; reflexivity].
  simpl.
  destruct (prepare_inv num_ltb num_mul num_div num_of_int int_of_num round
              decimal_exponent num_1E3 geomspace find_peaks read_csv
              defaultParameters simulate self kw Hprep)
    as (expratio & seed & _ & _ & Hseed & Hmaxiter & _).
  rewrite Hmax in Hmaxiter.
  unfold search_loop. rewrite Hmaxiter. simpl.
  destruct (Z.to_nat n) as [|m] eqn:Hn; [lia|].
  assert (Hratio : exists e, trial_ratio st seed = Raise e).
  { unfold FitModel.trial_ratio.
    repeat match goal with
           | |- exists e, Py.bind ?m _ = Raise e =>
               destruct m; simpl; [|eexists; reflexivity]
           end.
    apply calc_ratio_without_peaks. exact Hnone. }
  destruct Hratio as [e He].
  simpl. unfold FitModel.trial. rewrite Hseed. simpl. rewrite He.
  eexists. reflexivity.
Qed.

End Facts.

(** *** The theorems on the concrete run of [FitModel] *)

Definition toy_prepared : fitModel Z :=
  Eval vm_compute in
    match toy_prepare toy_self (toy_kwargs 6 (Some 5%Z) (Some 1%Z) (Some 1%Z)) with
    | Ok st => st
    | Raise _ => toy_self
    end.

Definition toy_trial_ratio : fitModel Z -> Z -> pyres Z :=
  trial_ratio Z.ltb Z.mul Z.div (fun z => z) (fun x => x) (fun x _ => x)
    (fun _ => 0%Z) 1000%Z (toy_peaks 0) (fun _ => [("k"%string, 2%Z)])
    toy_simulate.

(** An instance configured with two overrides, one of them of the parameter
    the CSV table defines. *)
Definition toy_override_self : fitModel Z :=
  Eval vm_compute in
    match SetSimulationParameters (init Z)
            {| kw_pathway_parameters := Some (Val [("k"%string, 5%Z); ("j"%string, 7%Z)]);
               kw_ttotal := Some 10%Z;
               kw_nsteps := Some 3%Z;
               kw_pathway := Some "Gq"%string;
               kw_observable := Some "X"%string |} with
    | Ok self => self
    | Raise _ => init Z
    end.

(** An instance configured with a total time of zero. *)
Definition toy_zero_self : fitModel Z :=
  Eval vm_compute in
    match SetSimulationParameters (init Z)
            {| kw_pathway_parameters := None;
               kw_ttotal := Some 0%Z;
               kw_nsteps := Some 3%Z;
               kw_pathway := Some "Gq"%string;
               kw_observable := Some "X"%string |} with
    | Ok self => self
    | Raise _ => init Z
    end.

Lemma Run_bookkeeping_witness :
  exists exit st',
    toy_Run toy_self (toy_kwargs 6 (Some 5%Z) (Some 1%Z) (Some 1%Z)) = Ok (exit, st') /\
    List.length (_lst_ratio st') = List.length (_lst_seed st').
Proof.
  destruct (toy_prepare toy_self (toy_kwargs 6 (Some 5%Z) (Some 1%Z) (Some 1%Z)))
    as [st | e] eqn:Hprep; [|vm_compute in Hprep; discriminate].
  destruct (toy_Run toy_self (toy_kwargs 6 (Some 5%Z) (Some 1%Z) (Some 1%Z)))
    as [[exit st'] | e] eqn:HRun; [|vm_compute in HRun; discriminate].
  exists exit, st'. split; [reflexivity|].
  exact (proj1 (Run_bookkeeping Z.eqb Z.ltb Z.add Z.sub Z.mul Z.div
                  (fun z => z) (fun x => x) (fun x _ => x) (fun _ => 0%Z) 1000%Z
                  (fun _ _ => Ok [1; 2; 3]%Z) (toy_peaks 0)
                  (fun _ => Ok [("k"%string, 1%Z)]) (fun _ => [("k"%string, 2%Z)])
                  toy_simulate toy_self
                  (toy_kwargs 6 (Some 5%Z) (Some 1%Z) (Some 1%Z))
                  Hprep eq_refl HRun)).
Defined.

Lemma time_window_keeps_later_points_witness :
  take [10; 20; 30; 40]%Z (where_gt Z.ltb 1%Z [0; 1; 2; 3]%Z 0) = Ok [30; 40]%Z.
Proof.
  exact (time_window_keeps_later_points Z.ltb 1%Z [0; 1; 2; 3]%Z
           [10; 20; 30; 40]%Z (le_n 4)).
Defined.

Lemma Run_zero_ttotal_witness :
  exists e,
    toy_Run toy_zero_self (toy_kwargs 6 (Some 5%Z) (Some 1%Z) (Some 1%Z)) = Raise e.
Proof.
  exact (proj1 (Run_zero_ttotal Z.eqb Z.ltb Z.add Z.sub Z.mul Z.div
                  (fun z => z) (fun x => x) (fun x _ => x) (fun _ => 0%Z) 1000%Z
                  (fun _ _ => Ok [1; 2; 3]%Z) (toy_peaks 0)
                  (fun _ => Ok [("k"%string, 1%Z)]) (fun _ => [("k"%string, 2%Z)])
                  toy_simulate toy_zero_self
                  (toy_kwargs 6 (Some 5%Z) (Some 1%Z) (Some 1%Z)) eq_refl)).
Defined.

Lemma Run_parameter_precedence_witness :
  exists st eff,
    toy_prepare toy_override_self (toy_kwargs 6 (Some 5%Z) (Some 1%Z) (Some 1%Z))
    = Ok st /\
    _PathwayParameters st = Val eff /\
    dict_get eff "k" = Some 5%Z /\
    dict_get eff "j" = Some 7%Z.
Proof.
  destruct (toy_prepare toy_override_self
              (toy_kwargs 6 (Some 5%Z) (Some 1%Z) (Some 1%Z)))
    as [st | e] eqn:Hprep; [|vm_compute in Hprep; discriminate].
  assert (Hnd : NoDup (dict_keys [("k"%string, 5%Z); ("j"%string, 7%Z)])).
  { simpl. constructor.
    - intros [H | []]. discriminate H.
    - constructor; [intros [] | constructor]. }
  destruct (Run_parameter_precedence (fun _ _ => Ok [1; 2; 3]%Z)
              (fun _ => Ok [("k"%string, 1%Z)]) toy_simulate toy_override_self
              (toy_kwargs 6 (Some 5%Z) (Some 1%Z) (Some 1%Z))
              Hprep eq_refl Hnd)
    as (df & eff & _ & Heff & _ & Hget).
  exists st, eff. split; [reflexivity|]. split; [exact Heff|].
  split; [exact (Hget "k"%string) | exact (Hget "j"%string)].
Defined.

Lemma trial_changes_only_the_target_witness :
  exists r perturbed res2,
    toy_trial_ratio toy_prepared 3%Z = Ok r /\
    toy_simulate "Gq"
      {| arg_LR := Absent; arg_kinetics := None; arg_parameters := perturbed |}
      [1; 2; 3]%Z = Ok res2 /\
    dict_get perturbed "k" = Some 6%Z.
Proof.
  destruct (toy_trial_ratio toy_prepared 3%Z) as [r | e] eqn:Hr;
    [|vm_compute in Hr; discriminate].
  destruct (trial_changes_only_the_target Z.ltb Z.mul Z.div
              (fun z => z) (fun x => x) (fun x _ => x) (fun _ => 0%Z) 1000%Z
              (toy_peaks 0) (fun _ => [("k"%string, 2%Z)]) toy_simulate
              toy_prepared 3%Z Hr)
    as (pathway & target & params & default & t & perturbed & res2
        & Hp & Ht & _ & Hdef & Htime & Hsim & Hget & _).
  inversion Hp; subst pathway. inversion Ht; subst target.
  inversion Htime; subst t. inversion Hdef; subst default.
  exists r, perturbed, res2. split; [reflexivity|].
  split; [exact Hsim | exact Hget].
Defined.

Lemma Run_needs_a_peak_witness :
  exists e,
    Run Z.eqb Z.ltb Z.add Z.sub Z.mul Z.div (fun z => z) (fun x => x)
      (fun x _ => x) (fun _ => 0%Z) 1000%Z (fun _ _ => Ok [1; 2; 3]%Z)
      (fun _ => []) (fun _ => Ok [("k"%string, 1%Z)])
      (fun _ => [("k"%string, 2%Z)]) toy_simulate toy_self
      (toy_kwargs 6 (Some 5%Z) (Some 1%Z) (Some 1%Z)) = Raise e.
Proof.
  exact (Run_needs_a_peak Z.eqb Z.ltb Z.add Z.sub Z.mul Z.div
           (fun z => z) (fun x => x) (fun x _ => x) (fun _ => 0%Z) 1000%Z
           (fun _ _ => Ok [1; 2; 3]%Z) (fun _ => [])
           (fun _ => Ok [("k"%string, 1%Z)]) (fun _ => [("k"%string, 2%Z)])
           toy_simulate toy_self
           (toy_kwargs 6 (Some 5%Z) (Some 1%Z) (Some 1%Z))
           (fun _ => eq_refl) eq_refl eq_refl).
Defined.

End CalibrationFacts.

(* ================================================================= *)
(** ** simulation.inhibition: SetSimulationParameters *)

Module InhibitionSetup.

Import Sweep Inhibition.

Section Setup.

Variable num : Type.

(** Keyword arguments of [SetSimulationParameters]: the outer [None] is a key
    that is not passed, the inner one the value [None]. *)
Record sim_kwargs : Type := {
  kw_agonist : option (option string);
  kw_agonist_affinity : option (option num);
  kw_agonist_submaximal_conc : option (option num);
  kw_antagonists : option (option (list string));
  kw_antagonists_affinities : option (option (list num));
  kw_pathway : option (option string);
  kw_receptor_conc : option (option num);
  kw_lig_conc_range : option (option (list num));
  kw_ttotal : option (option num);
  kw_nsteps : option (option Z);
  kw_kinetics : option (option bool);
  kw_binding_kinetic_parameters : option (option (dict num))
}.

(** Lines 953-970. *)
Definition SetSimulationParameters (self : inhibition num) (kw : sim_kwargs)
  : pyres (inhibition num) :=
  agonist <- Activation.pop "agonist" (kw_agonist kw) ;;
  agonist_affinity <- Activation.pop "agonist_affinity" (kw_agonist_affinity kw) ;;
  submaximal <- Activation.pop "agonist_submaximal_conc"
                  (kw_agonist_submaximal_conc kw) ;;
  antagonists <- Activation.pop "antagonists" (kw_antagonists kw) ;;
  affinities <- Activation.pop "antagonists_affinities"
                  (kw_antagonists_affinities kw) ;;
  pathway <- Activation.pop "pathway" (kw_pathway kw) ;;
  receptor_conc <- Activation.pop "receptor_conc" (kw_receptor_conc kw) ;;
  lig_conc_range <- Activation.pop "lig_conc_range" (kw_lig_conc_range kw) ;;
  ttotal <- Activation.pop "ttotal" (kw_ttotal kw) ;;
  nsteps <- Activation.pop "nsteps" (kw_nsteps kw) ;;
  binding_kinetics <-
    match kw_kinetics kw with
    | Some kinetics =>
        if is_bool kinetics true
        then Raise (TypeError "The of Kinetic parameters during an inhibition simulation it is not supported yet.")
        else Ok kinetics
    | None => Ok (Some false)
    end ;;
  let kinetic_parameters := match kw_binding_kinetic_parameters kw with
                            | Some p => p
                            | None => _binding_kinetic_parameters self
                            end in
  Ok {| _agonist := agonist;
        _agonist_affinity := agonist_affinity;
        _agonist_submaximal_conc := submaximal;
        _antagonists := antagonists;
        _antagonists_affinities := affinities;
        _pathway := pathway;
        _receptor_conc := receptor_conc;
        _lig_conc_range := lig_conc_range;
        _ttotal := ttotal;
        _nsteps := nsteps;
        _binding_kinetics := binding_kinetics;
        _binding_kinetic_parameters := kinetic_parameters;
        _DefaultPathwayParametersDataFrame := Val [];
        _DefaultPathwayParametersTable := _DefaultPathwayParametersTable self;
        _PathwayParameters := _PathwayParameters self;
        simulation_data := simulation_data self |}.

End Setup.

End InhibitionSetup.

(* ================================================================= *)
(** ** activation and inhibition: configuration, input checks, stored data *)

Module RunChecks.

Import Sweep SweepFacts DictFacts RunFacts.

Section Checks.

Variable num : Type.
Variable num_0 : num.
Variable num_nonzero : num -> bool.
Variable geomspace : option num -> option Z -> pyres (list num).
Variable LR_eq_conc : num -> num -> num -> num -> num -> pyres num.
Variable splitext : string -> string.
Variable read_csv : string -> pyres (dict num).
Variable list_of_observables : string -> list string.
Variable simulate : string -> network_args num -> list num -> pyres (dict (list num)).

Local Notation activation_Run :=
  (Activation.Run num_0 num_nonzero geomspace LR_eq_conc splitext read_csv
     list_of_observables simulate).
Local Notation inhibition_Run :=
  (Inhibition.Run num_nonzero geomspace LR_eq_conc splitext read_csv
     list_of_observables simulate).

Lemma inhibition_checks_iff :
  forall self : Inhibition.inhibition num,
    (Inhibition.check_inputs num_nonzero self = Ok tt <->
     Inhibition._agonist self <> None /\
     Inhibition._agonist_affinity self <> None /\
     Inhibition._antagonists self <> None /\
     Inhibition._antagonists_affinities self <> None /\
     Inhibition._pathway self <> None /\
     (exists range,
         Inhibition._lig_conc_range self = Some range /\
         existsb num_nonzero range = true) /\
     Inhibition._agonist_submaximal_conc self <> None /\
     Inhibition._ttotal self <> None /\
     Inhibition._nsteps self <> None /\
     Inhibition._receptor_conc self <> None /\
     Inhibition._binding_kinetics self <> Some true).
Proof.
  intros self.
  unfold Inhibition.check_inputs, Inhibition.any.
  destruct (Inhibition._agonist self); simpl;
    [|split; [discriminate | intros (H & _); congruence]].
  destruct (Inhibition._agonist_affinity self); simpl;
    [|split; [discriminate | intros (_ & H & _); congruence]].
  destruct (Inhibition._antagonists self); simpl;
    [|split; [discriminate | intros (_ & _ & H & _); congruence]].
  destruct (Inhibition._antagonists_affinities self); simpl;
    [|split; [discriminate | intros (_ & _ & _ & H & _); congruence]].
  destruct (Inhibition._pathway self); simpl;
    [|split; [discriminate | intros (_ & _ & _ & _ & H & _); congruence]].
  destruct (Inhibition._lig_conc_range self) as [range|]; simpl;
    [|split; [discriminate
             | intros (_ & _ & _ & _ & _ & (r & H & _) & _); discriminate]].
  destruct (existsb num_nonzero range) eqn:Hany; simpl;
    [|split; [discriminate
             | intros (_ & _ & _ & _ & _ & (r & H & H') & _);
               inversion H; subst r; congruence]].
  destruct (Inhibition._agonist_submaximal_conc self); simpl;
    [|split; [discriminate
             | intros (_ & _ & _ & _ & _ & _ & H & _); congruence]].
  destruct (Inhibition._ttotal self); simpl;
    [|split; [discriminate
             | intros (_ & _ & _ & _ & _ & _ & _ & H & _); congruence]].
  destruct (Inhibition._nsteps self); simpl;
    [|split; [discriminate
             | intros (_ & _ & _ & _ & _ & _ & _ & _ & H & _); congruence]].
  destruct (Inhibition._receptor_conc self); simpl;
    [|split; [discriminate
             | intros (_ & _ & _ & _ & _ & _ & _ & _ & _ & H & _); congruence]].
  destruct (Inhibition._binding_kinetics self) as [[|]|]; simpl.
  + split; [discriminate|].
    intros (_ & _ & _ & _ & _ & _ & _ & _ & _ & _ & H). congruence.
  + split; [|reflexivity]. intros _.
    repeat (split; [discriminate|]).
    split; [exists range; split; [reflexivity | exact Hany]|].
    repeat (split; [discriminate|]). discriminate.
  + split; [|reflexivity]. intros _.
    repeat (split; [discriminate|]).
    split; [exists range; split; [reflexivity | exact Hany]|].
    repeat (split; [discriminate|]). discriminate.
Qed.

(** [inhibition.Run] passes its input checks exactly when the agonist, its
    affinity, the antagonists, their affinities, the pathway, the submaximal
    agonist concentration, the total time, the number of steps and the
    receptor concentration are all set, the concentration range is an array
    with a nonzero element, and [_binding_kinetics] is not [True]; a [Run]
    that returns has passed them. *)
Theorem inhibition_check_inputs_accepts :
  forall self : Inhibition.inhibition num,
    (Inhibition.check_inputs num_nonzero self = Ok tt <->
     Inhibition._agonist self <> None /\
     Inhibition._agonist_affinity self <> None /\
     Inhibition._antagonists self <> None /\
     Inhibition._antagonists_affinities self <> None /\
     Inhibition._pathway self <> None /\
     (exists range,
         Inhibition._lig_conc_range self = Some range /\
         existsb num_nonzero range = true) /\
     Inhibition._agonist_submaximal_conc self <> None /\
     Inhibition._ttotal self <> None /\
     Inhibition._nsteps self <> None /\
     Inhibition._receptor_conc self <> None /\
     Inhibition._binding_kinetics self <> Some true) /\
    (forall self',
        inhibition_Run self = Ok self' ->
        Inhibition.check_inputs num_nonzero self = Ok tt).
Proof.
  intros self. split.
  - apply inhibition_checks_iff.
  - intros self' H. unfold Inhibition.Run in H.
    apply bind_Ok in H. destruct H as ([] & Hc & _). exact Hc.
Qed.

Lemma check_pathway_Ok :
  forall given stored,
    Activation.check_pathway given = Ok stored ->
    stored = (if String.eqb given "Gz(Gi)" then "Gi"%string else given) /\
    In stored ["Gs"; "Gi"; "Gq"]%string.
Proof.
  intros given stored H. unfold Activation.check_pathway in H.
  cbv beta iota zeta in H.
  destruct (mem (if String.eqb given "Gz(Gi)" then "Gi"%string else given)
              available_pathways) eqn:Hmem; [|discriminate].
  cbv beta iota delta [negb] in H. inversion H; subst stored.
  split; [reflexivity|]. apply existsb_eqb_In. exact Hmem.
Qed.

Lemma check_pathway_unavailable :
  forall given,
    ~ In given ["Gs"; "Gi"; "Gq"; "Gz(Gi)"]%string ->
    Activation.check_pathway given
    = Raise (Exception "Unvailable Pathway. Please, introduce it manually.").
Proof.
  intros given Hout. unfold Activation.check_pathway. cbv beta iota zeta.
  destruct (String.eqb given "Gz(Gi)") eqn:E.
  - apply String.eqb_eq in E. exfalso. apply Hout. subst given.
    right. right. right. left. reflexivity.
  - destruct (mem given available_pathways) eqn:Hmem; [|reflexivity].
    apply existsb_eqb_In in Hmem. exfalso. apply Hout.
    destruct Hmem as [H | [H | [H | []]]]; subst given;
      [left | right; left | right; right; left]; reflexivity.
Qed.

(** The pathway a completed [Run] leaves in [_pathway] is the configured
    one with "Gz(Gi)" replaced by "Gi", and it is one of "Gs", "Gi", "Gq".
    A configured pathway outside these names makes [Run], once the input
    checks are passed, raise the 'Unvailable Pathway' exception, whatever
    the tables and the simulator would return. *)
Theorem Run_stores_available_pathway :
  (forall (self self' : Activation.activation num),
      activation_Run self = Ok self' ->
      exists given,
        Activation._pathway self = Some given /\
        Activation._pathway self'
        = Some (if String.eqb given "Gz(Gi)" then "Gi"%string else given) /\
        In (if String.eqb given "Gz(Gi)" then "Gi"%string else given)
           ["Gs"; "Gi"; "Gq"]%string) /\
  (forall (self self' : Inhibition.inhibition num),
      inhibition_Run self = Ok self' ->
      exists given,
        Inhibition._pathway self = Some given /\
        Inhibition._pathway self'
        = Some (if String.eqb given "Gz(Gi)" then "Gi"%string else given) /\
        In (if String.eqb given "Gz(Gi)" then "Gi"%string else given)
           ["Gs"; "Gi"; "Gq"]%string) /\
  (forall (self : Activation.activation num) given,
      Activation.check_inputs num_nonzero self = Ok tt ->
      Activation._pathway self = Some given ->
      ~ In given ["Gs"; "Gi"; "Gq"; "Gz(Gi)"]%string ->
      activation_Run self
      = Raise (Exception "Unvailable Pathway. Please, introduce it manually.")) /\
  (forall (self : Inhibition.inhibition num) given,
      Inhibition.check_inputs num_nonzero self = Ok tt ->
      Inhibition._pathway self = Some given ->
      ~ In given ["Gs"; "Gi"; "Gq"; "Gz(Gi)"]%string ->
      inhibition_Run self
      = Raise (Exception "Unvailable Pathway. Please, introduce it manually.")).
Proof.
  split; [|split; [|split]].
  - intros self self' H. unfold Activation.Run in H.
    apply bind_Ok in H. destruct H as (_ & _ & H).
    unfold Activation.run_checked in H.
    apply bind_Ok in H. destruct H as (given & Hgiven & H).
    apply bind_Ok in H. destruct H as (stored & Hstored & H).
    apply bind_Ok in H. destruct H as (tables & _ & H).
    apply bind_Ok in H. destruct H as (t & _ & H).
    apply bind_Ok in H. destruct H as (ligands & _ & H).
    apply bind_Ok in H. destruct H as (data & _ & H).
    inversion H; subst self'; clear H.
    apply number_Ok in Hgiven. apply check_pathway_Ok in Hstored.
    destruct Hstored as [Heq Hin]. exists given.
    split; [exact Hgiven|]. rewrite <- Heq. split; [reflexivity | exact Hin].
  - intros self self' H. unfold Inhibition.Run in H.
    apply bind_Ok in H. destruct H as (_ & _ & H).
    unfold Inhibition.run_checked in H.
    apply bind_Ok in H. destruct H as (given & Hgiven & H).
    apply bind_Ok in H. destruct H as (stored & Hstored & H).
    apply bind_Ok in H. destruct H as (tables & _ & H).
    apply bind_Ok in H. destruct H as (t & _ & H).
    apply bind_Ok in H. destruct H as (ligands & _ & H).
    apply bind_Ok in H. destruct H as (data & _ & H).
    inversion H; subst self'; clear H.
    apply number_Ok in Hgiven.
    change (Activation.check_pathway given = Ok stored) in Hstored.
    apply check_pathway_Ok in Hstored.
    destruct Hstored as [Heq Hin]. exists given.
    split; [exact Hgiven|]. rewrite <- Heq. split; [reflexivity | exact Hin].
  - intros self given Hc Hp Hout.
    unfold Activation.Run, Activation.run_checked.
    rewrite Hc, Hp. simpl Py.bind at 1. cbv beta iota delta [Py.bind number].
    rewrite (check_pathway_unavailable Hout). reflexivity.
  - intros self given Hc Hp Hout.
    unfold Inhibition.Run, Inhibition.run_checked.
    rewrite Hc, Hp. cbv beta iota delta [Py.bind number].
    change (Inhibition.check_pathway given) with (Activation.check_pathway given).
    rewrite (check_pathway_unavailable Hout). reflexivity.
Qed.

(** The keys of [simulation_data] after a completed [Run]: each is the name
    (file name without extension) of a configured ligand, every configured
    ligand has its name among them, no key occurs twice, and the record under
    a key is labelled with that name (activation) or with the agonist, " + "
    and that name (inhibition).  Ligands with the same name share one
    record. *)
Theorem simulation_data_keys :
  (forall (self self' : Activation.activation num),
      activation_Run self = Ok self' ->
      exists ligands data,
        Activation._ligands self = Some ligands /\
        Activation.simulation_data self' = Some data /\
        NoDup (dict_keys data) /\
        (forall k, In k (dict_keys data) <->
                   exists ligand, In ligand ligands /\ k = splitext ligand) /\
        (forall k rec, dict_get data k = Some rec -> label rec = k)) /\
  (forall (self self' : Inhibition.inhibition num),
      inhibition_Run self = Ok self' ->
      exists antagonists data,
        Inhibition._antagonists self = Some antagonists /\
        Inhibition.simulation_data self' = Some data /\
        NoDup (dict_keys data) /\
        (forall k, In k (dict_keys data) <->
                   exists ligand, In ligand antagonists /\ k = splitext ligand) /\
        (forall k rec,
            dict_get data k = Some rec ->
            exists agonist,
              Inhibition._agonist self = Some agonist /\
              label rec = (agonist ++ " + " ++ k)%string)).
Proof.
  split.
  - intros self self' H. unfold Activation.Run in H.
    apply bind_Ok in H. destruct H as (_ & _ & H).
    unfold Activation.run_checked in H.
    apply bind_Ok in H. destruct H as (given & _ & H).
    apply bind_Ok in H. destruct H as (stored & _ & H).
    apply bind_Ok in H. destruct H as (tables & _ & H).
    apply bind_Ok in H. destruct H as (t & _ & H).
    apply bind_Ok in H. destruct H as (ligands & Hligands & H).
    apply bind_Ok in H. destruct H as (data & Hdata & H).
    inversion H; subst self'; clear H.
    apply number_Ok in Hligands. exists ligands, data.
    split; [exact Hligands|]. split; [reflexivity|].
    unfold Activation.run_ligands in Hdata.
    apply (@for_each_keys _ _ splitext (fun k rec => label rec = k)) in Hdata.
    + destruct Hdata as (Hnd & Hkeys & Hlabel).
      split; [exact Hnd|]. split; [|exact Hlabel].
      intros k. rewrite Hkeys. simpl. split.
      * intros [[] | Hx]. exact Hx.
      * intros Hx. right. exact Hx.
    + intros acc ligand acc' Hb.
      apply bind_Ok in Hb. destruct Hb as (range & _ & Hb).
      apply bind_Ok in Hb. destruct Hb as (d & _ & Hb).
      inversion Hb. eexists. split; reflexivity.
    + constructor.
    + intros k v Hget. discriminate.
  - intros self self' H. unfold Inhibition.Run in H.
    apply bind_Ok in H. destruct H as (_ & _ & H).
    unfold Inhibition.run_checked in H.
    apply bind_Ok in H. destruct H as (given & _ & H).
    apply bind_Ok in H. destruct H as (stored & _ & H).
    apply bind_Ok in H. destruct H as (tables & _ & H).
    apply bind_Ok in H. destruct H as (t & _ & H).
    apply bind_Ok in H. destruct H as (antagonists & Hligands & H).
    apply bind_Ok in H. destruct H as (data & Hdata & H).
    inversion H; subst self'; clear H.
    apply number_Ok in Hligands. exists antagonists, data.
    split; [exact Hligands|]. split; [reflexivity|].
    unfold Inhibition.run_ligands in Hdata.
    apply (@for_each_keys _ _ splitext
             (fun k rec =>
                exists agonist,
                  Inhibition._agonist self = Some agonist /\
                  label rec = (agonist ++ " + " ++ k)%string)) in Hdata.
    + destruct Hdata as (Hnd & Hkeys & Hlabel).
      split; [exact Hnd|]. split; [|exact Hlabel].
      intros k. rewrite Hkeys. simpl. split.
      * intros [[] | Hx]. exact Hx.
      * intros Hx. right. exact Hx.
    + intros acc ligand acc' Hb.
      apply bind_Ok in Hb. destruct Hb as (range & _ & Hb).
      apply bind_Ok in Hb. destruct Hb as (d & _ & Hb).
      apply bind_Ok in Hb. destruct Hb as (agonist & Hagonist & Hb).
      inversion Hb. eexists. split; [reflexivity|].
      exists agonist. split; [apply number_Ok; exact Hagonist | reflexivity].
    + constructor.
    + intros k v Hget. discriminate.
Qed.

(** [activation.SetSimulationParameters] returns exactly when the seven
    keys it pops without a default are passed: [ligands], [pathway],
    [receptor_conc], [lig_conc_range], [ttotal], [nsteps] and
    [binding_kinetics]; otherwise it raises KeyError on one of them, on
    [binding_kinetics] when that is the only one missing.  [affinities] and
    [binding_kinetic_parameters] keep their previous value when omitted, and
    the default-parameter data frame is reset to the empty one. *)
Theorem activation_SetSimulationParameters_requires :
  forall (self : Activation.activation num) (kw : Activation.sim_kwargs num),
    ((exists self', Activation.SetSimulationParameters self kw = Ok self') <->
     Activation.kw_ligands kw <> None /\
     Activation.kw_pathway kw <> None /\
     Activation.kw_receptor_conc kw <> None /\
     Activation.kw_lig_conc_range kw <> None /\
     Activation.kw_ttotal kw <> None /\
     Activation.kw_nsteps kw <> None /\
     Activation.kw_binding_kinetics kw <> None) /\
    (forall e,
        Activation.SetSimulationParameters self kw = Raise e ->
        exists key,
          e = KeyError key /\
          In key ["ligands"; "pathway"; "receptor_conc"; "lig_conc_range";
                  "ttotal"; "nsteps"; "binding_kinetics"]%string /\
          (Activation.kw_ligands kw <> None ->
           Activation.kw_pathway kw <> None ->
           Activation.kw_receptor_conc kw <> None ->
           Activation.kw_lig_conc_range kw <> None ->
           Activation.kw_ttotal kw <> None ->
           Activation.kw_nsteps kw <> None ->
           key = "binding_kinetics"%string)) /\
    (forall self',
        Activation.SetSimulationParameters self kw = Ok self' ->
        Activation._affinities self'
        = match Activation.kw_affinities kw with
          | Some a => a
          | None => Activation._affinities self
          end /\
        Activation._binding_kinetic_parameters self'
        = match Activation.kw_binding_kinetic_parameters kw with
          | Some p => p
          | None => Activation._binding_kinetic_parameters self
          end /\
        Activation._DefaultPathwayParametersDataFrame self' = Val []).
Proof.
  intros self kw. unfold Activation.SetSimulationParameters, Activation.pop.
  destruct (Activation.kw_ligands kw) as [ligands|]; simpl;
    [|split; [|split];
      [ split; [intros [? H]; discriminate | intros (H & _); congruence]
      | intros e H; inversion H; eexists; split; [reflexivity|];
        split; [simpl; tauto | congruence]
      | intros ? H; discriminate ]].
  destruct (Activation.kw_pathway kw) as [pathway|]; simpl;
    [|split; [|split];
      [ split; [intros [? H]; discriminate | intros (_ & H & _); congruence]
      | intros e H; inversion H; eexists; split; [reflexivity|];
        split; [simpl; tauto | congruence]
      | intros ? H; discriminate ]].
  destruct (Activation.kw_receptor_conc kw) as [receptor_conc|]; simpl;
    [|split; [|split];
      [ split; [intros [? H]; discriminate | intros (_ & _ & H & _); congruence]
      | intros e H; inversion H; eexists; split; [reflexivity|];
        split; [simpl; tauto | congruence]
      | intros ? H; discriminate ]].
  destruct (Activation.kw_lig_conc_range kw) as [lig_conc_range|]; simpl;
    [|split; [|split];
      [ split; [intros [? H]; discriminate
               | intros (_ & _ & _ & H & _); congruence]
      | intros e H; inversion H; eexists; split; [reflexivity|];
        split; [simpl; tauto | congruence]
      | intros ? H; discriminate ]].
  destruct (Activation.kw_ttotal kw) as [ttotal|]; simpl;
    [|split; [|split];
      [ split; [intros [? H]; discriminate
               | intros (_ & _ & _ & _ & H & _); congruence]
      | intros e H; inversion H; eexists; split; [reflexivity|];
        split; [simpl; tauto | congruence]
      | intros ? H; discriminate ]].
  destruct (Activation.kw_nsteps kw) as [nsteps|]; simpl;
    [|split; [|split];
      [ split; [intros [? H]; discriminate
               | intros (_ & _ & _ & _ & _ & H & _); congruence]
      | intros e H; inversion H; eexists; split; [reflexivity|];
        split; [simpl; tauto | congruence]
      | intros ? H; discriminate ]].
  destruct (Activation.kw_binding_kinetics kw) as [kinetics|]; simpl;
    [|split; [|split];
      [ split; [intros [? H]; discriminate
               | intros (_ & _ & _ & _ & _ & _ & H); congruence]
      | intros e H; inversion H; eexists; split; [reflexivity|];
        split; [simpl; tauto | reflexivity]
      | intros ? H; discriminate ]].
  split; [|split].
  - split; [|intros _; eexists; reflexivity].
    intros _. repeat split; discriminate.
  - intros e H. discriminate.
  - intros self' H. inversion H. simpl. repeat split.
Qed.

(** [inhibition.SetSimulationParameters] returns exactly when its ten
    required keys are passed and [kinetics], if passed, is not [True]; the
    instance it leaves never has [_binding_kinetics == True] (it is [False]
    when [kinetics] is omitted).  The input checks of [Run] on the instance
    it leaves pass exactly when none of the ten values given is [None] and
    the concentration range has a nonzero element. *)
Theorem inhibition_configure_then_check :
  forall (self self' : Inhibition.inhibition num)
         (kw : InhibitionSetup.sim_kwargs num),
    InhibitionSetup.SetSimulationParameters self kw = Ok self' ->
    (InhibitionSetup.kw_agonist kw <> None /\
     InhibitionSetup.kw_agonist_affinity kw <> None /\
     InhibitionSetup.kw_agonist_submaximal_conc kw <> None /\
     InhibitionSetup.kw_antagonists kw <> None /\
     InhibitionSetup.kw_antagonists_affinities kw <> None /\
     InhibitionSetup.kw_pathway kw <> None /\
     InhibitionSetup.kw_receptor_conc kw <> None /\
     InhibitionSetup.kw_lig_conc_range kw <> None /\
     InhibitionSetup.kw_ttotal kw <> None /\
     InhibitionSetup.kw_nsteps kw <> None /\
     InhibitionSetup.kw_kinetics kw <> Some (Some true)) /\
    Inhibition._binding_kinetics self' <> Some true /\
    (InhibitionSetup.kw_kinetics kw = None ->
     Inhibition._binding_kinetics self' = Some false) /\
    (Inhibition.check_inputs num_nonzero self' = Ok tt <->
     InhibitionSetup.kw_agonist kw <> Some None /\
     InhibitionSetup.kw_agonist_affinity kw <> Some None /\
     InhibitionSetup.kw_agonist_submaximal_conc kw <> Some None /\
     InhibitionSetup.kw_antagonists kw <> Some None /\
     InhibitionSetup.kw_antagonists_affinities kw <> Some None /\
     InhibitionSetup.kw_pathway kw <> Some None /\
     InhibitionSetup.kw_receptor_conc kw <> Some None /\
     (exists range,
         InhibitionSetup.kw_lig_conc_range kw = Some (Some range) /\
         existsb num_nonzero range = true) /\
     InhibitionSetup.kw_ttotal kw <> Some None /\
     InhibitionSetup.kw_nsteps kw <> Some None).
Proof.
  intros self self' kw H.
  unfold InhibitionSetup.SetSimulationParameters, Activation.pop in H.
  destruct (InhibitionSetup.kw_agonist kw) as [agonist|]; [|discriminate].
  destruct (InhibitionSetup.kw_agonist_affinity kw) as [affinity|]; [|discriminate].
  destruct (InhibitionSetup.kw_agonist_submaximal_conc kw) as [submaximal|];
    [|discriminate].
  destruct (InhibitionSetup.kw_antagonists kw) as [antagonists|]; [|discriminate].
  destruct (InhibitionSetup.kw_antagonists_affinities kw) as [affinities|];
    [|discriminate].
  destruct (InhibitionSetup.kw_pathway kw) as [pathway|]; [|discriminate].
  destruct (InhibitionSetup.kw_receptor_conc kw) as [receptor_conc|];
    [|discriminate].
  destruct (InhibitionSetup.kw_lig_conc_range kw) as [range|]; [|discriminate].
  destruct (InhibitionSetup.kw_ttotal kw) as [ttotal|]; [|discriminate].
  destruct (InhibitionSetup.kw_nsteps kw) as [nsteps|]; [|discriminate].
  simpl in H.
  assert (Hk : exists kinetics,
             kinetics <> Some true /\
             (InhibitionSetup.kw_kinetics kw = None -> kinetics = Some false) /\
             InhibitionSetup.kw_kinetics kw <> Some (Some true) /\
             Inhibition._binding_kinetics self' = kinetics /\
             Inhibition._agonist self' = agonist /\
             Inhibition._agonist_affinity self' = affinity /\
             Inhibition._agonist_submaximal_conc self' = submaximal /\
             Inhibition._antagonists self' = antagonists /\
             Inhibition._antagonists_affinities self' = affinities /\
             Inhibition._pathway self' = pathway /\
             Inhibition._receptor_conc self' = receptor_conc /\
             Inhibition._lig_conc_range self' = range /\
             Inhibition._ttotal self' = ttotal /\
             Inhibition._nsteps self' = nsteps).
  { destruct (InhibitionSetup.kw_kinetics kw) as [[[|]|]|]; simpl in H;
      try discriminate; inversion H; subst self'; simpl;
      eexists; (split; [|split; [|split; [|repeat split]]]);
      try discriminate; try reflexivity; intros; congruence. }
  destruct Hk as (kinetics & Hnot & Hdefault & Hkw & Hkin & Ha & Haa & Hsub
                  & Hant & Haff & Hp & Hr & Hrange & Ht & Hn).
  split; [repeat (split; [discriminate|]); exact Hkw|].
  split; [rewrite Hkin; exact Hnot|].
  split; [intros Hnone; rewrite Hkin; apply Hdefault; exact Hnone|].
  rewrite inhibition_checks_iff.
  rewrite Ha, Haa, Hsub, Hant, Haff, Hp, Hr, Hrange, Ht, Hn, Hkin.
  split.
  - intros (H1 & H2 & H3 & H4 & H5 & (r & H6 & H6') & H7 & H8 & H9 & H10 & _).
    repeat (split; [congruence|]).
    split; [exists r; split; [congruence | exact H6']|].
    split; congruence.
  - intros (H1 & H2 & H3 & H4 & H5 & H6 & H7 & (r & H8 & H8') & H9 & H10).
    repeat (split; [congruence|]).
    split; [exists r; split; [congruence | exact H8']|].
    repeat (split; [congruence|]). exact Hnot.
Qed.

(** An activation instance whose [_binding_kinetics] is [None] passes the
    input checks like one with affinities, but neither branch of the loop
    body assigns [yout]: with at least one ligand, one concentration and one
    observable, [Run] raises NameError on [yout] at the first concentration
    of the first ligand. *)
Theorem Run_with_unset_kinetics :
  forall (self : Activation.activation num) (given stored : string)
         (tables : dict num * dict num) (t : list num)
         (ligand : string) (ligands : list string) (c : num) (cs : list num)
         (o : string) (os : list string),
    Activation.check_inputs num_nonzero self = Ok tt ->
    Activation._binding_kinetics self = None ->
    Activation._pathway self = Some given ->
    Activation.check_pathway given = Ok stored ->
    Activation.load_parameters read_csv self stored = Ok tables ->
    geomspace (Activation._ttotal self) (Activation._nsteps self) = Ok t ->
    Activation._ligands self = Some (ligand :: ligands) ->
    Activation._lig_conc_range self = Some (c :: cs) ->
    list_of_observables stored = o :: os ->
    activation_Run self = Raise (NameError "yout").
Proof.
  intros self given stored tables t ligand ligands c cs o os
         Hc Hk Hp Hstored Htables Ht Hl Hr Ho.
  unfold Activation.Run, Activation.run_checked.
  rewrite Hc, Hp. cbv beta iota delta [Py.bind number].
  rewrite Hstored. cbv beta iota. rewrite Htables. cbv beta iota.
  rewrite Ht, Hl. cbv beta iota.
  unfold Activation.run_ligands. simpl for_each.
  rewrite Hr. cbv beta iota delta [Py.bind number].
  unfold sweep. simpl for_each.
  unfold Activation.simulate_point at 1. rewrite Hk. simpl.
  unfold record_point. rewrite Ho. reflexivity.
Qed.

End Checks.

(** *** The theorems on concrete instances *)

Definition toy_inhibition_kwargs : InhibitionSetup.sim_kwargs Z := {|
  InhibitionSetup.kw_agonist := Some (Some "A"%string);
  InhibitionSetup.kw_agonist_affinity := Some (Some 7%Z);
  InhibitionSetup.kw_agonist_submaximal_conc := Some (Some 3%Z);
  InhibitionSetup.kw_antagonists := Some (Some ["B"%string]);
  InhibitionSetup.kw_antagonists_affinities := Some (Some [8%Z]);
  InhibitionSetup.kw_pathway := Some (Some "Gi"%string);
  InhibitionSetup.kw_receptor_conc := Some (Some 5%Z);
  InhibitionSetup.kw_lig_conc_range := Some (Some [0; 10]%Z);
  InhibitionSetup.kw_ttotal := Some (Some 2%Z);
  InhibitionSetup.kw_nsteps := Some (Some 2%Z);
  InhibitionSetup.kw_kinetics := None;
  InhibitionSetup.kw_binding_kinetic_parameters := None
|}.

Lemma inhibition_configure_then_check_witness :
  exists self',
    InhibitionSetup.SetSimulationParameters (Inhibition.init Z)
      toy_inhibition_kwargs = Ok self' /\
    Inhibition._binding_kinetics self' = Some false /\
    Inhibition.check_inputs (fun z => negb (z =? 0)%Z) self' = Ok tt.
Proof.
  destruct (InhibitionSetup.SetSimulationParameters (Inhibition.init Z)
              toy_inhibition_kwargs) as [self' | e] eqn:H;
    [|vm_compute in H; discriminate].
  destruct (inhibition_configure_then_check (fun z => negb (z =? 0)%Z)
              (Inhibition.init Z) toy_inhibition_kwargs H)
    as (_ & _ & Hdefault & Hchecks).
  exists self'. split; [reflexivity|]. split; [exact (Hdefault eq_refl)|].
  apply Hchecks. simpl.
  repeat (split; [discriminate|]).
  split; [exists [0; 10]%Z; split; reflexivity|].
  split; discriminate.
Defined.

(** An activation instance configured with [binding_kinetics=None]. *)
Definition toy_unset_kinetics : Activation.activation Z :=
  Eval vm_compute in
    match Activation.SetSimulationParameters (Activation.init Z)
            {| Activation.kw_ligands := Some (Some ["L1"; "L2"]%string);
               Activation.kw_affinities := Some (Some [7; 8]%Z);
               Activation.kw_pathway := Some (Some "Gs"%string);
               Activation.kw_receptor_conc := Some (Some 5%Z);
               Activation.kw_lig_conc_range := Some (Some [1; 10; 100]%Z);
               Activation.kw_ttotal := Some (Some 2%Z);
               Activation.kw_nsteps := Some (Some 2%Z);
               Activation.kw_binding_kinetics := Some None;
               Activation.kw_binding_kinetic_parameters := None |} with
    | Ok self => self
    | Raise _ => Activation.init Z
    end.

Lemma Run_with_unset_kinetics_witness :
  toy_activation_Run toy_unset_kinetics = Raise (NameError "yout").
Proof.
  exact (Run_with_unset_kinetics 0%Z (fun z => negb (z =? 0)%Z)
           (fun _ _ => Ok [1; 2]%Z) (fun r l _ _ _ => Ok (r * l)%Z)
           (fun name => name) (fun _ => Ok [("k"%string, 1%Z)])
           (fun _ => ["obs_cAMP"%string]) toy_simulate toy_unset_kinetics
           (given := "Gs"%string) (stored := "Gs"%string)
           (tables := ([("k"%string, 1%Z)], [("k"%string, 1%Z)]))
           (t := [1; 2]%Z)
           eq_refl eq_refl eq_refl eq_refl eq_refl eq_refl eq_refl eq_refl
           eq_refl).
Defined.

End RunChecks.

(* ================================================================= *)
(** ** Run followed by Analysis *)

Module Pipeline.

Import Sweep SweepFacts DictFacts RunFacts Numerics NumericsFacts Analysis
  AnalysisFacts.

Local Open Scope R_scope.

(** A loop whose body returns on every element, from every accumulator that
    satisfies [I], returns. *)
Lemma for_each_returns :
  forall (A S : Type) (I : S -> Prop) (body : S -> A -> pyres S) (xs : list A),
    (forall acc x, In x xs -> I acc -> exists acc', body acc x = Ok acc' /\ I acc') ->
    forall acc, I acc -> exists r, for_each xs body acc = Ok r /\ I r.
Proof.
  intros A S I body xs. induction xs as [|x xs IH]; intros Hbody acc Hacc.
  - exists acc. split; [reflexivity | exact Hacc].
  - destruct (Hbody acc x (or_introl eq_refl) Hacc) as (acc' & Hb & Hacc').
    simpl. rewrite Hb. simpl. apply IH; [|exact Hacc'].
    intros a y Hy Ha. apply Hbody; [right; exact Hy | exact Ha].
Qed.

Lemma amin_returns : forall xs : list R, xs <> [] -> exists m, amin xs = Ok m.
Proof.
  intros [|a xs] H; [congruence | eexists; reflexivity].
Qed.

Lemma amax_returns : forall xs : list R, xs <> [] -> exists m, amax xs = Ok m.
Proof.
  intros [|a xs] H; [congruence | eexists; reflexivity].
Qed.

Lemma nonempty_length : forall (A : Type) (xs : list A),
  xs <> [] <-> (0 < List.length xs)%nat.
Proof.
  intros A [|a xs]; simpl; split; intros H;
    try congruence; try lia; try discriminate.
Qed.

Lemma minmax_scale_returns :
  forall xs : list R, xs <> [] ->
    exists ys, minmax_scale xs = Ok ys /\ List.length ys = List.length xs.
Proof.
  intros xs H. unfold minmax_scale.
  destruct (amin_returns H) as [lo ->]. destruct (amax_returns H) as [hi ->].
  simpl. eexists. split; [reflexivity | apply length_map].
Qed.

(** What [Run] leaves in the [sim_data] of a record, as far as [Analysis]
    reads it: one entry per concentration, each with a nonempty array under
    the observable. *)
Definition recorded_series (observable : string) (n : nat)
  (sim_data : list (dict (pyval R))) : Prop :=
  List.length sim_data = n /\
  forall d1, In d1 sim_data ->
    exists series, dict_get d1 observable = Some (VArr series) /\ series <> [].

Lemma metabolite_conc_raw_returns :
  forall (sim_data : list (dict (pyval R))) (observable : string) (n : nat),
    recorded_series observable n sim_data ->
    exists raw,
      metabolite_conc_raw sim_data observable n = Ok raw /\
      List.length raw = n.
Proof.
  intros sim_data observable n [Hlen Hall].
  unfold metabolite_conc_raw.
  destruct (@for_each_returns nat (list R) (fun _ => True)
              (fun raw i => m <- point_max sim_data observable i ;; Ok (raw ++ [m]))
              (seq 0 n)) with (acc := @nil R) as (raw & Hraw & _).
  - intros acc i Hi _. apply in_seq in Hi.
    unfold point_max, index.
    destruct (nth_error sim_data i) as [d1|] eqn:Hd1.
    + destruct (Hall d1 (nth_error_In _ _ Hd1)) as (series & Hget & Hne).
      simpl. unfold dict_item. rewrite Hget. simpl.
      destruct (amax_returns Hne) as [m ->]. simpl.
      eexists. split; [reflexivity | exact I].
    + apply nth_error_None in Hd1. lia.
  - exact I.
  - exists raw. split; [exact Hraw|].
    apply metabolite_conc_raw_spec in Hraw. exact (proj1 Hraw).
Qed.

(** The observable [Analysis] reads for a pathway. *)
Definition observable_of (pathway : string) : string :=
  if String.eqb pathway "Gq" then "obs_IP3"%string else "obs_cAMP"%string.

Lemma reduce_returns :
  forall (pathway : string) (sim_data : list (dict (pyval R))) (n : nat),
    In pathway ["Gs"; "Gi"; "Gq"]%string ->
    (0 < n)%nat ->
    recorded_series (observable_of pathway) n sim_data ->
    exists raw norm,
      reduce (Some pathway) sim_data n = Ok (raw, norm) /\
      List.length norm = n.
Proof.
  intros pathway sim_data n Hin Hn Hrec.
  destruct (metabolite_conc_raw_returns Hrec) as (raw & Hraw & Hlen).
  assert (Hne : forall g : R -> R, map g raw <> []).
  { intros g. apply nonempty_length. rewrite length_map. lia. }
  destruct Hin as [<- | [<- | [<- | []]]]; unfold reduce; simpl;
    unfold observable_of in Hraw; simpl in Hraw; rewrite Hraw; simpl.
  - destruct (minmax_scale_returns (Hne (fun r => r))) as (norm & Hnorm & Hl).
    rewrite map_id in Hnorm, Hl. rewrite Hnorm. simpl.
    exists raw, norm. split; [reflexivity | lia].
  - destruct (minmax_scale_returns (Hne (fun r => 1 - r))) as (norm & Hnorm & Hl).
    rewrite Hnorm. simpl. rewrite length_map in Hl.
    exists raw, norm. split; [reflexivity | lia].
  - destruct (minmax_scale_returns (Hne (fun r => r))) as (norm & Hnorm & Hl).
    rewrite map_id in Hnorm, Hl. rewrite Hnorm. simpl.
    exists raw, norm. split; [reflexivity | lia].
Qed.

(** *** What Run stores, as far as Analysis reads it *)

Lemma record_point_series :
  forall (num : Type) (Q : list num -> Prop) (c : num) (t : list num)
         (observables : list string) (yout : option (dict (list num)))
         (d1 : dict (pyval num)),
    (forall out name series,
        yout = Some out -> dict_get out name = Some series -> Q series) ->
    record_point c t observables yout = Ok d1 ->
    forall name, In name observables ->
      exists series, dict_get d1 name = Some (VArr series) /\ Q series.
Proof.
  intros num Q c t observables yout d1 HQ Hrec. unfold record_point in Hrec.
  refine (@for_each_invariant _ _ _
            (fun done d =>
               forall name, In name done ->
                 exists series, dict_get d name = Some (VArr series) /\ Q series)
            observables [] _ d1 _ _ Hrec).
  - intros done name d d' Hdone _ Hbody.
    apply bind_Ok in Hbody. destruct Hbody as (out & Hout & Hbody).
    apply bind_Ok in Hbody. destruct Hbody as (series & Hseries & Hbody).
    inversion Hbody; subst d'; clear Hbody.
    destruct yout as [y0|]; [|discriminate]. inversion Hout; subst out.
    apply dict_item_Ok in Hseries.
    intros name' Hin'. apply in_app_or in Hin'.
    destruct (String.eqb name name') eqn:E.
    + apply String.eqb_eq in E. subst name'. exists series.
      split; [apply dict_get_set_eq | exact (HQ y0 name series eq_refl Hseries)].
    + apply String.eqb_neq in E. rewrite dict_get_set_neq by exact E.
      destruct Hin' as [H | [H | []]]; [apply Hdone; exact H | congruence].
  - intros name [].
Qed.

Lemma sweep_series :
  forall (num : Type) (Q : list num -> Prop)
         (simulate_point : num -> pyres (option (dict (list num))))
         (t : list num) (observables : list string) (range : list num)
         (data : list (dict (pyval num))),
    (forall c out name series,
        simulate_point c = Ok (Some out) ->
        dict_get out name = Some series -> Q series) ->
    sweep simulate_point t observables range = Ok data ->
    List.length data = List.length range /\
    forall d1, In d1 data ->
      forall name, In name observables ->
        exists series, dict_get d1 name = Some (VArr series) /\ Q series.
Proof.
  intros num Q simulate_point t observables range data HQ Hsweep.
  unfold sweep in Hsweep.
  refine (@for_each_invariant _ _ _
            (fun done data =>
               List.length data = List.length done /\
               forall d1, In d1 data ->
                 forall name, In name observables ->
                   exists series, dict_get d1 name = Some (VArr series) /\ Q series)
            range [] _ data _ _ Hsweep).
  - intros done c acc acc' [Hlen Hall] _ Hbody.
    apply bind_Ok in Hbody. destruct Hbody as (yout & Hyout & Hbody).
    apply bind_Ok in Hbody. destruct Hbody as (d1 & Hd1 & Hbody).
    inversion Hbody; subst acc'; clear Hbody.
    split; [rewrite !length_app, Hlen; reflexivity|].
    intros d Hd. apply in_app_or in Hd. destruct Hd as [Hd | [<- | []]].
    + apply Hall. exact Hd.
    + eapply record_point_series; [|exact Hd1].
      intros out name series -> Hget. eapply HQ; [exact Hyout | exact Hget].
  - split; [reflexivity | intros d1 []].
Qed.

Section Composition.

Variable num_0 : R.
Variable num_nonzero : R -> bool.
Variable run_geomspace : option R -> option Z -> pyres (list R).
Variable LR_eq_conc : R -> R -> R -> R -> R -> pyres R.
Variable splitext : string -> string.
Variable read_csv : string -> pyres (dict R).
Variable list_of_observables : string -> list string.
Variable simulate : string -> network_args R -> list R -> pyres (dict (list R)).
Variable curve_fit : fit_request -> pyres popt.
Variable geomspace : R -> R -> Z -> list R.
Variable round : R -> nat -> R.
Variable log10 : R -> R.

(** The solver returns parameters for every request the toolkit builds. *)
Definition fit_converges : Prop :=
  forall xs ys request,
    logistic_fit xs ys = Ok request -> exists popt, curve_fit request = Ok popt.

(** Neither the smallest nor the largest concentration is 0. *)
Definition nonzero_ends (range : list R) : Prop :=
  amin range <> Ok 0 /\ amax range <> Ok 0.

Lemma analysis_returns :
  forall (no_data : string) (data : dict (ligand_data R)) (range : list R)
         (pathway : string),
    fit_converges ->
    range <> [] ->
    nonzero_ends range ->
    In pathway ["Gs"; "Gi"; "Gq"]%string ->
    (forall k rec,
        dict_get data k = Some rec ->
        recorded_series (observable_of pathway) (List.length range) (sim_data rec)) ->
    exists dose,
      analysis curve_fit geomspace round log10 no_data (Some data) (Some range) (Some pathway)
      = Ok dose.
Proof.
  intros no_data data range pathway Hfit Hrange [Hends_lo Hends_hi] Hp Hrec.
  unfold analysis. simpl.
  destruct (amin_returns Hrange) as [lo Hlo].
  destruct (amax_returns Hrange) as [hi Hhi].
  assert (Hlo0 : lo <> 0) by (intros ->; contradiction).
  assert (Hhi0 : hi <> 0) by (intros ->; contradiction).
  rewrite Hlo, Hhi. simpl.
  destruct (@for_each_returns string (dict dose_response) (fun _ => True)
              (fun dose ligand =>
                 entry <- analyse_ligand curve_fit geomspace round log10 (Some pathway) range
                            lo hi data ligand ;;
                 Ok (dict_set dose ligand entry))
              (dict_keys data)) with (acc := @nil (string * dose_response))
    as (dose & Hdose & _).
  - intros acc ligand Hin _.
    apply dict_get_present in Hin. destruct Hin as [rec Hget].
    unfold analyse_ligand, dict_item. rewrite Hget. simpl.
    assert (Hn : (0 < List.length range)%nat) by (apply nonempty_length; exact Hrange).
    destruct (reduce_returns Hp Hn (Hrec _ _ Hget)) as (raw & norm & Hred & Hlen).
    rewrite Hred. simpl. unfold fit_ligand.
    assert (Hnorm : norm <> []) by (apply nonempty_length; lia).
    destruct (amin_returns Hnorm) as [y_min Hmin].
    destruct (amax_returns Hnorm) as [y_max Hmax].
    assert (Hreq : exists request, logistic_fit range norm = Ok request).
    { unfold logistic_fit. rewrite Hmin, Hmax. simpl. eexists. reflexivity. }
    destruct Hreq as [request Hreq]. rewrite Hreq. simpl.
    destruct (Hfit _ _ _ Hreq) as [popt ->]. simpl.
    rewrite (np_geomspace_nonzero _ _ Hlo0 Hhi0). simpl.
    eexists. split; [reflexivity | exact I].
  - exact I.
  - exists dose. exact Hdose.
Qed.

Local Notation activation_Run :=
  (Activation.Run num_0 num_nonzero run_geomspace LR_eq_conc splitext read_csv
     list_of_observables simulate).
Local Notation inhibition_Run :=
  (Inhibition.Run num_nonzero run_geomspace LR_eq_conc splitext read_csv
     list_of_observables simulate).

(** Every array the simulator returns has at least one sample. *)
Definition simulator_returns_samples : Prop :=
  forall pathway args t out name series,
    simulate pathway args t = Ok out ->
    dict_get out name = Some series ->
    series <> [].

(** Each pathway module lists the observable [Analysis] reads for it. *)
Definition observables_listed : Prop :=
  forall pathway,
    In pathway ["Gs"; "Gi"; "Gq"]%string ->
    In (observable_of pathway) (list_of_observables pathway).

Lemma activation_point_simulated :
  forall self pathway parameters t ligand c out,
    Activation.simulate_point num_0 LR_eq_conc simulate self pathway parameters
      t ligand c = Ok (Some out) ->
    exists args, simulate pathway args t = Ok out.
Proof.
  intros self pathway parameters t ligand c out H.
  unfold Activation.simulate_point in H.
  destruct (is_bool (Activation._binding_kinetics self) false).
  - repeat (apply bind_Ok in H; destruct H as (? & ? & H)).
    inversion H; subst. eexists. eassumption.
  - destruct (is_bool (Activation._binding_kinetics self) true); [|discriminate].
    apply bind_Ok in H. destruct H as (yout & Hsim & H).
    inversion H; subst. eexists. exact Hsim.
Qed.

Lemma inhibition_point_simulated :
  forall self pathway parameters t ligand c out,
    Inhibition.simulate_point LR_eq_conc simulate self pathway parameters
      t ligand c = Ok (Some out) ->
    exists args, simulate pathway args t = Ok out.
Proof.
  intros self pathway parameters t ligand c out H.
  unfold Inhibition.simulate_point in H.
  repeat (apply bind_Ok in H; destruct H as (? & ? & H)).
  inversion H; subst. eexists. eassumption.
Qed.

Lemma activation_records_series :
  simulator_returns_samples ->
  observables_listed ->
  forall self self' range,
    activation_Run self = Ok self' ->
    Activation._lig_conc_range self = Some range ->
    exists stored ligands data,
      In stored ["Gs"; "Gi"; "Gq"]%string /\
      Activation._pathway self' = Some stored /\
      Activation._lig_conc_range self' = Some range /\
      Activation._ligands self = Some ligands /\
      Activation.simulation_data self' = Some data /\
      (forall ligand, In ligand ligands ->
         In (splitext ligand) (dict_keys data)) /\
      (forall k rec,
         dict_get data k = Some rec ->
         recorded_series (observable_of stored) (List.length range) (sim_data rec)).
Proof.
  intros Hsamples Hlisted self self' range H Hrange.
  unfold Activation.Run in H.
  apply bind_Ok in H. destruct H as (_ & _ & H).
  unfold Activation.run_checked in H.
  apply bind_Ok in H. destruct H as (given & _ & H).
  apply bind_Ok in H. destruct H as (stored & Hstored & H).
  apply bind_Ok in H. destruct H as (tables & _ & H).
  apply bind_Ok in H. destruct H as (t & _ & H).
  apply bind_Ok in H. destruct H as (ligands & Hligands & H).
  apply bind_Ok in H. destruct H as (data & Hdata & H).
  inversion H; subst self'; clear H. simpl.
  apply RunChecks.check_pathway_Ok in Hstored. destruct Hstored as [_ Hin].
  apply number_Ok in Hligands.
  exists stored, ligands, data.
  do 5 (split; [assumption || reflexivity|]).
  unfold Activation.run_ligands in Hdata.
  apply (@ligands_recorded R
           (recorded_series (observable_of stored) (List.length range))
           splitext) in Hdata.
  - destruct Hdata as [Hl Hall]. split; [|exact Hall].
    intros ligand Hlig. destruct (Hl ligand Hlig) as (rec & Hget & _).
    apply dict_get_present. exists rec. exact Hget.
  - intros acc ligand acc' Hb.
    apply bind_Ok in Hb. destruct Hb as (range' & Hr & Hb).
    apply bind_Ok in Hb. destruct Hb as (d & Hsweep & Hb).
    inversion Hb; subst acc'; clear Hb.
    eexists. split; [reflexivity|]. simpl.
    apply number_Ok in Hr. rewrite Hrange in Hr. inversion Hr; subst range'.
    apply (@sweep_series R (fun s => s <> [])) in Hsweep.
    + destruct Hsweep as [Hlen Hall]. split; [exact Hlen|].
      intros d1 Hd1. apply (Hall d1 Hd1). apply Hlisted. exact Hin.
    + intros c out name series Hpoint Hget.
      apply activation_point_simulated in Hpoint. destruct Hpoint as [args Hsim].
      exact (Hsamples _ _ _ _ _ _ Hsim Hget).
Qed.

Lemma inhibition_records_series :
  simulator_returns_samples ->
  observables_listed ->
  forall self self' range,
    inhibition_Run self = Ok self' ->
    Inhibition._lig_conc_range self = Some range ->
    exists stored antagonists data,
      In stored ["Gs"; "Gi"; "Gq"]%string /\
      Inhibition._pathway self' = Some stored /\
      Inhibition._lig_conc_range self' = Some range /\
      Inhibition._antagonists self = Some antagonists /\
      Inhibition.simulation_data self' = Some data /\
      (forall ligand, In ligand antagonists ->
         In (splitext ligand) (dict_keys data)) /\
      (forall k rec,
         dict_get data k = Some rec ->
         recorded_series (observable_of stored) (List.length range) (sim_data rec)).
Proof.
  intros Hsamples Hlisted self self' range H Hrange.
  unfold Inhibition.Run in H.
  apply bind_Ok in H. destruct H as (_ & _ & H).
  unfold Inhibition.run_checked in H.
  apply bind_Ok in H. destruct H as (given & _ & H).
  apply bind_Ok in H. destruct H as (stored & Hstored & H).
  apply bind_Ok in H. destruct H as (tables & _ & H).
  apply bind_Ok in H. destruct H as (t & _ & H).
  apply bind_Ok in H. destruct H as (antagonists & Hligands & H).
  apply bind_Ok in H. destruct H as (data & Hdata & H).
  inversion H; subst self'; clear H. simpl.
  change (Activation.check_pathway given = Ok stored) in Hstored.
  apply RunChecks.check_pathway_Ok in Hstored. destruct Hstored as [_ Hin].
  apply number_Ok in Hligands.
  exists stored, antagonists, data.
  do 5 (split; [assumption || reflexivity|]).
  unfold Inhibition.run_ligands in Hdata.
  apply (@ligands_recorded R
           (recorded_series (observable_of stored) (List.length range))
           splitext) in Hdata.
  - destruct Hdata as [Hl Hall]. split; [|exact Hall].
    intros ligand Hlig. destruct (Hl ligand Hlig) as (rec & Hget & _).
    apply dict_get_present. exists rec. exact Hget.
  - intros acc ligand acc' Hb.
    apply bind_Ok in Hb. destruct Hb as (range' & Hr & Hb).
    apply bind_Ok in Hb. destruct Hb as (d & Hsweep & Hb).
    apply bind_Ok in Hb. destruct Hb as (agonist & _ & Hb).
    inversion Hb; subst acc'; clear Hb.
    eexists. split; [reflexivity|]. simpl.
    apply number_Ok in Hr. rewrite Hrange in Hr. inversion Hr; subst range'.
    apply (@sweep_series R (fun s => s <> [])) in Hsweep.
    + destruct Hsweep as [Hlen Hall]. split; [exact Hlen|].
      intros d1 Hd1. apply (Hall d1 Hd1). apply Hlisted. exact Hin.
    + intros c out name series Hpoint Hget.
      apply inhibition_point_simulated in Hpoint. destruct Hpoint as [args Hsim].
      exact (Hsamples _ _ _ _ _ _ Hsim Hget).
Qed.

(** [Analysis] accepts what [Run] stores.  When every array the simulator
    returns has a sample, each pathway lists the observable read for it
    (obs_IP3 for Gq, obs_cAMP for Gs and Gi) and the solver returns
    parameters for every request: after a [Run] that returned, over a
    nonempty concentration range whose smallest and largest concentration
    are not 0, [Analysis] returns, with an entry under the name of every
    configured ligand (activation) or antagonist (inhibition). *)
Theorem Run_then_Analysis_returns :
  simulator_returns_samples ->
  observables_listed ->
  fit_converges ->
  (forall (self self' : Activation.activation R) (range : list R),
      activation_Run self = Ok self' ->
      Activation._lig_conc_range self = Some range ->
      range <> [] ->
      nonzero_ends range ->
      exists ligands dose,
        Activation._ligands self = Some ligands /\
        activation_Analysis curve_fit geomspace round log10 self' = Ok dose /\
        forall ligand, In ligand ligands ->
          exists entry, dict_get dose (splitext ligand) = Some entry) /\
  (forall (self self' : Inhibition.inhibition R) (range : list R),
      inhibition_Run self = Ok self' ->
      Inhibition._lig_conc_range self = Some range ->
      range <> [] ->
      nonzero_ends range ->
      exists antagonists dose,
        Inhibition._antagonists self = Some antagonists /\
        inhibition_Analysis curve_fit geomspace round log10 self' = Ok dose /\
        forall ligand, In ligand antagonists ->
          exists entry, dict_get dose (splitext ligand) = Some entry).
Proof.
  intros Hsamples Hlisted Hfit. split.
  - intros self self' range HRun Hrange Hne Hends.
    destruct (activation_records_series Hsamples Hlisted _ HRun Hrange)
      as (stored & ligands & data & Hin & Hp & Hr & Hl & Hd & Hkeys & Hrec).
    unfold activation_Analysis. rewrite Hd, Hr, Hp.
    destruct (@analysis_returns
                "There is no simulation data. simulation.activation.run() must be run first."
                data range stored Hfit Hne Hends Hin Hrec) as [dose Hdose].
    exists ligands, dose. split; [exact Hl|]. split; [exact Hdose|].
    pose proof Hdose as Hinv. apply analysis_inv in Hinv.
    destruct Hinv as (sd & range' & lo & hi & Hsd & _ & _ & _ & _ & Hall).
    inversion Hsd; subst sd.
    intros ligand Hlig. apply Hall. apply Hkeys. exact Hlig.
  - intros self self' range HRun Hrange Hne Hends.
    destruct (inhibition_records_series Hsamples Hlisted _ HRun Hrange)
      as (stored & antagonists & data & Hin & Hp & Hr & Hl & Hd & Hkeys & Hrec).
    unfold inhibition_Analysis. rewrite Hd, Hr, Hp.
    destruct (@analysis_returns
                "There is no simulation data. simulation.inhibition.run() must be run first."
                data range stored Hfit Hne Hends Hin Hrec) as [dose Hdose].
    exists antagonists, dose. split; [exact Hl|]. split; [exact Hdose|].
    pose proof Hdose as Hinv. apply analysis_inv in Hinv.
    destruct Hinv as (sd & range' & lo & hi & Hsd & _ & _ & _ & _ & Hall).
    inversion Hsd; subst sd.
    intros ligand Hlig. apply Hall. apply Hkeys. exact Hlig.
Qed.

End Composition.

(** *** The composition on a concrete run: one ligand, one concentration *)

Definition toy_pipeline_simulate (pathway : string) (args : network_args R) (t : list R)
  : pyres (dict (list R)) :=
  Ok [("obs_cAMP"%string, [1; 2]); ("obs_IP3"%string, [3; 4])].

Definition toy_pipeline_Run : Activation.activation R -> pyres (Activation.activation R) :=
  Activation.Run 0 (fun _ => true) (fun _ _ => Ok [1; 2])
    (fun _ _ _ _ _ => Ok 1) (fun name => name) (fun _ => Ok [])
    (fun _ => ["obs_cAMP"; "obs_IP3"]%string) toy_pipeline_simulate.

Lemma toy_simulator_returns_samples : simulator_returns_samples toy_pipeline_simulate.
Proof.
  intros pathway args t out name series Hsim Hget.
  unfold toy_pipeline_simulate in Hsim. inversion Hsim; subst out. simpl in Hget.
  destruct (String.eqb name "obs_cAMP"); [inversion Hget; discriminate|].
  destruct (String.eqb name "obs_IP3"); [inversion Hget; discriminate|].
  discriminate.
Qed.

Lemma toy_observables_listed :
  observables_listed (fun _ => ["obs_cAMP"; "obs_IP3"]%string).
Proof.
  intros pathway _. unfold observable_of.
  destruct (String.eqb pathway "Gq"); simpl; tauto.
Qed.

Lemma toy_fit_converges : fit_converges toy_curve_fit.
Proof.
  intros xs ys request H.
  destruct (logistic_fit_inv _ _ H) as (y_min & y_max & _ & _ & ->).
  eexists. reflexivity.
Qed.

Lemma Run_then_Analysis_returns_witness :
  exists self' dose entry,
    toy_pipeline_Run toy_activation = Ok self' /\
    toy_Analysis self' = Ok dose /\
    dict_get dose "L" = Some entry.
Proof.
  destruct (toy_pipeline_Run toy_activation) as [self' | e] eqn:HRun;
    [|discriminate].
  assert (Hne : [1] <> @nil R) by discriminate.
  assert (Hends : nonzero_ends [1]).
  { split; simpl; intros H; inversion H; lra. }
  destruct (proj1 (@Run_then_Analysis_returns 0 (fun _ => true)
                     (fun _ _ => Ok [1; 2]) (fun _ _ _ _ _ => Ok 1)
                     (fun name => name) (fun _ => Ok [])
                     (fun _ => ["obs_cAMP"; "obs_IP3"]%string) toy_pipeline_simulate
                     toy_curve_fit toy_geomspace toy_round toy_log10
                     toy_simulator_returns_samples toy_observables_listed
                     toy_fit_converges)
                  toy_activation self' [1] HRun eq_refl Hne Hends)
    as (ligands & dose & Hl & Hdose & Hall).
  simpl in Hl. inversion Hl; subst ligands.
  destruct (Hall "L"%string (or_introl eq_refl)) as [entry Hentry].
  exists self', dose, entry. split; [reflexivity|].
  split; [exact Hdose | exact Hentry].
Defined.

End Pipeline.

(* ================================================================= *)
(** ** The dose-response model and the normalization, in closed form *)

Module DoseFacts.

Import Sweep Numerics NumericsFacts Analysis AnalysisFacts.

Local Open Scope R_scope.

Lemma Rpower_base_1 : forall e : R, Rpower 1 e = 1.
Proof.
  intros e. unfold Rpower. rewrite ln_1, Rmult_0_r. apply exp_0.
Qed.

Lemma Rpower_pos : forall b e : R, 0 < Rpower b e.
Proof.
  intros b e. unfold Rpower. apply exp_pos.
Qed.

(** The fitted curve [equation_dose] with a positive midpoint parameter and
    [Bottom <= Top]: at a concentration equal to the midpoint parameter it is
    half way between [Bottom] and [Top]; at every positive concentration it
    lies between [Bottom] and [Top]; with a nonnegative slope it does not
    decrease with the concentration. *)
Theorem equation_dose_shape :
  forall bottom top ec50 slope : R,
    0 < ec50 ->
    bottom <= top ->
    equation_dose ec50 bottom top ec50 slope = (bottom + top) / 2 /\
    (forall X, 0 < X ->
       bottom <= equation_dose X bottom top ec50 slope <= top) /\
    (0 <= slope ->
     forall X1 X2, 0 < X1 -> X1 <= X2 ->
       equation_dose X1 bottom top ec50 slope
       <= equation_dose X2 bottom top ec50 slope).
Proof.
  intros bottom top ec50 slope Hec Hbt. unfold equation_dose.
  split; [|split].
  - replace (ec50 / ec50) with 1 by (field; lra).
    rewrite Rpower_base_1. field.
  - intros X HX.
    pose proof (Rpower_pos (ec50 / X) slope) as Hu.
    set (u := Rpower (ec50 / X) slope) in *.
    assert (H0 : 0 <= (top - bottom) / (1 + u)).
    { apply Rmult_le_pos; [lra | left; apply Rinv_0_lt_compat; lra]. }
    assert (H1 : (top - bottom) / (1 + u) <= top - bottom).
    { apply Rmult_le_reg_r with (1 + u); [lra|].
      unfold Rdiv. rewrite Rmult_assoc, Rinv_l by lra. nra. }
    lra.
  - intros Hslope X1 X2 HX1 HX12.
    assert (Hq : ec50 / X2 <= ec50 / X1).
    { unfold Rdiv. apply Rmult_le_compat_l; [lra|].
      apply Rinv_le_contravar; assumption. }
    assert (Hq0 : 0 < ec50 / X2).
    { apply Rmult_lt_0_compat; [lra | apply Rinv_0_lt_compat; lra]. }
    assert (Hu : Rpower (ec50 / X2) slope <= Rpower (ec50 / X1) slope).
    { apply Rle_Rpower_l; [exact Hslope | split; [exact Hq0 | exact Hq]]. }
    pose proof (Rpower_pos (ec50 / X2) slope) as Hu2.
    set (u1 := Rpower (ec50 / X1) slope) in *.
    set (u2 := Rpower (ec50 / X2) slope) in *.
    apply Rplus_le_compat_l. unfold Rdiv.
    apply Rmult_le_compat_l; [lra|].
    apply Rinv_le_contravar; lra.
Qed.

Lemma equation_dose_shape_witness :
  equation_dose 2 0 1 2 1 = (0 + 1) / 2.
Proof.
  exact (proj1 (@equation_dose_shape 0 1 2 1 ltac:(lra) ltac:(lra))).
Defined.

(** *** Normalization *)

Lemma amin_unique : forall (xs : list R) (m : R),
  In m xs -> (forall v, In v xs -> m <= v) -> amin xs = Ok m.
Proof.
  intros xs m Hin Hle.
  destruct xs as [|a xs]; [destruct Hin|].
  destruct (amin_spec (a :: xs) (m := fold_left Rmin xs a) eq_refl) as [Hin' Hle'].
  simpl amin. f_equal.
  apply Rle_antisym; [apply Hle'; exact Hin | apply Hle; exact Hin'].
Qed.

Lemma amax_unique : forall (xs : list R) (m : R),
  In m xs -> (forall v, In v xs -> v <= m) -> amax xs = Ok m.
Proof.
  intros xs m Hin Hle.
  destruct xs as [|a xs]; [destruct Hin|].
  destruct (amax_spec (a :: xs) (m := fold_left Rmax xs a) eq_refl) as [Hin' Hle'].
  simpl amax. f_equal.
  apply Rle_antisym; [apply Hle; exact Hin' | apply Hle'; exact Hin].
Qed.

Lemma minmax_scale_closed_form :
  forall (xs ys : list R) (lo hi : R),
    minmax_scale xs = Ok ys ->
    amin xs = Ok lo ->
    amax xs = Ok hi ->
    (lo < hi -> ys = map (fun x => (x - lo) / (hi - lo)) xs) /\
    (lo = hi -> ys = map (fun _ => 0) xs).
Proof.
  intros xs ys lo hi H Hlo Hhi. unfold minmax_scale in H.
  rewrite Hlo, Hhi in H. simpl in H. inversion H; subst ys; clear H.
  destruct (amin_spec _ Hlo) as [_ Hmin]. destruct (amax_spec _ Hhi) as [_ Hmax].
  split.
  - intros Hlt. apply map_ext. intros a.
    destruct (Req_dec_T (hi - lo) 0) as [Hz | Hnz]; [lra|]. field. lra.
  - intros Heq. apply map_ext_in. intros a Ha.
    pose proof (Hmin a Ha). pose proof (Hmax a Ha).
    destruct (Req_dec_T (hi - lo) 0) as [Hz | Hnz]; [|lra].
    replace (a * (1 / 1) + (0 - lo * (1 / 1))) with (a - lo) by field. lra.
Qed.

Lemma minmax_scale_nonempty : forall xs ys : list R,
  minmax_scale xs = Ok ys -> exists lo hi, amin xs = Ok lo /\ amax xs = Ok hi.
Proof.
  intros xs ys H. unfold minmax_scale in H.
  apply bind_Ok in H. destruct H as (lo & Hlo & H).
  apply bind_Ok in H. destruct H as (hi & Hhi & _).
  exists lo, hi. split; assumption.
Qed.

(** The normalized response in closed form.  With [lo] and [hi] the
    smallest and the largest raw response of the ligand: for Gs and Gq a raw
    value [r] becomes [(r - lo) / (hi - lo)], for Gi (and "Gz(Gi)") it
    becomes [(hi - r) / (hi - lo)], so that the largest raw response is
    normalized to 1 for Gs and Gq and to 0 for Gi; when all raw responses are
    equal every normalized value is 0. *)
Theorem reduce_normalizes_linearly :
  forall (pathway : option string) (sim_data : list (dict (pyval R))) (n : nat)
         (raw norm : list R),
    reduce pathway sim_data n = Ok (raw, norm) ->
    exists lo hi,
      amin raw = Ok lo /\
      amax raw = Ok hi /\
      (lo < hi ->
       norm = map (fun r =>
                     if pathway_is pathway "Gi" || pathway_is pathway "Gz(Gi)"
                     then (hi - r) / (hi - lo)
                     else (r - lo) / (hi - lo)) raw) /\
      (lo = hi -> norm = map (fun _ => 0) raw).
Proof.
  intros pathway sim_data n raw norm H. unfold reduce in H.
  destruct (pathway_is pathway "Gi" || pathway_is pathway "Gz(Gi)").
  - apply bind_Ok in H. destruct H as (raw' & _ & H).
    apply bind_Ok in H. destruct H as (norm' & Hnorm & H).
    inversion H; subst raw' norm'; clear H.
    destruct (minmax_scale_nonempty _ Hnorm) as (lo' & hi' & Hlo' & Hhi').
    destruct (amin_spec _ Hlo') as [Hin_lo Hle_lo].
    destruct (amax_spec _ Hhi') as [Hin_hi Hle_hi].
    apply in_map_iff in Hin_lo. destruct Hin_lo as (hi & <- & Hhi_in).
    apply in_map_iff in Hin_hi. destruct Hin_hi as (lo & <- & Hlo_in).
    assert (Hmax : forall v, In v raw -> v <= hi).
    { intros v Hv. pose proof (Hle_lo (1 - v) (in_map _ _ _ Hv)). lra. }
    assert (Hmin : forall v, In v raw -> lo <= v).
    { intros v Hv. pose proof (Hle_hi (1 - v) (in_map _ _ _ Hv)). lra. }
    exists lo, hi.
    split; [apply amin_unique; assumption|].
    split; [apply amax_unique; assumption|].
    destruct (minmax_scale_closed_form _ Hnorm Hlo' Hhi') as [Hlt Heq].
    split.
    + intros Hlh. rewrite Hlt by lra. rewrite map_map.
      apply map_ext. intros a. field. lra.
    + intros Hlh. rewrite Heq by lra. rewrite map_map. reflexivity.
  - assert (Hid : forall raw0 norm0 : list R,
               minmax_scale raw0 = Ok norm0 ->
               exists lo hi,
                 amin raw0 = Ok lo /\ amax raw0 = Ok hi /\
                 (lo < hi -> norm0 = map (fun r => (r - lo) / (hi - lo)) raw0) /\
                 (lo = hi -> norm0 = map (fun _ => 0) raw0)).
    { intros raw0 norm0 Hn.
      destruct (minmax_scale_nonempty _ Hn) as (lo & hi & Hlo & Hhi).
      exists lo, hi. split; [exact Hlo|]. split; [exact Hhi|].
      exact (minmax_scale_closed_form _ Hn Hlo Hhi). }
    destruct (pathway_is pathway "Gs").
    + apply bind_Ok in H. destruct H as (raw' & _ & H).
      apply bind_Ok in H. destruct H as (norm' & Hnorm & H).
      inversion H; subst raw' norm'. exact (Hid _ _ Hnorm).
    + destruct (pathway_is pathway "Gq"); [|discriminate].
      apply bind_Ok in H. destruct H as (raw' & _ & H).
      apply bind_Ok in H. destruct H as (norm' & Hnorm & H).
      inversion H; subst raw' norm'. exact (Hid _ _ Hnorm).
Qed.

Lemma reduce_normalizes_linearly_witness :
  exists raw norm lo hi,
    reduce (Some "Gi"%string)
      [[("obs_cAMP"%string, VArr [3; 4])]; [("obs_cAMP"%string, VArr [1; 2])]] 2
    = Ok (raw, norm) /\
    amin raw = Ok lo /\
    amax raw = Ok hi.
Proof.
  destruct (reduce (Some "Gi"%string)
              [[("obs_cAMP"%string, VArr [3; 4])];
               [("obs_cAMP"%string, VArr [1; 2])]] 2)
    as [[raw norm] | e] eqn:H; [|discriminate].
  destruct (reduce_normalizes_linearly _ _ _ H) as (lo & hi & Hlo & Hhi & _).
  exists raw, norm, lo, hi. split; [reflexivity|]. split; assumption.
Defined.

End DoseFacts.
